(** * huggingface-transformers-react: the provider's orchestration layer

    A shallow embedding of [TransformersProvider] (src/index.tsx): the
    library load state machine with its retry controller, the model cache
    with its pending-request table, the WebLLM boot (script tag, poll loop
    and default engine), and the WebLLM engine session manager with the
    chat helpers.

    Modelling conventions.
    - A React state cell ([useState]) is a field holding the latest value;
      a setter with an updater function applies the updater to that field.
      What a callback created by [useCallback] read from the render that
      created it is passed explicitly, as a [Closure] or a snapshot.
    - A ref ([useRef]) is a field of the same name.
    - An [async] function is cut at its [await]s: the synchronous run up
      to the first [await] is one function, each resumption is another, and
      what is suspended is kept in the state as a continuation.
    - What the environment decides (the clock, [Math.random], the global
      namespace, how a runtime promise settles) is an argument.
    - [console.debug] and [console.error] are not modelled. *)

From Stdlib Require Import ZArith QArith Lqa Lia List.
From stdpp Require Import base option list strings pretty gmap fin_maps.

Local Open Scope Z_scope.

(** ** Shared types *)

(** [ModelStatus = "idle" | "loading" | "ready" | "error"]; [Failed] is
    "error", the name [Error] being taken by the error values. *)
Inductive ModelStatus := Idle | Loading | Ready | Failed.

Definition ModelStatus_eqb (a b : ModelStatus) : bool :=
  match a, b with
  | Idle, Idle | Loading, Loading | Ready, Ready | Failed, Failed => true
  | _, _ => false
  end.

(** The [Error] values the provider creates, and [Thrown] for whatever
    the runtime throws or rejects with. *)
Inductive Error :=
| ScriptLoadError                 (* "Script load error" *)
| NotReadyWithin (ms : Z)         (* "transformers.js not ready within ${loadTimeout} ms" *)
| WebLLMNotEnabledLong            (* "WebLLM is not enabled. Set enableWebLLM={true} in TransformersProvider" *)
| WebLLMNotEnabled                (* "WebLLM is not enabled" *)
| WebLLMNotLoadedYet              (* "WebLLM library not loaded yet" *)
| EngineNotInitialized            (* "WebLLM engine not initialized. Call loadWebLLMModel first." *)
| NotIterable                     (* TypeError of [for await] over a value that is no stream *)
| Thrown (msg : string).

(** A promise is pending or settled one way. *)
Inductive Settled (A : Type) :=
| Resolved (a : A)
| Rejected (e : Error).
Arguments Resolved {A} a.
Arguments Rejected {A} e.

Inductive PromiseState (A : Type) :=
| Pending
| Done (r : Settled A).
Arguments Pending {A}.
Arguments Done {A} r.

(** ** The retry controller's delay *)

Module Backoff.

Definition BACKOFF_CAP : Z := 60000.

(** [Math.min(1000 * 2 ** (attempt - 1), BACKOFF_CAP)]. *)
Definition backoff_base (attempt : Z) : Z :=
  Z.min (1000 * 2 ^ (attempt - 1)) BACKOFF_CAP.

(** [backoff_base + Math.random() * 1000], with [rnd] the value
    [Math.random()] returns, a number of [0, 1). The arithmetic is exact:
    the rounding of IEEE doubles is not modelled. *)
Definition backoff_delay (attempt : Z) (rnd : Q) : Q :=
  (inject_Z (backoff_base attempt) + rnd * 1000)%Q.

(** What [Math.random] may return. *)
Definition is_random (rnd : Q) : Prop := (0 <= rnd)%Q /\ (rnd < 1)%Q.

End Backoff.

(** ** The library load state machine *)

Module LibraryLoad.
Import Backoff.

(** The provider's props the state machine reads. *)
Record Props := {
  isBrowser : bool;
  loadTimeout : Z;
  maxRetries : Z;
  has_onLibraryError : bool
}.

Definition DEFAULT_LOAD_TIMEOUT : Z := 60000.
Definition DEFAULT_MAX_RETRIES : Z := 3.

(** What [tryLoadLibrary] read from the render that created it: its
    dependencies [isLibraryLoaded] and [libraryStatus]. *)
Record Closure := {
  cl_isLibraryLoaded : bool;
  cl_libraryStatus : ModelStatus
}.

(** What a timer runs: [tick] of a poll loop with its deadline, or
    [tryLoadLibrary]; each of the render it was created in. *)
Inductive Callback :=
| CbTick (cl : Closure) (deadline : Z)
| CbTryLoadLibrary (cl : Closure).

Record Timer := {
  t_id : positive;
  t_delay : Q;
  t_cb : Callback
}.

(** A script element of [document.head], with the render its [onerror]
    handler belongs to. *)
Record Script := {
  el_id : positive;
  el_onerror : Closure
}.

Record State := {
  isLibraryLoaded : bool;
  libraryStatus : ModelStatus;
  libraryError : option Error;
  scriptRef : option positive;
  pollTimerRef : option positive;
  isPollingRef : bool;
  libraryAttemptRef : Z;
  readyPromise : PromiseState unit;
  head : list Script;
  timers : list Timer;
  next_id : positive;
  onLibraryError_calls : list Error
}.

(** What the environment gives one run: [Date.now()], whether
    [window.transformers?.pipeline] is there, and [Math.random()]. The
    clock does not advance within one synchronous run. *)
Record Env := {
  clock : Z;
  pipeline_present : bool;
  random : Q
}.

Definition initial : State :=
  {| isLibraryLoaded := false; libraryStatus := Idle; libraryError := None;
     scriptRef := None; pollTimerRef := None; isPollingRef := false;
     libraryAttemptRef := 0; readyPromise := Pending; head := [];
     timers := []; next_id := 1%positive; onLibraryError_calls := [] |}.

(** The closure of the current render. *)
Definition render (s : State) : Closure :=
  {| cl_isLibraryLoaded := isLibraryLoaded s; cl_libraryStatus := libraryStatus s |}.

(** *** Field updates *)

Definition set_isLibraryLoaded (v : bool) (s : State) : State :=
  {| isLibraryLoaded := v; libraryStatus := libraryStatus s; libraryError := libraryError s;
     scriptRef := scriptRef s; pollTimerRef := pollTimerRef s; isPollingRef := isPollingRef s;
     libraryAttemptRef := libraryAttemptRef s; readyPromise := readyPromise s; head := head s;
     timers := timers s; next_id := next_id s; onLibraryError_calls := onLibraryError_calls s |}.

Definition setLibraryStatus (v : ModelStatus) (s : State) : State :=
  {| isLibraryLoaded := isLibraryLoaded s; libraryStatus := v; libraryError := libraryError s;
     scriptRef := scriptRef s; pollTimerRef := pollTimerRef s; isPollingRef := isPollingRef s;
     libraryAttemptRef := libraryAttemptRef s; readyPromise := readyPromise s; head := head s;
     timers := timers s; next_id := next_id s; onLibraryError_calls := onLibraryError_calls s |}.

Definition setLibraryError (v : option Error) (s : State) : State :=
  {| isLibraryLoaded := isLibraryLoaded s; libraryStatus := libraryStatus s; libraryError := v;
     scriptRef := scriptRef s; pollTimerRef := pollTimerRef s; isPollingRef := isPollingRef s;
     libraryAttemptRef := libraryAttemptRef s; readyPromise := readyPromise s; head := head s;
     timers := timers s; next_id := next_id s; onLibraryError_calls := onLibraryError_calls s |}.

Definition set_scriptRef (v : option positive) (s : State) : State :=
  {| isLibraryLoaded := isLibraryLoaded s; libraryStatus := libraryStatus s; libraryError := libraryError s;
     scriptRef := v; pollTimerRef := pollTimerRef s; isPollingRef := isPollingRef s;
     libraryAttemptRef := libraryAttemptRef s; readyPromise := readyPromise s; head := head s;
     timers := timers s; next_id := next_id s; onLibraryError_calls := onLibraryError_calls s |}.

Definition set_pollTimerRef (v : option positive) (s : State) : State :=
  {| isLibraryLoaded := isLibraryLoaded s; libraryStatus := libraryStatus s; libraryError := libraryError s;
     scriptRef := scriptRef s; pollTimerRef := v; isPollingRef := isPollingRef s;
     libraryAttemptRef := libraryAttemptRef s; readyPromise := readyPromise s; head := head s;
     timers := timers s; next_id := next_id s; onLibraryError_calls := onLibraryError_calls s |}.

Definition set_isPollingRef (v : bool) (s : State) : State :=
  {| isLibraryLoaded := isLibraryLoaded s; libraryStatus := libraryStatus s; libraryError := libraryError s;
     scriptRef := scriptRef s; pollTimerRef := pollTimerRef s; isPollingRef := v;
     libraryAttemptRef := libraryAttemptRef s; readyPromise := readyPromise s; head := head s;
     timers := timers s; next_id := next_id s; onLibraryError_calls := onLibraryError_calls s |}.

Definition set_libraryAttemptRef (v : Z) (s : State) : State :=
  {| isLibraryLoaded := isLibraryLoaded s; libraryStatus := libraryStatus s; libraryError := libraryError s;
     scriptRef := scriptRef s; pollTimerRef := pollTimerRef s; isPollingRef := isPollingRef s;
     libraryAttemptRef := v; readyPromise := readyPromise s; head := head s;
     timers := timers s; next_id := next_id s; onLibraryError_calls := onLibraryError_calls s |}.

Definition set_readyPromise (v : PromiseState unit) (s : State) : State :=
  {| isLibraryLoaded := isLibraryLoaded s; libraryStatus := libraryStatus s; libraryError := libraryError s;
     scriptRef := scriptRef s; pollTimerRef := pollTimerRef s; isPollingRef := isPollingRef s;
     libraryAttemptRef := libraryAttemptRef s; readyPromise := v; head := head s;
     timers := timers s; next_id := next_id s; onLibraryError_calls := onLibraryError_calls s |}.

Definition set_head (v : list Script) (s : State) : State :=
  {| isLibraryLoaded := isLibraryLoaded s; libraryStatus := libraryStatus s; libraryError := libraryError s;
     scriptRef := scriptRef s; pollTimerRef := pollTimerRef s; isPollingRef := isPollingRef s;
     libraryAttemptRef := libraryAttemptRef s; readyPromise := readyPromise s; head := v;
     timers := timers s; next_id := next_id s; onLibraryError_calls := onLibraryError_calls s |}.

Definition set_timers (v : list Timer) (s : State) : State :=
  {| isLibraryLoaded := isLibraryLoaded s; libraryStatus := libraryStatus s; libraryError := libraryError s;
     scriptRef := scriptRef s; pollTimerRef := pollTimerRef s; isPollingRef := isPollingRef s;
     libraryAttemptRef := libraryAttemptRef s; readyPromise := readyPromise s; head := head s;
     timers := v; next_id := next_id s; onLibraryError_calls := onLibraryError_calls s |}.

Definition set_next_id (v : positive) (s : State) : State :=
  {| isLibraryLoaded := isLibraryLoaded s; libraryStatus := libraryStatus s; libraryError := libraryError s;
     scriptRef := scriptRef s; pollTimerRef := pollTimerRef s; isPollingRef := isPollingRef s;
     libraryAttemptRef := libraryAttemptRef s; readyPromise := readyPromise s; head := head s;
     timers := timers s; next_id := v; onLibraryError_calls := onLibraryError_calls s |}.

Definition log_onLibraryError (e : Error) (s : State) : State :=
  {| isLibraryLoaded := isLibraryLoaded s; libraryStatus := libraryStatus s; libraryError := libraryError s;
     scriptRef := scriptRef s; pollTimerRef := pollTimerRef s; isPollingRef := isPollingRef s;
     libraryAttemptRef := libraryAttemptRef s; readyPromise := readyPromise s; head := head s;
     timers := timers s; next_id := next_id s;
     onLibraryError_calls := onLibraryError_calls s ++ [e] |}.

(** *** The host's timers and promises *)

(** [setTimeout(cb, delay)]: the timer is queued under a new id, which is
    returned. Ids are positive, as the truthiness test in [clearPolling]
    expects. *)
Definition setTimeout (cb : Callback) (delay : Q) (s : State) : positive * State :=
  (next_id s,
   set_next_id (Pos.succ (next_id s))
     (set_timers (timers s ++ [{| t_id := next_id s; t_delay := delay; t_cb := cb |}]) s)).

Definition clearTimeout (id : positive) (s : State) : State :=
  set_timers (List.filter (fun t => negb (t_id t =? id)%positive) (timers s)) s.

(** Settling a promise that is settled already does nothing. *)
Definition settle_ready (r : Settled unit) (s : State) : State :=
  match readyPromise s with
  | Pending => set_readyPromise (Done r) s
  | Done _ => s
  end.

Section Provider.
Variable P : Props.

(** *** helpers: polling & script *)

Definition clearPolling (s : State) : State :=
  let s1 :=
    match pollTimerRef s with
    | Some id => set_pollTimerRef None (clearTimeout id s)
    | None => s
    end in
  set_isPollingRef false s1.

Definition removeScriptTag (s : State) : State :=
  let s1 :=
    match scriptRef s with
    | Some el => set_head (List.filter (fun sc => negb (el_id sc =? el)%positive) (head s)) s
    | None => s
    end in
  set_scriptRef None s1.

(** [handleLibraryFailure] of the render [cl]: the [tryLoadLibrary] it
    schedules is the one of that render. *)
Definition handleLibraryFailure (cl : Closure) (err : Error) (env : Env) (s : State) : State :=
  let s1 := clearPolling s in
  let s2 := set_libraryAttemptRef (libraryAttemptRef s1 + 1) s1 in
  if libraryAttemptRef s2 <? maxRetries P then
    let delay := backoff_delay (libraryAttemptRef s2) (random env) in
    snd (setTimeout (CbTryLoadLibrary cl) delay s2)
  else
    let s3 := setLibraryError (Some err) s2 in
    let s4 := setLibraryStatus Failed s3 in
    let s5 := settle_ready (Rejected err) s4 in
    if has_onLibraryError P then log_onLibraryError err s5 else s5.

(** One run of [tick] of the poll loop started with [deadline]. *)
Definition tick (cl : Closure) (deadline : Z) (env : Env) (s : State) : State :=
  if pipeline_present env then
    let s1 := removeScriptTag (clearPolling s) in
    let s2 := set_isLibraryLoaded true s1 in
    let s3 := setLibraryStatus Ready s2 in
    settle_ready (Resolved tt) s3
  else if deadline <=? clock env then
    let s1 := removeScriptTag (clearPolling s) in
    handleLibraryFailure cl (NotReadyWithin (loadTimeout P)) env s1
  else
    let '(id, s1) := setTimeout (CbTick cl deadline) 500 s in
    set_pollTimerRef (Some id) s1.

(** Starts the poll loop if not already running. *)
Definition ensurePolling (cl : Closure) (deadline : Z) (env : Env) (s : State) : State :=
  if isPollingRef s then s
  else tick cl deadline env (set_isPollingRef true s).

(** Injects the ESM script once. *)
Definition injectScriptTag (cl : Closure) (s : State) : State :=
  match scriptRef s with
  | Some _ => s
  | None =>
      let el := next_id s in
      let s1 := set_next_id (Pos.succ el) s in
      let s2 := set_head (head s1 ++ [{| el_id := el; el_onerror := cl |}]) s1 in
      set_scriptRef (Some el) s2
  end.

(** [script.onerror] of a script injected by the render [cl]. *)
Definition script_onerror (cl : Closure) (env : Env) (s : State) : State :=
  handleLibraryFailure cl ScriptLoadError env (removeScriptTag (clearPolling s)).

(** The guard of [tryLoadLibrary]: it reads the render's values. *)
Definition may_start (cl : Closure) : bool :=
  isBrowser P
  && negb (cl_isLibraryLoaded cl || ModelStatus_eqb (cl_libraryStatus cl) Loading).

Definition tryLoadLibrary (cl : Closure) (env : Env) (s : State) : State :=
  if negb (isBrowser P) then s
  else if cl_isLibraryLoaded cl || ModelStatus_eqb (cl_libraryStatus cl) Loading then s
  else
    let s1 := setLibraryStatus Loading s in
    let s2 := setLibraryError None s1 in
    let s3 := injectScriptTag cl s2 in
    ensurePolling cl (clock env + loadTimeout P) env s3.

(** *** Events *)

Definition run_callback (cb : Callback) (env : Env) (s : State) : State :=
  match cb with
  | CbTick cl deadline => tick cl deadline env s
  | CbTryLoadLibrary cl => tryLoadLibrary cl env s
  end.

(** The timer [id] expires: it leaves the queue and its callback runs. *)
Definition fire_timer (id : positive) (env : Env) (s : State) : State :=
  match find (fun t => (t_id t =? id)%positive) (timers s) with
  | Some t => run_callback (t_cb t) env (clearTimeout id s)
  | None => s
  end.

(** What can happen to the state machine: the mount effect (or a later
    run of it) calls [tryLoadLibrary] of the current render, a timer
    expires, or a script in the document fails to load. *)
Inductive Event :=
| EvEffect
| EvTimer (id : positive)
| EvScriptError (el : positive).

Definition step (ev : Event) (env : Env) (s : State) : State :=
  match ev with
  | EvEffect => tryLoadLibrary (render s) env s
  | EvTimer id => fire_timer id env s
  | EvScriptError el =>
      match find (fun sc => (el_id sc =? el)%positive) (head s) with
      | Some sc => script_onerror (el_onerror sc) env s
      | None => s
      end
  end.

Fixpoint run (evs : list (Event * Env)) (s : State) : State :=
  match evs with
  | [] => s
  | (ev, env) :: rest => run rest (step ev env s)
  end.

(** The state a failed attempt leaves for [handleLibraryFailure]: the poll
    loop stopped and the script out of the document. *)
Definition stopped (s : State) : State :=
  set_scriptRef None (set_head [] (set_isPollingRef false
    (set_pollTimerRef None (set_timers [] s)))).

(** An event that is a failure of the load attempt under way: the timer
    of a [tick] expires with the entry point missing and the deadline
    reached, or a script of the document fails to load. *)
Definition is_load_failure (ev : Event) (env : Env) (s : State) : Prop :=
  match ev with
  | EvEffect => False
  | EvTimer id =>
      exists t cl deadline,
        find (fun t => (t_id t =? id)%positive) (timers s) = Some t /\
        t_cb t = CbTick cl deadline /\
        pipeline_present env = false /\ deadline <= clock env
  | EvScriptError el =>
      exists sc, find (fun sc => (el_id sc =? el)%positive) (head s) = Some sc
  end.

(** The three shapes of the state between two events: nothing under
    way; a poll loop of the render [cl] waiting for its next [tick] with
    the script in the document; a retry of the render [cl] waiting for its
    delay. *)
Inductive Phase (s : State) : Prop :=
| Quiescent :
    timers s = [] -> head s = [] -> scriptRef s = None ->
    pollTimerRef s = None -> isPollingRef s = false ->
    Phase s
| Polling (cl : Closure) (deadline : Z) (tid el : positive) :
    timers s = [{| t_id := tid; t_delay := 500; t_cb := CbTick cl deadline |}] ->
    pollTimerRef s = Some tid ->
    head s = [{| el_id := el; el_onerror := cl |}] ->
    scriptRef s = Some el ->
    isPollingRef s = true ->
    libraryStatus s = Loading ->
    may_start cl = true ->
    (tid < next_id s)%positive -> (el < next_id s)%positive ->
    Phase s
| BackingOff (cl : Closure) (tid : positive) (delay : Q) :
    timers s = [{| t_id := tid; t_delay := delay; t_cb := CbTryLoadLibrary cl |}] ->
    head s = [] -> scriptRef s = None ->
    pollTimerRef s = None -> isPollingRef s = false ->
    libraryStatus s = Loading ->
    may_start cl = true ->
    (tid < next_id s)%positive ->
    Phase s.

End Provider.

Definition default_props : Props :=
  {| isBrowser := true; loadTimeout := DEFAULT_LOAD_TIMEOUT;
     maxRetries := DEFAULT_MAX_RETRIES; has_onLibraryError := false |}.

End LibraryLoad.

(** ** The model cache and loader *)

Module ModelCache.

(** A handle the factory resolves to: an object (so truthy), which may
    have a [dispose] function; [Some true] is a [dispose] that throws. *)
Record Handle := {
  h_id : nat;
  h_dispose : option bool
}.

(** Where an [attempt] of a [loadModel] call is suspended: at
    [await readyPromiseRef.current] or at [await p]. *)
Inductive Cont :=
| AwaitReady (modelId task : string) (remain : Z)
| AwaitPipeline (modelId task : string) (remain : Z) (p : positive).

(** What the promise a [loadModel] call returns is bound to. *)
Inductive Returned :=
| RetCached (h : Handle)        (* return models[modelId] *)
| RetPending (p : positive)     (* return pendingRef.current[modelId] *)
| RetAttempt.                   (* return attempt(retry) *)

Record State := {
  models : gmap string Handle;
  modelStatus : gmap string ModelStatus;
  modelErrors : gmap string (option Error);
  pendingRef : gmap string positive;
  readyPromise : PromiseState unit;
  promises : gmap positive (PromiseState Handle);
  next_promise : positive;
  pipeline_calls : list (string * string);
  conts : gmap nat Cont;
  returned : gmap nat Returned;
  attempt_result : gmap nat (Settled Handle);
  onModelError_calls : list (string * Error);
  dispose_calls : list Handle
}.

Definition initial : State :=
  {| models := ∅; modelStatus := ∅; modelErrors := ∅; pendingRef := ∅;
     readyPromise := Pending; promises := ∅; next_promise := 1%positive;
     pipeline_calls := []; conts := ∅; returned := ∅; attempt_result := ∅;
     onModelError_calls := []; dispose_calls := [] |}.

(** *** Field updates *)

Definition set_models (v : gmap string Handle) (s : State) : State :=
  {| models := v; modelStatus := modelStatus s; modelErrors := modelErrors s;
     pendingRef := pendingRef s; readyPromise := readyPromise s; promises := promises s;
     next_promise := next_promise s; pipeline_calls := pipeline_calls s; conts := conts s;
     returned := returned s; attempt_result := attempt_result s;
     onModelError_calls := onModelError_calls s; dispose_calls := dispose_calls s |}.

Definition set_modelStatus (v : gmap string ModelStatus) (s : State) : State :=
  {| models := models s; modelStatus := v; modelErrors := modelErrors s;
     pendingRef := pendingRef s; readyPromise := readyPromise s; promises := promises s;
     next_promise := next_promise s; pipeline_calls := pipeline_calls s; conts := conts s;
     returned := returned s; attempt_result := attempt_result s;
     onModelError_calls := onModelError_calls s; dispose_calls := dispose_calls s |}.

Definition set_modelErrors (v : gmap string (option Error)) (s : State) : State :=
  {| models := models s; modelStatus := modelStatus s; modelErrors := v;
     pendingRef := pendingRef s; readyPromise := readyPromise s; promises := promises s;
     next_promise := next_promise s; pipeline_calls := pipeline_calls s; conts := conts s;
     returned := returned s; attempt_result := attempt_result s;
     onModelError_calls := onModelError_calls s; dispose_calls := dispose_calls s |}.

Definition set_pendingRef (v : gmap string positive) (s : State) : State :=
  {| models := models s; modelStatus := modelStatus s; modelErrors := modelErrors s;
     pendingRef := v; readyPromise := readyPromise s; promises := promises s;
     next_promise := next_promise s; pipeline_calls := pipeline_calls s; conts := conts s;
     returned := returned s; attempt_result := attempt_result s;
     onModelError_calls := onModelError_calls s; dispose_calls := dispose_calls s |}.

Definition set_readyPromise (v : PromiseState unit) (s : State) : State :=
  {| models := models s; modelStatus := modelStatus s; modelErrors := modelErrors s;
     pendingRef := pendingRef s; readyPromise := v; promises := promises s;
     next_promise := next_promise s; pipeline_calls := pipeline_calls s; conts := conts s;
     returned := returned s; attempt_result := attempt_result s;
     onModelError_calls := onModelError_calls s; dispose_calls := dispose_calls s |}.

Definition set_promises (v : gmap positive (PromiseState Handle)) (s : State) : State :=
  {| models := models s; modelStatus := modelStatus s; modelErrors := modelErrors s;
     pendingRef := pendingRef s; readyPromise := readyPromise s; promises := v;
     next_promise := next_promise s; pipeline_calls := pipeline_calls s; conts := conts s;
     returned := returned s; attempt_result := attempt_result s;
     onModelError_calls := onModelError_calls s; dispose_calls := dispose_calls s |}.

Definition set_next_promise (v : positive) (s : State) : State :=
  {| models := models s; modelStatus := modelStatus s; modelErrors := modelErrors s;
     pendingRef := pendingRef s; readyPromise := readyPromise s; promises := promises s;
     next_promise := v; pipeline_calls := pipeline_calls s; conts := conts s;
     returned := returned s; attempt_result := attempt_result s;
     onModelError_calls := onModelError_calls s; dispose_calls := dispose_calls s |}.

Definition log_pipeline (task modelId : string) (s : State) : State :=
  {| models := models s; modelStatus := modelStatus s; modelErrors := modelErrors s;
     pendingRef := pendingRef s; readyPromise := readyPromise s; promises := promises s;
     next_promise := next_promise s;
     pipeline_calls := pipeline_calls s ++ [(task, modelId)]; conts := conts s;
     returned := returned s; attempt_result := attempt_result s;
     onModelError_calls := onModelError_calls s; dispose_calls := dispose_calls s |}.

Definition set_conts (v : gmap nat Cont) (s : State) : State :=
  {| models := models s; modelStatus := modelStatus s; modelErrors := modelErrors s;
     pendingRef := pendingRef s; readyPromise := readyPromise s; promises := promises s;
     next_promise := next_promise s; pipeline_calls := pipeline_calls s; conts := v;
     returned := returned s; attempt_result := attempt_result s;
     onModelError_calls := onModelError_calls s; dispose_calls := dispose_calls s |}.

Definition set_returned (v : gmap nat Returned) (s : State) : State :=
  {| models := models s; modelStatus := modelStatus s; modelErrors := modelErrors s;
     pendingRef := pendingRef s; readyPromise := readyPromise s; promises := promises s;
     next_promise := next_promise s; pipeline_calls := pipeline_calls s; conts := conts s;
     returned := v; attempt_result := attempt_result s;
     onModelError_calls := onModelError_calls s; dispose_calls := dispose_calls s |}.

Definition set_attempt_result (v : gmap nat (Settled Handle)) (s : State) : State :=
  {| models := models s; modelStatus := modelStatus s; modelErrors := modelErrors s;
     pendingRef := pendingRef s; readyPromise := readyPromise s; promises := promises s;
     next_promise := next_promise s; pipeline_calls := pipeline_calls s; conts := conts s;
     returned := returned s; attempt_result := v;
     onModelError_calls := onModelError_calls s; dispose_calls := dispose_calls s |}.

Definition log_onModelError (modelId : string) (e : Error) (s : State) : State :=
  {| models := models s; modelStatus := modelStatus s; modelErrors := modelErrors s;
     pendingRef := pendingRef s; readyPromise := readyPromise s; promises := promises s;
     next_promise := next_promise s; pipeline_calls := pipeline_calls s; conts := conts s;
     returned := returned s; attempt_result := attempt_result s;
     onModelError_calls := onModelError_calls s ++ [(modelId, e)];
     dispose_calls := dispose_calls s |}.

Definition log_dispose (h : Handle) (s : State) : State :=
  {| models := models s; modelStatus := modelStatus s; modelErrors := modelErrors s;
     pendingRef := pendingRef s; readyPromise := readyPromise s; promises := promises s;
     next_promise := next_promise s; pipeline_calls := pipeline_calls s; conts := conts s;
     returned := returned s; attempt_result := attempt_result s;
     onModelError_calls := onModelError_calls s;
     dispose_calls := dispose_calls s ++ [h] |}.

Section Provider.
(** Whether the [onModelError] prop was given. *)
Variable has_onModelError : bool.

(** [pipeline(task, modelId)]: the factory is called and hands back a
    new promise, pending until the runtime settles it. *)
Definition pipeline (task modelId : string) (s : State) : positive * State :=
  let p := next_promise s in
  (p, set_next_promise (Pos.succ p)
        (set_promises (<[p := Pending]> (promises s))
           (log_pipeline task modelId s))).

(** [attempt(remain)] of the call [c], run up to its first [await]. *)
Definition attempt (c : nat) (modelId task : string) (remain : Z) (s : State) : State :=
  set_conts (<[c := AwaitReady modelId task remain]> (conts s)) s.

(** The [catch] block of [attempt(remain)]. *)
Definition attempt_catch (c : nat) (modelId task : string) (remain : Z)
    (err : Error) (s : State) : State :=
  if 0 <? remain then attempt c modelId task (remain - 1) s
  else
    let s1 := set_modelErrors (<[modelId := Some err]> (modelErrors s)) s in
    let s2 := set_modelStatus (<[modelId := Failed]> (modelStatus s1)) s1 in
    let s3 := set_pendingRef (delete modelId (pendingRef s2)) s2 in
    let s4 := if has_onModelError then log_onModelError modelId err s3 else s3 in
    set_conts (delete c (conts s4))
      (set_attempt_result (<[c := Rejected err]> (attempt_result s4)) s4).

(** [loadModel(modelId, task, retry)] as the call [c], made through a
    [loadModel] whose render saw the model table [seen]; run up to the
    first [await]. *)
Definition loadModel (c : nat) (seen : gmap string Handle)
    (modelId task : string) (retry : Z) (s : State) : State :=
  match seen !! modelId with
  | Some h => set_returned (<[c := RetCached h]> (returned s)) s
  | None =>
      match pendingRef s !! modelId with
      | Some p => set_returned (<[c := RetPending p]> (returned s)) s
      | None =>
          let s1 := set_modelStatus (<[modelId := Loading]> (modelStatus s)) s in
          let s2 := set_modelErrors (<[modelId := None]> (modelErrors s1)) s1 in
          let s3 := set_returned (<[c := RetAttempt]> (returned s2)) s2 in
          attempt c modelId task retry s3
      end
  end.

(** The call [c] resumes after [await readyPromiseRef.current]. *)
Definition resume_ready (c : nat) (s : State) : State :=
  match conts s !! c with
  | Some (AwaitReady modelId task remain) =>
      match readyPromise s with
      | Pending => s
      | Done (Resolved _) =>
          let '(p, s1) := pipeline task modelId s in
          let s2 := set_pendingRef (<[modelId := p]> (pendingRef s1)) s1 in
          set_conts (<[c := AwaitPipeline modelId task remain p]> (conts s2)) s2
      | Done (Rejected err) => attempt_catch c modelId task remain err s
      end
  | _ => s
  end.

(** The call [c] resumes after [await p]. *)
Definition resume_pipeline (c : nat) (s : State) : State :=
  match conts s !! c with
  | Some (AwaitPipeline modelId task remain p) =>
      match promises s !! p with
      | Some (Done (Resolved pipe)) =>
          let s1 := set_models (<[modelId := pipe]> (models s)) s in
          let s2 := set_modelStatus (<[modelId := Ready]> (modelStatus s1)) s1 in
          let s3 := set_pendingRef (delete modelId (pendingRef s2)) s2 in
          set_conts (delete c (conts s3))
            (set_attempt_result (<[c := Resolved pipe]> (attempt_result s3)) s3)
      | Some (Done (Rejected err)) => attempt_catch c modelId task remain err s
      | _ => s
      end
  | _ => s
  end.

(** The runtime settles the promise [p] of a factory call. *)
Definition settle (p : positive) (r : Settled Handle) (s : State) : State :=
  match promises s !! p with
  | Some Pending => set_promises (<[p := Done r]> (promises s)) s
  | _ => s
  end.

Definition settle_ready (r : Settled unit) (s : State) : State :=
  match readyPromise s with
  | Pending => set_readyPromise (Done r) s
  | Done _ => s
  end.

Definition unloadModel (modelId : string) (s : State) : State :=
  let s1 := set_pendingRef (delete modelId (pendingRef s)) s in
  let s2 :=
    match models s1 !! modelId with
    | Some pipe =>
        match h_dispose pipe with
        | Some _ => log_dispose pipe s1
        | None => s1
        end
    | None => s1
    end in
  let s3 := set_models (delete modelId (models s2)) s2 in
  let s4 := set_modelStatus (delete modelId (modelStatus s3)) s3 in
  set_modelErrors (delete modelId (modelErrors s4)) s4.

(** *** Events *)

Inductive Event :=
| Call (c : nat) (seen : gmap string Handle) (modelId task : string) (retry : Z)
| LibraryReady
| LibraryFailed (err : Error)
| ResumeReady (c : nat)
| Settle (p : positive) (r : Settled Handle)
| ResumePipeline (c : nat)
| Unload (modelId : string).

Definition step (ev : Event) (s : State) : State :=
  match ev with
  | Call c seen modelId task retry => loadModel c seen modelId task retry s
  | LibraryReady => settle_ready (Resolved tt) s
  | LibraryFailed err => settle_ready (Rejected err) s
  | ResumeReady c => resume_ready c s
  | Settle p r => settle p r s
  | ResumePipeline c => resume_pipeline c s
  | Unload modelId => unloadModel modelId s
  end.

Fixpoint run (evs : list Event) (s : State) : State :=
  match evs with
  | [] => s
  | ev :: rest => run rest (step ev s)
  end.

(** How the promise the call [c] returned has settled, if it has. *)
Definition call_outcome (c : nat) (s : State) : option (Settled Handle) :=
  match returned s !! c with
  | Some (RetCached h) => Some (Resolved h)
  | Some (RetPending p) =>
      match promises s !! p with
      | Some (Done r) => Some r
      | _ => None
      end
  | Some RetAttempt => attempt_result s !! c
  | None => None
  end.

(** The call [c], suspended at [await readyPromiseRef.current] with the
    library ready, meets a factory that rejects every time: each element
    of [errs] is one attempt, resumed, rejected and resumed again. *)
Fixpoint all_attempts_fail (c : nat) (errs : list Error) (s : State) : State :=
  match errs with
  | [] => s
  | err :: rest =>
      let s1 := resume_ready c s in
      let s2 := settle (next_promise s) (Rejected err) s1 in
      all_attempts_fail c rest (resume_pipeline c s2)
  end.

End Provider.

(** Two handles with a [dispose] function, for concrete runs. *)
Definition h1 : Handle := {| h_id := 1; h_dispose := Some false |}.
Definition h2 : Handle := {| h_id := 2; h_dispose := Some false |}.

End ModelCache.

(** ** The retry controller of the WebLLM load state machine *)

Module WebLLMLoad.
Import Backoff.

(** What [tryLoadWebLLM] read from the render that created it. *)
Record Closure := {
  cl_webLLMStatus : ModelStatus
}.

Inductive Callback :=
| CbTick (cl : Closure) (deadline : Z)
| CbTryLoadWebLLM (cl : Closure).

Record Timer := {
  t_id : positive;
  t_delay : Q;
  t_cb : Callback
}.

(** The cells [handleWebLLMFailure] reads and writes. *)
Record State := {
  webLLMStatus : ModelStatus;
  webLLMError : option Error;
  webLLMPollTimerRef : option positive;
  isWebLLMPollingRef : bool;
  webLLMAttemptRef : Z;
  webLLMReadyPromise : PromiseState unit;
  timers : list Timer;
  next_id : positive
}.

Definition setTimeout (cb : Callback) (delay : Q) (s : State) : positive * State :=
  (next_id s,
   {| webLLMStatus := webLLMStatus s; webLLMError := webLLMError s;
      webLLMPollTimerRef := webLLMPollTimerRef s; isWebLLMPollingRef := isWebLLMPollingRef s;
      webLLMAttemptRef := webLLMAttemptRef s; webLLMReadyPromise := webLLMReadyPromise s;
      timers := timers s ++ [{| t_id := next_id s; t_delay := delay; t_cb := cb |}];
      next_id := Pos.succ (next_id s) |}).

Definition clearWebLLMPolling (s : State) : State :=
  {| webLLMStatus := webLLMStatus s; webLLMError := webLLMError s;
     webLLMPollTimerRef := None;
     isWebLLMPollingRef := false;
     webLLMAttemptRef := webLLMAttemptRef s; webLLMReadyPromise := webLLMReadyPromise s;
     timers :=
       match webLLMPollTimerRef s with
       | Some id => List.filter (fun t => negb (t_id t =? id)%positive) (timers s)
       | None => timers s
       end;
     next_id := next_id s |}.

Definition handleWebLLMFailure (maxRetries : Z) (cl : Closure) (err : Error)
    (rnd : Q) (s : State) : State :=
  let s1 := clearWebLLMPolling s in
  let attempt := webLLMAttemptRef s1 + 1 in
  let s2 :=
    {| webLLMStatus := webLLMStatus s1; webLLMError := webLLMError s1;
       webLLMPollTimerRef := webLLMPollTimerRef s1; isWebLLMPollingRef := isWebLLMPollingRef s1;
       webLLMAttemptRef := attempt; webLLMReadyPromise := webLLMReadyPromise s1;
       timers := timers s1; next_id := next_id s1 |} in
  if attempt <? maxRetries then
    snd (setTimeout (CbTryLoadWebLLM cl) (backoff_delay attempt rnd) s2)
  else
    {| webLLMStatus := Failed; webLLMError := Some err;
       webLLMPollTimerRef := webLLMPollTimerRef s2; isWebLLMPollingRef := isWebLLMPollingRef s2;
       webLLMAttemptRef := webLLMAttemptRef s2;
       webLLMReadyPromise :=
         match webLLMReadyPromise s2 with
         | Pending => Done (Rejected err)
         | Done r => Done r
         end;
       timers := timers s2; next_id := next_id s2 |}.

End WebLLMLoad.

(** ** The WebLLM engine session manager and the chat helpers *)

Module WebLLM.

Record ChatMessage := {
  role : string;
  content : string
}.

(** A value of an [options] object or of a request. *)
Inductive JSValue :=
| VUndefined
| VNull
| VBool (b : bool)
| VNum (n : Q)
| VStr (s : string)
| VMessages (ms : list ChatMessage).

(** [Record<string, any>]. *)
Abbreviation JSObject := (gmap string JSValue).

(** An object literal that ends in [...options]: a key of [options]
    replaces the same key written before it. *)
Definition spread_last (fixed options : JSObject) : JSObject := options ∪ fixed.

(** A streamed chunk, [{choices: [{delta: {content}}]}], each level of
    which may be missing. *)
Record Delta := { d_content : option string }.
Record Choice := { delta : option Delta }.
Record Chunk := { choices : list Choice }.

Record ChatCompletionResult := {
  cc_choices : list (ChatMessage * option string);
  cc_usage : option (Z * Z * Z)
}.

(** What [chat.completions.create] resolves to: a result, or a lazy
    sequence that yields its chunks and then ends or throws. *)
Inductive Response :=
| Completion (r : ChatCompletionResult)
| Stream (chunks : list Chunk) (failure : option Error).

Record Engine := {
  e_id : nat;
  create : JSObject -> Settled Response
}.

Record WebLLMModelRecord := {
  model : string;
  model_id : string;
  vram_required_MB : option Z
}.

(** Reading a property either gives its value or throws. *)
Inductive Read (A : Type) :=
| Got (a : A)
| ReadThrows (e : Error).
Arguments Got {A} a.
Arguments ReadThrows {A} e.

Record AppConfig := { model_list : Read (list WebLLMModelRecord) }.

(** [window.webllm], once the injected script has run. *)
Record Namespace := {
  has_CreateMLCEngine : bool;
  prebuiltAppConfig : option AppConfig;
  ns_hasModelInCache : option (string -> Settled bool)
}.

(** What the runtime was asked and what it answered, in order. *)
Inductive RuntimeOp :=
| UnloadCalled (e : nat)
| UnloadDone (e : nat)
| CreateCalled (modelId : string)
| CreateDone (modelId : string) (e : nat).

(** The engine sessions alive after a trace: created and not unloaded. *)
Definition live_after (alive : list nat) (op : RuntimeOp) : list nat :=
  match op with
  | CreateDone _ e => alive ++ [e]
  | UnloadDone e => List.filter (fun x => negb (x =? e)%nat) alive
  | _ => alive
  end.

Definition live (tr : list RuntimeOp) : list nat := fold_left live_after tr [].

(** Where a [loadWebLLMModel] call is suspended. *)
Inductive LoadCont :=
| AwaitUnload (modelId : string) (old : Engine)
| AwaitCreate (modelId : string).

(** The progress relay of [initProgressCallback] is not modelled. *)
Record State := {
  webLLMEngineRef : option Engine;
  isWebLLMLoaded : bool;
  webLLMStatus : ModelStatus;
  webLLMError : option Error;
  currentWebLLMModel : option string;
  webLLMReadyPromise : PromiseState unit;
  loads : gmap nat LoadCont;
  load_result : gmap nat (Settled unit);
  trace : list RuntimeOp
}.

Definition set_webLLMEngineRef (v : option Engine) (s : State) : State :=
  {| webLLMEngineRef := v; isWebLLMLoaded := isWebLLMLoaded s; webLLMStatus := webLLMStatus s;
     webLLMError := webLLMError s; currentWebLLMModel := currentWebLLMModel s;
     webLLMReadyPromise := webLLMReadyPromise s; loads := loads s;
     load_result := load_result s; trace := trace s |}.

Definition setIsWebLLMLoaded (v : bool) (s : State) : State :=
  {| webLLMEngineRef := webLLMEngineRef s; isWebLLMLoaded := v; webLLMStatus := webLLMStatus s;
     webLLMError := webLLMError s; currentWebLLMModel := currentWebLLMModel s;
     webLLMReadyPromise := webLLMReadyPromise s; loads := loads s;
     load_result := load_result s; trace := trace s |}.

Definition setWebLLMStatus (v : ModelStatus) (s : State) : State :=
  {| webLLMEngineRef := webLLMEngineRef s; isWebLLMLoaded := isWebLLMLoaded s; webLLMStatus := v;
     webLLMError := webLLMError s; currentWebLLMModel := currentWebLLMModel s;
     webLLMReadyPromise := webLLMReadyPromise s; loads := loads s;
     load_result := load_result s; trace := trace s |}.

Definition setWebLLMError (v : option Error) (s : State) : State :=
  {| webLLMEngineRef := webLLMEngineRef s; isWebLLMLoaded := isWebLLMLoaded s;
     webLLMStatus := webLLMStatus s;
     webLLMError := v; currentWebLLMModel := currentWebLLMModel s;
     webLLMReadyPromise := webLLMReadyPromise s; loads := loads s;
     load_result := load_result s; trace := trace s |}.

Definition setCurrentWebLLMModel (v : option string) (s : State) : State :=
  {| webLLMEngineRef := webLLMEngineRef s; isWebLLMLoaded := isWebLLMLoaded s;
     webLLMStatus := webLLMStatus s;
     webLLMError := webLLMError s; currentWebLLMModel := v;
     webLLMReadyPromise := webLLMReadyPromise s; loads := loads s;
     load_result := load_result s; trace := trace s |}.

Definition suspend (c : nat) (k : LoadCont) (s : State) : State :=
  {| webLLMEngineRef := webLLMEngineRef s; isWebLLMLoaded := isWebLLMLoaded s;
     webLLMStatus := webLLMStatus s;
     webLLMError := webLLMError s; currentWebLLMModel := currentWebLLMModel s;
     webLLMReadyPromise := webLLMReadyPromise s; loads := <[c := k]> (loads s);
     load_result := load_result s; trace := trace s |}.

Definition finish (c : nat) (r : Settled unit) (s : State) : State :=
  {| webLLMEngineRef := webLLMEngineRef s; isWebLLMLoaded := isWebLLMLoaded s;
     webLLMStatus := webLLMStatus s;
     webLLMError := webLLMError s; currentWebLLMModel := currentWebLLMModel s;
     webLLMReadyPromise := webLLMReadyPromise s; loads := delete c (loads s);
     load_result := <[c := r]> (load_result s); trace := trace s |}.

Definition log (op : RuntimeOp) (s : State) : State :=
  {| webLLMEngineRef := webLLMEngineRef s; isWebLLMLoaded := isWebLLMLoaded s;
     webLLMStatus := webLLMStatus s;
     webLLMError := webLLMError s; currentWebLLMModel := currentWebLLMModel s;
     webLLMReadyPromise := webLLMReadyPromise s; loads := loads s;
     load_result := load_result s; trace := trace s ++ [op] |}.

Section Provider.
(** The [enableWebLLM] prop. *)
Variable enableWebLLM : bool.

(** [(window as any).webllm?.CreateMLCEngine] as a condition. *)
Definition CreateMLCEngine_present (w : option Namespace) : bool :=
  match w with
  | Some ns => has_CreateMLCEngine ns
  | None => false
  end.

(** The [catch] block of [loadWebLLMModel]. *)
Definition load_catch (c : nat) (err : Error) (s : State) : State :=
  finish c (Rejected err) (setWebLLMStatus Failed (setWebLLMError (Some err) s)).

(** [CreateMLCEngine(modelId, {initProgressCallback})] is called and
    awaited. *)
Definition call_CreateMLCEngine (c : nat) (modelId : string) (s : State) : State :=
  suspend c (AwaitCreate modelId) (log (CreateCalled modelId) s).

(** [loadWebLLMModel(modelId)] as the call [c], with [w] what
    [window.webllm] is; run up to the first [await]. *)
Definition loadWebLLMModel (c : nat) (w : option Namespace) (modelId : string)
    (s : State) : State :=
  if negb enableWebLLM then finish c (Rejected WebLLMNotEnabledLong) s
  else if negb (CreateMLCEngine_present w) then finish c (Rejected WebLLMNotLoadedYet) s
  else
    let s1 := setWebLLMStatus Loading s in
    let s2 := setWebLLMError None s1 in
    match webLLMEngineRef s2 with
    | Some old => suspend c (AwaitUnload modelId old) (log (UnloadCalled (e_id old)) s2)
    | None => call_CreateMLCEngine c modelId s2
    end.

(** The call [c] resumes after [await webLLMEngineRef.current.unload()],
    which settled as [r]. *)
Definition resume_unload (c : nat) (r : Settled unit) (s : State) : State :=
  match loads s !! c with
  | Some (AwaitUnload modelId old) =>
      match r with
      | Resolved _ =>
          let s1 := log (UnloadDone (e_id old)) s in
          let s2 := set_webLLMEngineRef None s1 in
          call_CreateMLCEngine c modelId s2
      | Rejected err => load_catch c err s
      end
  | _ => s
  end.

(** The call [c] resumes after [await CreateMLCEngine(...)], which
    settled as [r]. *)
Definition resume_create (c : nat) (r : Settled Engine) (s : State) : State :=
  match loads s !! c with
  | Some (AwaitCreate modelId) =>
      match r with
      | Resolved engine =>
          let s1 := log (CreateDone modelId (e_id engine)) s in
          let s2 := set_webLLMEngineRef (Some engine) s1 in
          let s3 := setIsWebLLMLoaded true s2 in
          let s4 := setWebLLMStatus Ready s3 in
          let s5 := setCurrentWebLLMModel (Some modelId) s4 in
          finish c (Resolved tt) s5
      | Rejected err => load_catch c err s
      end
  | _ => s
  end.

(** *** Chat helpers *)

(** [{ messages, ...options }]. *)
Definition chat_request (messages : list ChatMessage) (options : JSObject) : JSObject :=
  spread_last {[ "messages" := VMessages messages ]} options.

(** [{ messages, stream: true, ...options }]. *)
Definition stream_request (messages : list ChatMessage) (options : JSObject) : JSObject :=
  spread_last (<[ "stream" := VBool true ]> {[ "messages" := VMessages messages ]}) options.

(** One run of a chat helper: the requests the engine received, the
    calls of [onChunk] in order, and how the returned promise settled
    ([Pending] when the helper waits for a ready promise that is not
    settled). *)
Record Run (A : Type) := {
  sent : list JSObject;
  onChunk_calls : list string;
  outcome : PromiseState A
}.
Arguments sent {A} r.
Arguments onChunk_calls {A} r.
Arguments outcome {A} r.

(** The state does not change while the helper awaits. *)
Definition chatCompletion (messages : list ChatMessage) (options : JSObject)
    (s : State) : Run Response :=
  match webLLMEngineRef s with
  | None => {| sent := []; onChunk_calls := []; outcome := Done (Rejected EngineNotInitialized) |}
  | Some engine =>
      match webLLMReadyPromise s with
      | Pending => {| sent := []; onChunk_calls := []; outcome := Pending |}
      | Done (Rejected err) =>
          {| sent := []; onChunk_calls := []; outcome := Done (Rejected err) |}
      | Done (Resolved _) =>
          let request := chat_request messages options in
          {| sent := [request]; onChunk_calls := [];
             outcome := Done (create engine request) |}
      end
  end.

(** [chunk.choices[0]?.delta?.content || ""]. *)
Definition chunk_content (chunk : Chunk) : string :=
  match choices chunk with
  | choice :: _ =>
      match delta choice with
      | Some d =>
          match d_content d with
          | Some text => text
          | None => ""
          end
      | None => ""
      end
  | [] => ""
  end.

(** The body of the [for await] loop, over the chunks in order, with
    the calls of [onChunk] made so far. *)
Fixpoint for_await (chunks : list Chunk) (calls : list string) : list string :=
  match chunks with
  | [] => calls
  | chunk :: rest =>
      let text := chunk_content chunk in
      for_await rest (if String.eqb text "" then calls else calls ++ [text])
  end.

Definition streamChatCompletion (messages : list ChatMessage) (options : JSObject)
    (s : State) : Run unit :=
  match webLLMEngineRef s with
  | None => {| sent := []; onChunk_calls := []; outcome := Done (Rejected EngineNotInitialized) |}
  | Some engine =>
      match webLLMReadyPromise s with
      | Pending => {| sent := []; onChunk_calls := []; outcome := Pending |}
      | Done (Rejected err) =>
          {| sent := []; onChunk_calls := []; outcome := Done (Rejected err) |}
      | Done (Resolved _) =>
          let request := stream_request messages options in
          match create engine request with
          | Rejected err =>
              {| sent := [request]; onChunk_calls := []; outcome := Done (Rejected err) |}
          | Resolved (Completion _) =>
              {| sent := [request]; onChunk_calls := []; outcome := Done (Rejected NotIterable) |}
          | Resolved (Stream chunks failure) =>
              {| sent := [request];
                 onChunk_calls := for_await chunks [];
                 outcome :=
                   match failure with
                   | None => Done (Resolved tt)
                   | Some err => Done (Rejected err)
                   end |}
          end
      end
  end.

(** *** Queries *)

Definition getAvailableWebLLMModels (w : option Namespace) : Settled (list WebLLMModelRecord) :=
  if negb enableWebLLM then Rejected WebLLMNotEnabled
  else
    match w ≫= prebuiltAppConfig with
    | None => Rejected WebLLMNotLoadedYet
    | Some cfg =>
        match model_list cfg with
        | Got l => Resolved l
        | ReadThrows _ => Resolved []
        end
    end.

Definition hasModelInCache (w : option Namespace) (modelId : string) : Settled bool :=
  if negb enableWebLLM then Resolved false
  else
    match w ≫= ns_hasModelInCache with
    | None => Resolved false
    | Some checkCache =>
        match checkCache modelId with
        | Resolved b => Resolved b
        | Rejected _ => Resolved false
        end
    end.

End Provider.

Arguments sent {A} r.
Arguments onChunk_calls {A} r.
Arguments outcome {A} r.

(** The contents [onChunk] is called with, for a sequence of chunks. *)
Definition delivered (chunks : list Chunk) : list string :=
  List.filter (fun text => negb (String.eqb text "")) (map chunk_content chunks).

(** *** Values for concrete runs *)

Definition text_chunk (text : string) : Chunk :=
  {| choices := [{| delta := Some {| d_content := Some text |} |}] |}.

(** The three chunks of the streaming test, with chunks of no content
    between them. *)
Definition hello_chunks : list Chunk :=
  [text_chunk "Hello"; {| choices := [] |}; text_chunk " there";
   {| choices := [{| delta := None |}] |}; text_chunk "";
   {| choices := [{| delta := Some {| d_content := None |} |}] |}; text_chunk "!"].

(** An engine that streams [hello_chunks] when asked to stream and
    otherwise answers with one message. *)
Definition hello_engine : Engine :=
  {| e_id := 7;
     create := fun request =>
       match request !! "stream" with
       | Some (VBool true) => Resolved (Stream hello_chunks None)
       | _ =>
           Resolved (Completion
             {| cc_choices := [({| role := "assistant"; content := "Hello there!" |}, Some "stop")];
                cc_usage := None |})
       end |}.

Definition session (engine : Engine) (modelId : string) : State :=
  {| webLLMEngineRef := Some engine; isWebLLMLoaded := true; webLLMStatus := Ready;
     webLLMError := None; currentWebLLMModel := Some modelId;
     webLLMReadyPromise := Done (Resolved tt); loads := ∅; load_result := ∅;
     trace := [CreateCalled modelId; CreateDone modelId (e_id engine)] |}.

Definition loaded_namespace : Namespace :=
  {| has_CreateMLCEngine := true; prebuiltAppConfig := None; ns_hasModelInCache := None |}.

End WebLLM.

(** ** Booting WebLLM: the script tag, the poll loop and the default engine *)

Module WebLLMBoot.
Import Backoff WebLLMLoad.

(** The model [tick] creates the first engine for. *)
Definition default_model : string := "Llama-3.2-1B-Instruct-q4f16_1-MLC".

Record Props := {
  isBrowser : bool;
  enableWebLLM : bool;
  loadTimeout : Z;
  maxRetries : Z
}.

(** A script element of [document.head], with the render its [onerror]
    handler belongs to. *)
Record Script := {
  el_id : positive;
  el_onerror : Closure
}.

(** The cells of [WebLLMLoad.State] in [loader], the script and engine
    cells beside them. [creating] counts the runs of [tick] suspended at
    [await CreateMLCEngine(...)], [unloading] lists the engines whose
    [unload()] a call of [unloadWebLLMModel] awaits. The init progress
    cell is left out: nothing here reads it. *)
Record State := {
  loader : WebLLMLoad.State;
  webLLMScriptRef : option positive;
  head : list Script;
  webLLMEngineRef : option WebLLM.Engine;
  isWebLLMLoaded : bool;
  currentWebLLMModel : option string;
  creating : nat;
  unloading : list nat;
  trace : list WebLLM.RuntimeOp
}.

(** What the environment gives one run: [Date.now()], whether
    [window.webllm?.CreateMLCEngine] is there, and [Math.random()]. *)
Record Env := {
  clock : Z;
  CreateMLCEngine_present : bool;
  random : Q
}.

Definition initial : State :=
  {| loader :=
       {| webLLMStatus := Idle; webLLMError := None; webLLMPollTimerRef := None;
          isWebLLMPollingRef := false; webLLMAttemptRef := 0;
          webLLMReadyPromise := Pending; timers := []; next_id := 1%positive |};
     webLLMScriptRef := None; head := []; webLLMEngineRef := None;
     isWebLLMLoaded := false; currentWebLLMModel := None;
     creating := 0; unloading := []; trace := [] |}.

(** The closure of the current render. *)
Definition render (s : State) : Closure :=
  {| cl_webLLMStatus := webLLMStatus (loader s) |}.

(** *** Field updates *)

Definition setWebLLMStatus (v : ModelStatus) (l : WebLLMLoad.State) : WebLLMLoad.State :=
  {| webLLMStatus := v; webLLMError := webLLMError l;
     webLLMPollTimerRef := webLLMPollTimerRef l; isWebLLMPollingRef := isWebLLMPollingRef l;
     webLLMAttemptRef := webLLMAttemptRef l; webLLMReadyPromise := webLLMReadyPromise l;
     timers := timers l; next_id := next_id l |}.

Definition setWebLLMError (v : option Error) (l : WebLLMLoad.State) : WebLLMLoad.State :=
  {| webLLMStatus := webLLMStatus l; webLLMError := v;
     webLLMPollTimerRef := webLLMPollTimerRef l; isWebLLMPollingRef := isWebLLMPollingRef l;
     webLLMAttemptRef := webLLMAttemptRef l; webLLMReadyPromise := webLLMReadyPromise l;
     timers := timers l; next_id := next_id l |}.

Definition set_webLLMPollTimerRef (v : option positive) (l : WebLLMLoad.State) : WebLLMLoad.State :=
  {| webLLMStatus := webLLMStatus l; webLLMError := webLLMError l;
     webLLMPollTimerRef := v; isWebLLMPollingRef := isWebLLMPollingRef l;
     webLLMAttemptRef := webLLMAttemptRef l; webLLMReadyPromise := webLLMReadyPromise l;
     timers := timers l; next_id := next_id l |}.

Definition set_isWebLLMPollingRef (v : bool) (l : WebLLMLoad.State) : WebLLMLoad.State :=
  {| webLLMStatus := webLLMStatus l; webLLMError := webLLMError l;
     webLLMPollTimerRef := webLLMPollTimerRef l; isWebLLMPollingRef := v;
     webLLMAttemptRef := webLLMAttemptRef l; webLLMReadyPromise := webLLMReadyPromise l;
     timers := timers l; next_id := next_id l |}.

Definition set_timers (v : list Timer) (l : WebLLMLoad.State) : WebLLMLoad.State :=
  {| webLLMStatus := webLLMStatus l; webLLMError := webLLMError l;
     webLLMPollTimerRef := webLLMPollTimerRef l; isWebLLMPollingRef := isWebLLMPollingRef l;
     webLLMAttemptRef := webLLMAttemptRef l; webLLMReadyPromise := webLLMReadyPromise l;
     timers := v; next_id := next_id l |}.

Definition set_next_id (v : positive) (l : WebLLMLoad.State) : WebLLMLoad.State :=
  {| webLLMStatus := webLLMStatus l; webLLMError := webLLMError l;
     webLLMPollTimerRef := webLLMPollTimerRef l; isWebLLMPollingRef := isWebLLMPollingRef l;
     webLLMAttemptRef := webLLMAttemptRef l; webLLMReadyPromise := webLLMReadyPromise l;
     timers := timers l; next_id := v |}.

(** Settling a promise that is settled already does nothing. *)
Definition settle_ready (r : Settled unit) (l : WebLLMLoad.State) : WebLLMLoad.State :=
  {| webLLMStatus := webLLMStatus l; webLLMError := webLLMError l;
     webLLMPollTimerRef := webLLMPollTimerRef l; isWebLLMPollingRef := isWebLLMPollingRef l;
     webLLMAttemptRef := webLLMAttemptRef l;
     webLLMReadyPromise :=
       match webLLMReadyPromise l with
       | Pending => Done r
       | Done r0 => Done r0
       end;
     timers := timers l; next_id := next_id l |}.

Definition on_loader (f : WebLLMLoad.State -> WebLLMLoad.State) (s : State) : State :=
  {| loader := f (loader s); webLLMScriptRef := webLLMScriptRef s; head := head s;
     webLLMEngineRef := webLLMEngineRef s; isWebLLMLoaded := isWebLLMLoaded s;
     currentWebLLMModel := currentWebLLMModel s; creating := creating s;
     unloading := unloading s; trace := trace s |}.

Definition set_webLLMScriptRef (v : option positive) (s : State) : State :=
  {| loader := loader s; webLLMScriptRef := v; head := head s;
     webLLMEngineRef := webLLMEngineRef s; isWebLLMLoaded := isWebLLMLoaded s;
     currentWebLLMModel := currentWebLLMModel s; creating := creating s;
     unloading := unloading s; trace := trace s |}.

Definition set_head (v : list Script) (s : State) : State :=
  {| loader := loader s; webLLMScriptRef := webLLMScriptRef s; head := v;
     webLLMEngineRef := webLLMEngineRef s; isWebLLMLoaded := isWebLLMLoaded s;
     currentWebLLMModel := currentWebLLMModel s; creating := creating s;
     unloading := unloading s; trace := trace s |}.

Definition set_webLLMEngineRef (v : option WebLLM.Engine) (s : State) : State :=
  {| loader := loader s; webLLMScriptRef := webLLMScriptRef s; head := head s;
     webLLMEngineRef := v; isWebLLMLoaded := isWebLLMLoaded s;
     currentWebLLMModel := currentWebLLMModel s; creating := creating s;
     unloading := unloading s; trace := trace s |}.

Definition setIsWebLLMLoaded (v : bool) (s : State) : State :=
  {| loader := loader s; webLLMScriptRef := webLLMScriptRef s; head := head s;
     webLLMEngineRef := webLLMEngineRef s; isWebLLMLoaded := v;
     currentWebLLMModel := currentWebLLMModel s; creating := creating s;
     unloading := unloading s; trace := trace s |}.

Definition setCurrentWebLLMModel (v : option string) (s : State) : State :=
  {| loader := loader s; webLLMScriptRef := webLLMScriptRef s; head := head s;
     webLLMEngineRef := webLLMEngineRef s; isWebLLMLoaded := isWebLLMLoaded s;
     currentWebLLMModel := v; creating := creating s;
     unloading := unloading s; trace := trace s |}.

Definition set_creating (v : nat) (s : State) : State :=
  {| loader := loader s; webLLMScriptRef := webLLMScriptRef s; head := head s;
     webLLMEngineRef := webLLMEngineRef s; isWebLLMLoaded := isWebLLMLoaded s;
     currentWebLLMModel := currentWebLLMModel s; creating := v;
     unloading := unloading s; trace := trace s |}.

Definition set_unloading (v : list nat) (s : State) : State :=
  {| loader := loader s; webLLMScriptRef := webLLMScriptRef s; head := head s;
     webLLMEngineRef := webLLMEngineRef s; isWebLLMLoaded := isWebLLMLoaded s;
     currentWebLLMModel := currentWebLLMModel s; creating := creating s;
     unloading := v; trace := trace s |}.

Definition log (op : WebLLM.RuntimeOp) (s : State) : State :=
  {| loader := loader s; webLLMScriptRef := webLLMScriptRef s; head := head s;
     webLLMEngineRef := webLLMEngineRef s; isWebLLMLoaded := isWebLLMLoaded s;
     currentWebLLMModel := currentWebLLMModel s; creating := creating s;
     unloading := unloading s; trace := trace s ++ [op] |}.

(** Whether [webLLMEngineRef.current] is set. *)
Definition has_engine (s : State) : bool :=
  match webLLMEngineRef s with
  | Some _ => true
  | None => false
  end.

Section Provider.
Variable P : Props.

(** *** helpers: polling & script *)

Definition removeWebLLMScriptTag (s : State) : State :=
  let s1 :=
    match webLLMScriptRef s with
    | Some el => set_head (List.filter (fun sc => negb (el_id sc =? el)%positive) (head s)) s
    | None => s
    end in
  set_webLLMScriptRef None s1.

(** The message of the error [tick] makes at the deadline. *)
Definition not_ready_error : Error :=
  Thrown ("WebLLM not ready within " +:+ pretty (loadTimeout P) +:+ " ms").

Definition script_load_error : Error := Thrown "WebLLM script load error".

(** [tick] up to its [await]: [CreateMLCEngine] is called for the default
    model and the run is suspended. *)
Definition call_CreateMLCEngine (s : State) : State :=
  set_creating (S (creating s)) (log (WebLLM.CreateCalled default_model) s).

(** One run of [tick] of the poll loop started with [deadline], by the
    [tryLoadWebLLM] of the render [cl]. *)
Definition tick (cl : Closure) (deadline : Z) (env : Env) (s : State) : State :=
  if CreateMLCEngine_present env then
    let s1 := removeWebLLMScriptTag (on_loader clearWebLLMPolling s) in
    call_CreateMLCEngine s1
  else if deadline <=? clock env then
    let s1 := removeWebLLMScriptTag (on_loader clearWebLLMPolling s) in
    on_loader (handleWebLLMFailure (maxRetries P) cl not_ready_error (random env)) s1
  else
    on_loader
      (fun l =>
         let '(id, l1) := setTimeout (CbTick cl deadline) 500 l in
         set_webLLMPollTimerRef (Some id) l1)
      s.

(** [tick] after its [await]: the engine is stored, or the [catch] block
    records the error. A failure here is not handed to
    [handleWebLLMFailure]. *)
Definition resume_create (r : Settled WebLLM.Engine) (s : State) : State :=
  match creating s with
  | O => s
  | S n =>
      let s0 := set_creating n s in
      match r with
      | Resolved engine =>
          let s1 := set_webLLMEngineRef (Some engine) s0 in
          let s2 := setIsWebLLMLoaded true s1 in
          let s3 := on_loader (setWebLLMStatus Ready) s2 in
          let s4 := setCurrentWebLLMModel (Some default_model) s3 in
          let s5 := on_loader (settle_ready (Resolved tt)) s4 in
          log (WebLLM.CreateDone default_model (WebLLM.e_id engine)) s5
      | Rejected err =>
          let s1 := on_loader (setWebLLMError (Some err)) s0 in
          let s2 := on_loader (setWebLLMStatus Failed) s1 in
          on_loader (settle_ready (Rejected err)) s2
      end
  end.

(** Starts the poll loop if not already running. *)
Definition ensureWebLLMPolling (cl : Closure) (deadline : Z) (env : Env) (s : State) : State :=
  if isWebLLMPollingRef (loader s) then s
  else tick cl deadline env (on_loader (set_isWebLLMPollingRef true) s).

(** Injects the module script once. *)
Definition injectWebLLMScriptTag (cl : Closure) (s : State) : State :=
  match webLLMScriptRef s with
  | Some _ => s
  | None =>
      let el := next_id (loader s) in
      let s1 := on_loader (set_next_id (Pos.succ el)) s in
      let s2 := set_head (head s1 ++ [{| el_id := el; el_onerror := cl |}]) s1 in
      set_webLLMScriptRef (Some el) s2
  end.

(** [script.onerror] of a script injected by the render [cl]. *)
Definition script_onerror (cl : Closure) (env : Env) (s : State) : State :=
  on_loader (handleWebLLMFailure (maxRetries P) cl script_load_error (random env))
    (removeWebLLMScriptTag (on_loader clearWebLLMPolling s)).

Definition tryLoadWebLLM (cl : Closure) (env : Env) (s : State) : State :=
  if negb (isBrowser P) || negb (enableWebLLM P) then s
  else if has_engine s || ModelStatus_eqb (cl_webLLMStatus cl) Loading then s
  else
    let s1 := on_loader (setWebLLMStatus Loading) s in
    let s2 := on_loader (setWebLLMError None) s1 in
    let s3 := injectWebLLMScriptTag cl s2 in
    ensureWebLLMPolling cl (clock env + loadTimeout P) env s3.

(** The effect that initialises WebLLM: it runs after a render in which
    one of [enableWebLLM], [tryLoadWebLLM], [webLLMStatus] changed. *)
Definition init_effect (env : Env) (s : State) : State :=
  if enableWebLLM P && negb (has_engine s)
     && ModelStatus_eqb (webLLMStatus (loader s)) Idle
  then tryLoadWebLLM (render s) env s
  else s.

(** *** Unloading *)

(** [unloadWebLLMModel] up to its [await]; without an engine it returns
    at once. *)
Definition unloadWebLLMModel (s : State) : State :=
  match webLLMEngineRef s with
  | Some engine =>
      set_unloading (unloading s ++ [WebLLM.e_id engine])
        (log (WebLLM.UnloadCalled (WebLLM.e_id engine)) s)
  | None => s
  end.

Fixpoint remove_first (e : nat) (l : list nat) : list nat :=
  match l with
  | [] => []
  | x :: rest => if (x =? e)%nat then rest else x :: remove_first e rest
  end.

(** [unloadWebLLMModel] after its [await], for the call that waits for
    engine [e]. If [unload()] rejected, the call rejects with nothing
    changed. *)
Definition resume_unload (e : nat) (r : Settled unit) (s : State) : State :=
  if existsb (Nat.eqb e) (unloading s) then
    let s0 := set_unloading (remove_first e (unloading s)) s in
    match r with
    | Resolved _ =>
        let s1 := set_webLLMEngineRef None (log (WebLLM.UnloadDone e) s0) in
        let s2 := setIsWebLLMLoaded false s1 in
        let s3 := on_loader (setWebLLMStatus Idle) s2 in
        setCurrentWebLLMModel None s3
    | Rejected _ => s0
    end
  else s.

(** *** Events *)

Definition run_callback (cb : Callback) (env : Env) (s : State) : State :=
  match cb with
  | CbTick cl deadline => tick cl deadline env s
  | CbTryLoadWebLLM cl => tryLoadWebLLM cl env s
  end.

(** The timer [id] expires: it leaves the queue and its callback runs. *)
Definition fire_timer (id : positive) (env : Env) (s : State) : State :=
  match find (fun t => (t_id t =? id)%positive) (timers (loader s)) with
  | Some t =>
      run_callback (t_cb t) env
        (on_loader
           (fun l => set_timers (List.filter (fun t => negb (t_id t =? id)%positive) (timers l)) l)
           s)
  | None => s
  end.

Inductive Event :=
| EvEffect
| EvTimer (id : positive)
| EvScriptError (el : positive)
| EvCreated (r : Settled WebLLM.Engine)
| EvUnload
| EvUnloaded (e : nat) (r : Settled unit).

Definition step (ev : Event) (env : Env) (s : State) : State :=
  match ev with
  | EvEffect => init_effect env s
  | EvTimer id => fire_timer id env s
  | EvScriptError el =>
      match find (fun sc => (el_id sc =? el)%positive) (head s) with
      | Some sc => script_onerror (el_onerror sc) env s
      | None => s
      end
  | EvCreated r => resume_create r s
  | EvUnload => unloadWebLLMModel s
  | EvUnloaded e r => resume_unload e r s
  end.

Fixpoint run (evs : list (Event * Env)) (s : State) : State :=
  match evs with
  | [] => s
  | (ev, env) :: rest => run rest (step ev env s)
  end.

End Provider.

(** A provider with WebLLM enabled and the default timing. *)
Definition enabled_props : Props :=
  {| isBrowser := true; enableWebLLM := true; loadTimeout := 60000; maxRetries := 3 |}.

(** A loaded session: engine [engine] for [modelId], nothing under way. *)
Definition loaded (engine : WebLLM.Engine) (modelId : string) : State :=
  {| loader :=
       {| webLLMStatus := Ready; webLLMError := None; webLLMPollTimerRef := None;
          isWebLLMPollingRef := false; webLLMAttemptRef := 0;
          webLLMReadyPromise := Done (Resolved tt); timers := []; next_id := 3%positive |};
     webLLMScriptRef := None; head := []; webLLMEngineRef := Some engine;
     isWebLLMLoaded := true; currentWebLLMModel := Some modelId;
     creating := 0; unloading := [];
     trace := [WebLLM.CreateCalled modelId; WebLLM.CreateDone modelId (WebLLM.e_id engine)] |}.

End WebLLMBoot.

(** ** The load state machine as its users see it *)

Module LibraryLoadStates.
Import LibraryLoad.

(** The library is loaded and nothing of the load is left behind. *)
Definition at_rest_ready (s : State) : Prop :=
  libraryStatus s = Ready /\ timers s = [] /\ head s = [] /\
  scriptRef s = None /\ isPollingRef s = false.

(** The error a failure event hands to [handleLibraryFailure]. *)
Definition failure_error (P : Props) (ev : Event) : Error :=
  match ev with
  | EvScriptError _ => ScriptLoadError
  | _ => NotReadyWithin (loadTimeout P)
  end.

(** The timer [id] is queued and runs [tick] of the render [cl] with [deadline]. *)
Definition is_tick_timer (s : State) (id : positive) (cl : Closure) (deadline : Z) : Prop :=
  exists t, find (fun t => (t_id t =? id)%positive) (timers s) = Some t /\
            t_cb t = CbTick cl deadline.

(** A configuration with a single attempt and a short timeout, for
    concrete runs. *)
Definition one_try : Props :=
  {| isBrowser := true; loadTimeout := 1000; maxRetries := 1; has_onLibraryError := true |}.

End LibraryLoadStates.

(** ** Runs of the model cache *)

Module ModelCacheRuns.
Import ModelCache.

(** The identifier an attempt is loading. *)
Definition cont_id (k : Cont) : string :=
  match k with
  | AwaitReady modelId _ _ => modelId
  | AwaitPipeline modelId _ _ _ => modelId
  end.

(** The identifier an event is about, if it is about one: the settling of
    the ready promise or of a factory promise changes no table by itself. *)
Definition event_id (ev : Event) (s : State) : option string :=
  match ev with
  | Call _ _ modelId _ _ => Some modelId
  | Unload modelId => Some modelId
  | ResumeReady c | ResumePipeline c => cont_id <$> conts s !! c
  | LibraryReady | LibraryFailed _ | Settle _ _ => None
  end.

(** The tables of the cache at one identifier. *)
Definition entry (modelId : string) (s : State) :
    option Handle * option ModelStatus * option (option Error) * option positive :=
  (models s !! modelId, modelStatus s !! modelId, modelErrors s !! modelId,
   pendingRef s !! modelId).

(** One attempt of the suspended call [c] that the factory resolves: the
    call resumes, the factory's promise resolves to [pipe], the call
    resumes again. *)
Definition attempt_succeeds (has_onModelError : bool) (c : nat) (pipe : Handle)
    (s : State) : State :=
  resume_pipeline has_onModelError c
    (settle (next_promise s) (Resolved pipe) (resume_ready has_onModelError c s)).

(** The cache after ["m"] was loaded once, for concrete runs. *)
Definition loaded_m : State :=
  run true [LibraryReady; Call 1 ∅ "m" "t" 1; ResumeReady 1; Settle 1 (Resolved h1);
            ResumePipeline 1] initial.

End ModelCacheRuns.

(** ** Values for concrete runs of the session manager *)

Module WebLLMRuns.
Import WebLLM.

(** No session, with the ready promise of the automatic first load as given. *)
Definition no_session (ready : PromiseState unit) (status : ModelStatus) : State :=
  {| webLLMEngineRef := None; isWebLLMLoaded := false; webLLMStatus := status;
     webLLMError := None; currentWebLLMModel := None;
     webLLMReadyPromise := ready; loads := ∅; load_result := ∅; trace := [] |}.

(** An engine whose stream throws after two chunks. *)
Definition broken_stream_engine : Engine :=
  {| e_id := 9;
     create := fun _ =>
       Resolved (Stream [text_chunk "Hel"; text_chunk "lo"] (Some (Thrown "connection lost"))) |}.

Definition engine8 : Engine := {| e_id := 8; create := create hello_engine |}.

End WebLLMRuns.

(** * Properties *)

(** ** The backoff delay *)

Module BackoffFacts.
Import Backoff.

Lemma backoff_base_le_cap (k : Z) : backoff_base k <= 60000.
Proof. unfold backoff_base, BACKOFF_CAP. lia. Qed.

Lemma backoff_base_pos (k : Z) : 1 <= k -> 1000 <= backoff_base k.
Proof.
  intros Hk. unfold backoff_base, BACKOFF_CAP.
  assert (0 < 2 ^ (k - 1)) by (apply Z.pow_pos_nonneg; lia). lia.
Qed.

(** From one attempt to the next the uncapped delay doubles, so the
    capped one doubles until it reaches the cap. *)
Lemma backoff_base_doubles (k : Z) :
  1 <= k -> backoff_base (k + 1) = Z.min (2 * backoff_base k) 60000.
Proof.
  intros Hk. unfold backoff_base, BACKOFF_CAP.
  replace (k + 1 - 1) with (Z.succ (k - 1)) by lia.
  rewrite Z.pow_succ_r by lia. lia.
Qed.

Lemma backoff_base_capped (k : Z) : 7 <= k -> backoff_base k = 60000.
Proof.
  intros Hk. unfold backoff_base, BACKOFF_CAP.
  assert (2 ^ 6 <= 2 ^ (k - 1)) by (apply Z.pow_le_mono_r; lia).
  change (2 ^ 6) with 64 in *. lia.
Qed.

Lemma jitter_range (rnd : Q) : is_random rnd -> (0 <= rnd * 1000 /\ rnd * 1000 < 1000)%Q.
Proof. intros [H0 H1]. split; lra. Qed.

Lemma backoff_delay_lt (k : Z) (rnd : Q) :
  is_random rnd -> (backoff_delay k rnd < 61000)%Q.
Proof.
  intros Hr. destruct (jitter_range rnd Hr) as [_ Hj]. unfold backoff_delay.
  assert (Hb : (inject_Z (backoff_base k) <= inject_Z 60000)%Q).
  { rewrite <- Zle_Qle. apply backoff_base_le_cap. }
  change (inject_Z 60000) with 60000%Q in Hb. lra.
Qed.

Example backoff_base_table :
  map backoff_base [1; 2; 3; 4; 5; 6; 7; 8] =
  [1000; 2000; 4000; 8000; 16000; 32000; 60000; 60000].
Proof. reflexivity. Qed.

End BackoffFacts.

(** ** The delay both retry controllers schedule *)

Module RetryDelay.
Import Backoff BackoffFacts.

(** While the incremented counter is below [maxRetries],
    [handleLibraryFailure] queues [tryLoadLibrary] of its render with the
    backoff delay of that counter. *)
Lemma handleLibraryFailure_schedules (P : LibraryLoad.Props) (cl : LibraryLoad.Closure)
    (err : Error) (env : LibraryLoad.Env) (s : LibraryLoad.State) :
  LibraryLoad.libraryAttemptRef s + 1 < LibraryLoad.maxRetries P ->
  last (LibraryLoad.timers (LibraryLoad.handleLibraryFailure P cl err env s)) =
  Some {| LibraryLoad.t_id := LibraryLoad.next_id s;
          LibraryLoad.t_delay :=
            backoff_delay (LibraryLoad.libraryAttemptRef s + 1) (LibraryLoad.random env);
          LibraryLoad.t_cb := LibraryLoad.CbTryLoadLibrary cl |}.
Proof.
  intros Hlt. apply Z.ltb_lt in Hlt.
  destruct s as [ld st er sr [tid |] ip at_ rp hd tm nx cs];
    unfold LibraryLoad.handleLibraryFailure; cbn in Hlt |- *; rewrite Hlt; cbn;
    rewrite last_snoc; reflexivity.
Qed.

Lemma handleWebLLMFailure_schedules (maxRetries : Z) (cl : WebLLMLoad.Closure)
    (err : Error) (rnd : Q) (s : WebLLMLoad.State) :
  WebLLMLoad.webLLMAttemptRef s + 1 < maxRetries ->
  last (WebLLMLoad.timers (WebLLMLoad.handleWebLLMFailure maxRetries cl err rnd s)) =
  Some {| WebLLMLoad.t_id := WebLLMLoad.next_id s;
          WebLLMLoad.t_delay := backoff_delay (WebLLMLoad.webLLMAttemptRef s + 1) rnd;
          WebLLMLoad.t_cb := WebLLMLoad.CbTryLoadWebLLM cl |}.
Proof.
  intros Hlt. apply Z.ltb_lt in Hlt.
  destruct s as [st er [tid |] ip at_ rp tm nx];
    unfold WebLLMLoad.handleWebLLMFailure; cbn in Hlt |- *; rewrite Hlt; cbn;
    rewrite last_snoc; reflexivity.
Qed.



End RetryDelay.

(** ** The library load state machine *)

Module LibraryLoadFacts.
Import Backoff LibraryLoad.


Section Facts.
Variable P : Props.

Lemma may_start_guard (cl : Closure) :
  may_start P cl = true ->
  isBrowser P = true /\
  cl_isLibraryLoaded cl || ModelStatus_eqb (cl_libraryStatus cl) Loading = false.
Proof.
  unfold may_start. intros H. apply andb_prop in H as [Hb Hg].
  split; [exact Hb |]. apply negb_true_iff in Hg. exact Hg.
Qed.

Lemma phase_initial : Phase P initial.
Proof. apply Quiescent; reflexivity. Qed.

Ltac break_state s :=
  destruct s as [ld st er sr pt ip at_ rp hd tm nx cs]; cbn in *; subst.

(** Call-by-value reduction of the state updates: unfolding the setters
    without reducing them would copy the state once per field. *)
Ltac lib_cells :=
  cbv [injectScriptTag removeScriptTag clearPolling clearTimeout
       setTimeout settle_ready log_onLibraryError set_isLibraryLoaded setLibraryStatus
       setLibraryError set_scriptRef set_pollTimerRef set_isPollingRef
       set_libraryAttemptRef set_readyPromise set_head set_timers set_next_id
       isLibraryLoaded libraryStatus libraryError scriptRef pollTimerRef isPollingRef
       libraryAttemptRef readyPromise head timers next_id onLibraryError_calls
       t_id t_cb t_delay el_id el_onerror
       List.filter find app negb snd fst].

Ltac lib_unfold :=
  cbv [fire_timer run_callback tryLoadLibrary ensurePolling tick
       script_onerror handleLibraryFailure
       injectScriptTag removeScriptTag clearPolling clearTimeout
       setTimeout settle_ready log_onLibraryError set_isLibraryLoaded setLibraryStatus
       setLibraryError set_scriptRef set_pollTimerRef set_isPollingRef
       set_libraryAttemptRef set_readyPromise set_head set_timers set_next_id
       isLibraryLoaded libraryStatus libraryError scriptRef pollTimerRef isPollingRef
       libraryAttemptRef readyPromise head timers next_id onLibraryError_calls
       t_id t_cb t_delay el_id el_onerror
       List.filter find app negb snd fst].

(** [handleLibraryFailure] run with no poll timer, no script and an empty
    queue leaves a retry waiting or nothing under way. *)
Lemma phase_handleLibraryFailure (cl : Closure) (err : Error) (env : Env) (s : State) :
  may_start P cl = true ->
  libraryStatus s = Loading ->
  timers s = [] -> head s = [] -> scriptRef s = None -> pollTimerRef s = None ->
  Phase P (handleLibraryFailure P cl err env s).
Proof.
  intros Hcl Hst Htm Hhd Hsr Hpt. break_state s.
  unfold handleLibraryFailure. cbn.
  destruct (at_ + 1 <? maxRetries P).
  - cbn. eapply BackingOff; cbn; try reflexivity; [exact Hcl | lia].
  - destruct (has_onLibraryError P), rp; cbn; apply Quiescent; reflexivity.
Qed.

(** A [tick] of the poll loop of the render [cl], run with its own timer
    out of the queue. *)
Lemma phase_tick (cl : Closure) (deadline : Z) (env : Env) (s : State) (el : positive) :
  may_start P cl = true ->
  libraryStatus s = Loading ->
  timers s = [] ->
  head s = [{| el_id := el; el_onerror := cl |}] ->
  scriptRef s = Some el ->
  isPollingRef s = true ->
  (el < next_id s)%positive ->
  Phase P (tick P cl deadline env s).
Proof.
  intros Hcl Hst Htm Hhd Hsr Hip Hel. unfold tick.
  destruct (pipeline_present env).
  - break_state s. destruct pt, rp; lib_unfold; rewrite Pos.eqb_refl; cbn;
      apply Quiescent; reflexivity.
  - destruct (deadline <=? clock env).
    + apply phase_handleLibraryFailure; try exact Hcl;
        break_state s; destruct pt; lib_cells; rewrite ?Pos.eqb_refl; reflexivity.
    + break_state s. lib_unfold.
      eapply (Polling P _ cl deadline nx el); cbn; try reflexivity; try exact Hcl; lia.
Qed.

(** [tryLoadLibrary] of the render [cl], run with nothing under way. *)
Lemma phase_tryLoadLibrary (cl : Closure) (env : Env) (s : State) :
  timers s = [] -> head s = [] -> scriptRef s = None ->
  pollTimerRef s = None -> isPollingRef s = false ->
  Phase P (tryLoadLibrary P cl env s).
Proof.
  intros Htm Hhd Hsr Hpt Hip.
  destruct (may_start P cl) eqn:Hcl.
  - destruct (may_start_guard cl Hcl) as [Hb Hg].
    unfold tryLoadLibrary. rewrite Hb, Hg. cbn [negb].
    unfold ensurePolling. break_state s. lib_cells.
    apply (phase_tick cl _ env _ nx); cbn; try reflexivity; [exact Hcl | lia].
  - assert (Hsame : tryLoadLibrary P cl env s = s).
    { unfold tryLoadLibrary, may_start in *.
      destruct (isBrowser P); [| reflexivity]. cbn in Hcl |- *.
      apply negb_false_iff in Hcl. rewrite Hcl. reflexivity. }
    rewrite Hsame. apply Quiescent; assumption.
Qed.

(** Every event keeps the state in one of the three shapes. *)
Lemma phase_step (ev : Event) (env : Env) (s : State) :
  Phase P s -> Phase P (step P ev env s).
Proof.
  intros [Htm Hhd Hsr Hpt Hip
         | cl deadline tid el Htm Hpt Hhd Hsr Hip Hst Hcl Htid Hel
         | cl tid delay Htm Hhd Hsr Hpt Hip Hst Hcl Htid].
  - destruct ev as [| id | el']; cbn.
    + apply phase_tryLoadLibrary; assumption.
    + unfold fire_timer. rewrite Htm. cbn. apply Quiescent; assumption.
    + rewrite Hhd. cbn. apply Quiescent; assumption.
  - destruct ev as [| id | el']; cbn.
    + unfold tryLoadLibrary, render. rewrite Hst. cbn.
      rewrite orb_true_r. destruct (negb (isBrowser P));
        eapply Polling; eassumption.
    + unfold fire_timer. rewrite Htm. cbn.
      destruct (Pos.eqb_spec tid id) as [-> | Hne].
      * cbn. apply (phase_tick cl deadline env _ el); try assumption;
          break_state s; lib_cells; rewrite ?Pos.eqb_refl; reflexivity.
      * eapply Polling; eassumption.
    + rewrite Hhd. cbn.
      destruct (Pos.eqb_spec el el') as [-> | Hne].
      * cbn. unfold script_onerror. apply phase_handleLibraryFailure; try assumption;
          break_state s; lib_cells; rewrite ?Pos.eqb_refl; reflexivity.
      * eapply Polling; eassumption.
  - destruct ev as [| id | el']; cbn.
    + unfold tryLoadLibrary, render. rewrite Hst. cbn.
      rewrite orb_true_r. destruct (negb (isBrowser P));
        eapply BackingOff; eassumption.
    + unfold fire_timer. rewrite Htm. cbn.
      destruct (Pos.eqb_spec tid id) as [-> | Hne].
      * cbn. apply phase_tryLoadLibrary;
          break_state s; lib_cells; rewrite ?Pos.eqb_refl; reflexivity.
      * eapply BackingOff; eassumption.
    + rewrite Hhd. cbn. eapply BackingOff; eassumption.
Qed.

Lemma phase_run (evs : list (Event * Env)) (s : State) :
  Phase P s -> Phase P (run P evs s).
Proof.
  revert s. induction evs as [| [ev env] rest IH]; intros s Hs; cbn.
  - exact Hs.
  - apply IH, phase_step, Hs.
Qed.

Lemma phase_reachable (evs : list (Event * Env)) : Phase P (run P evs initial).
Proof. apply phase_run, phase_initial. Qed.

(** A failure event can only happen to a poll loop under way, and runs
    [handleLibraryFailure] of the loop's render on the stopped state. *)
Lemma failure_shape (ev : Event) (env : Env) (s : State) :
  Phase P s ->
  is_load_failure ev env s ->
  exists cl el err,
    head s = [{| el_id := el; el_onerror := cl |}] /\
    libraryStatus s = Loading /\
    may_start P cl = true /\ (el < next_id s)%positive /\
    step P ev env s = handleLibraryFailure P cl err env (stopped s).
Proof.
  intros Hph Hfail.
  destruct Hph as [Htm Hhd Hsr Hpt Hip
         | cl deadline tid el Htm Hpt Hhd Hsr Hip Hst Hcl Htid Hel
         | cl tid delay Htm Hhd Hsr Hpt Hip Hst Hcl Htid].
  - destruct ev as [| id | el']; cbn in Hfail.
    + contradiction.
    + destruct Hfail as (t & cl & d & Hfind & _). rewrite Htm in Hfind. discriminate.
    + destruct Hfail as (sc & Hfind). rewrite Hhd in Hfind. discriminate.
  - exists cl, el.
    destruct ev as [| id | el']; cbn in Hfail.
    + contradiction.
    + exists (NotReadyWithin (loadTimeout P)).
      repeat (split; [assumption |]).
      destruct Hfail as (t & cl0 & d & Hfind & Hcb & Hnp & Hd).
      rewrite Htm in Hfind. cbn in Hfind.
      destruct (Pos.eqb_spec tid id) as [Heq | Hne]; [subst id | discriminate].
      injection Hfind as <-. cbn in Hcb. injection Hcb as <- <-.
      apply Z.leb_le in Hd.
      cbn [step]. unfold fire_timer. rewrite Htm. cbn [find t_id]. rewrite Pos.eqb_refl.
      cbn [t_cb run_callback]. unfold tick. rewrite Hnp, Hd.
      f_equal. destruct s as [ld st er sr pt ip at_ rp hd tm nx cs].
      cbn in Htm, Hpt, Hhd, Hsr. subst tm pt hd sr.
      unfold stopped. lib_cells. rewrite !Pos.eqb_refl. reflexivity.
    + exists ScriptLoadError.
      repeat (split; [assumption |]).
      destruct Hfail as (sc & Hfind). rewrite Hhd in Hfind. cbn in Hfind.
      destruct (Pos.eqb_spec el el') as [Heq | Hne]; [subst el' | discriminate].
      cbn [step]. rewrite Hhd. cbn [find el_id]. rewrite Pos.eqb_refl.
      cbn [el_onerror]. unfold script_onerror.
      f_equal. destruct s as [ld st er sr pt ip at_ rp hd tm nx cs].
      cbn in Htm, Hpt, Hhd, Hsr. subst tm pt hd sr.
      unfold stopped. lib_cells. rewrite !Pos.eqb_refl. reflexivity.
  - destruct ev as [| id | el']; cbn in Hfail.
    + contradiction.
    + destruct Hfail as (t & cl0 & d & Hfind & Hcb & _).
      rewrite Htm in Hfind. cbn in Hfind.
      destruct (tid =? id)%positive in Hfind; [| discriminate].
      injection Hfind as <-. discriminate.
    + destruct Hfail as (sc & Hfind). rewrite Hhd in Hfind. discriminate.
Qed.

(** Below [maxRetries], [handleLibraryFailure] counts the attempt and
    queues the retry; nothing else changes. *)
Lemma handleLibraryFailure_retry (cl : Closure) (err : Error) (env : Env) (s : State) :
  libraryAttemptRef s + 1 < maxRetries P ->
  handleLibraryFailure P cl err env (stopped s) =
  {| isLibraryLoaded := isLibraryLoaded s; libraryStatus := libraryStatus s;
     libraryError := libraryError s; scriptRef := None; pollTimerRef := None;
     isPollingRef := false; libraryAttemptRef := libraryAttemptRef s + 1;
     readyPromise := readyPromise s; head := [];
     timers :=
       [{| t_id := next_id s;
           t_delay := backoff_delay (libraryAttemptRef s + 1) (random env);
           t_cb := CbTryLoadLibrary cl |}];
     next_id := Pos.succ (next_id s);
     onLibraryError_calls := onLibraryError_calls s |}.
Proof.
  intros Hlt. apply Z.ltb_lt in Hlt.
  destruct s as [ld st er sr pt ip at_ rp hd tm nx cs].
  cbv [libraryAttemptRef] in Hlt.
  cbv [stopped]. lib_unfold. rewrite Hlt. reflexivity.
Qed.

(** When the retry timer expires with the entry point still missing,
    [tryLoadLibrary] of the render that started the load passes its guard
    again: a new script and a new poll loop. *)
Lemma retry_timer_fires (cl : Closure) (env' : Env) (delay : Q)
    (ld : bool) (er : option Error) (att : Z) (rp : PromiseState unit)
    (nx : positive) (cs : list Error) :
  may_start P cl = true ->
  0 < loadTimeout P ->
  pipeline_present env' = false ->
  step P (EvTimer nx) env'
    {| isLibraryLoaded := ld; libraryStatus := Loading;
       libraryError := er; scriptRef := None; pollTimerRef := None;
       isPollingRef := false; libraryAttemptRef := att;
       readyPromise := rp; head := [];
       timers := [{| t_id := nx; t_delay := delay; t_cb := CbTryLoadLibrary cl |}];
       next_id := Pos.succ nx;
       onLibraryError_calls := cs |} =
  {| isLibraryLoaded := ld; libraryStatus := Loading;
     libraryError := None; scriptRef := Some (Pos.succ nx);
     pollTimerRef := Some (Pos.succ (Pos.succ nx));
     isPollingRef := true; libraryAttemptRef := att;
     readyPromise := rp;
     head := [{| el_id := Pos.succ nx; el_onerror := cl |}];
     timers :=
       [{| t_id := Pos.succ (Pos.succ nx); t_delay := 500;
           t_cb := CbTick cl (clock env' + loadTimeout P) |}];
     next_id := Pos.succ (Pos.succ (Pos.succ nx));
     onLibraryError_calls := cs |}.
Proof.
  intros Hcl Hto Hpp.
  destruct (may_start_guard cl Hcl) as [Hb Hg].
  assert (Hdl : (clock env' + loadTimeout P <=? clock env') = false) by (apply Z.leb_gt; lia).
  cbv [step fire_timer find t_id timers]. rewrite Pos.eqb_refl.
  cbv [t_cb run_callback tryLoadLibrary]. rewrite Hb, Hg. cbv [negb].
  cbv [ensurePolling tick]. rewrite Hpp.
  lib_cells. rewrite ?Hdl. lib_cells. rewrite ?Pos.eqb_refl. reflexivity.
Qed.

(** C1. In every state the provider can reach, when a load attempt fails
    (the poll deadline is exceeded or the script fails to load) and the
    incremented attempt counter is below [maxRetries], the status is and
    stays [Loading], the only thing left waiting is [tryLoadLibrary] of the
    same render with the backoff delay, and when that timer expires (entry
    point still missing) a new script element is in the document and a new
    poll loop waits with the deadline [Date.now() + loadTimeout] of that
    moment. *)
Theorem retry_retriggers_load (evs : list (Event * Env)) (ev : Event) (env env' : Env) :
  0 < loadTimeout P ->
  is_load_failure ev env (run P evs initial) ->
  libraryAttemptRef (run P evs initial) + 1 < maxRetries P ->
  pipeline_present env' = false ->
  let s := run P evs initial in
  let s1 := step P ev env s in
  exists (cl : Closure) (retry el tid : positive),
    libraryStatus s = Loading /\
    libraryStatus s1 = Loading /\
    libraryAttemptRef s1 = libraryAttemptRef s + 1 /\
    head s1 = [] /\ scriptRef s1 = None /\ isPollingRef s1 = false /\
    timers s1 =
      [{| t_id := retry;
          t_delay := backoff_delay (libraryAttemptRef s + 1) (random env);
          t_cb := CbTryLoadLibrary cl |}] /\
    let s2 := step P (EvTimer retry) env' s1 in
    libraryStatus s2 = Loading /\
    head s2 = [{| el_id := el; el_onerror := cl |}] /\
    scriptRef s2 = Some el /\
    ~ In el (map el_id (head s)) /\
    isPollingRef s2 = true /\
    pollTimerRef s2 = Some tid /\
    timers s2 =
      [{| t_id := tid; t_delay := 500; t_cb := CbTick cl (clock env' + loadTimeout P) |}].
Proof.
  intros Hto Hfail Hlt Hpp s s1.
  pose proof (phase_reachable evs) as Hph.
  destruct (failure_shape ev env _ Hph Hfail)
    as (cl & el & err & Hhd & Hst & Hcl & Hel & Hstep).
  fold s in Hhd, Hst, Hel, Hstep, Hlt.
  exists cl, (next_id s), (Pos.succ (next_id s)), (Pos.succ (Pos.succ (next_id s))).
  subst s1. rewrite Hstep, (handleLibraryFailure_retry cl err env s Hlt), Hst.
  cbv zeta. rewrite (retry_timer_fires cl env' _ _ _ _ _ _ _ Hcl Hto Hpp).
  cbn [libraryStatus libraryAttemptRef head scriptRef isPollingRef timers pollTimerRef].
  repeat (split; [reflexivity |]).
  split; [| repeat split; reflexivity].
  rewrite Hhd. cbn. intros [Heq | []]. lia.
Qed.

End Facts.

(** The default configuration: mounted at time 0, the poll loop times out
    at 60000 ms; the retry fires and polls with the deadline 121500. *)
Lemma retry_retriggers_load_witness :
  exists (cl : Closure) (retry el tid : positive),
    let env0 := {| clock := 0; pipeline_present := false; random := 1 # 2 |} in
    let env1 := {| clock := 60000; pipeline_present := false; random := 1 # 2 |} in
    let env2 := {| clock := 61500; pipeline_present := false; random := 1 # 2 |} in
    let s := run default_props [(EvEffect, env0)] initial in
    let s1 := step default_props (EvTimer 2) env1 s in
    let s2 := step default_props (EvTimer retry) env2 s1 in
    libraryStatus s1 = Loading /\ libraryStatus s2 = Loading /\
    scriptRef s2 = Some el /\ pollTimerRef s2 = Some tid /\
    timers s2 = [{| t_id := tid; t_delay := 500; t_cb := CbTick cl 121500 |}].
Proof.
  destruct (retry_retriggers_load default_props
              [(EvEffect, {| clock := 0; pipeline_present := false; random := 1 # 2 |})]
              (EvTimer 2)
              {| clock := 60000; pipeline_present := false; random := 1 # 2 |}
              {| clock := 61500; pipeline_present := false; random := 1 # 2 |})
    as (cl & retry & el & tid & _ & H1 & _ & _ & _ & _ & _ & H2 & _ & H3 & _ & _ & H4 & H5).
  - reflexivity.
  - exists {| t_id := 2; t_delay := 500;
              t_cb := CbTick {| cl_isLibraryLoaded := false; cl_libraryStatus := Idle |} 60000 |},
      {| cl_isLibraryLoaded := false; cl_libraryStatus := Idle |}, 60000.
    vm_compute. repeat split; congruence.
  - vm_compute. reflexivity.
  - reflexivity.
  - exists cl, retry, el, tid. cbv zeta. repeat split; assumption.
Defined.

End LibraryLoadFacts.

(** ** The model cache *)

Module ModelCacheFacts.
Import ModelCache.

(** Call-by-value reduction of the state updates of the cache. *)
Ltac mc_cells :=
  cbv [pipeline attempt log_pipeline log_onModelError log_dispose
       set_models set_modelStatus set_modelErrors set_pendingRef set_readyPromise
       set_promises set_next_promise set_conts set_returned set_attempt_result
       models modelStatus modelErrors pendingRef readyPromise promises next_promise
       pipeline_calls conts returned attempt_result onModelError_calls dispose_calls
       snd fst].

(** Projections of an explicit state, in a hypothesis. *)
Ltac mc_fields_in H :=
  cbn [models modelStatus modelErrors pendingRef readyPromise promises next_promise
       pipeline_calls conts returned attempt_result onModelError_calls dispose_calls] in H.

Section Facts.
Variable has_onModelError : bool.

(** *** One attempt *)

(** With the library ready, a suspended attempt resumes by calling the
    factory once and registering its promise. *)
Lemma resume_ready_calls_factory (c : nat) (modelId task : string) (remain : Z) (s : State) :
  conts s !! c = Some (AwaitReady modelId task remain) ->
  readyPromise s = Done (Resolved tt) ->
  resume_ready has_onModelError c s =
  {| models := models s; modelStatus := modelStatus s; modelErrors := modelErrors s;
     pendingRef := <[modelId := next_promise s]> (pendingRef s);
     readyPromise := readyPromise s;
     promises := <[next_promise s := Pending]> (promises s);
     next_promise := Pos.succ (next_promise s);
     pipeline_calls := pipeline_calls s ++ [(task, modelId)];
     conts := <[c := AwaitPipeline modelId task remain (next_promise s)]> (conts s);
     returned := returned s; attempt_result := attempt_result s;
     onModelError_calls := onModelError_calls s; dispose_calls := dispose_calls s |}.
Proof.
  intros Hk Hr. destruct s. cbv [conts readyPromise] in Hk, Hr. subst.
  unfold resume_ready. cbv [conts readyPromise]. rewrite Hk. mc_cells. reflexivity.
Qed.

(** The runtime settles a pending factory promise. *)
Lemma settle_pending (p : positive) (r : Settled Handle) (s : State) :
  promises s !! p = Some Pending ->
  settle p r s = set_promises (<[p := Done r]> (promises s)) s.
Proof. intros Hp. unfold settle. rewrite Hp. reflexivity. Qed.

(** An attempt whose factory promise resolved stores the handle, whatever
    happened to the tables meanwhile. *)
Lemma resume_pipeline_resolved (c : nat) (modelId task : string) (remain : Z)
    (p : positive) (pipe : Handle) (s : State) :
  conts s !! c = Some (AwaitPipeline modelId task remain p) ->
  promises s !! p = Some (Done (Resolved pipe)) ->
  resume_pipeline has_onModelError c s =
  {| models := <[modelId := pipe]> (models s);
     modelStatus := <[modelId := Ready]> (modelStatus s);
     modelErrors := modelErrors s;
     pendingRef := delete modelId (pendingRef s);
     readyPromise := readyPromise s; promises := promises s;
     next_promise := next_promise s; pipeline_calls := pipeline_calls s;
     conts := delete c (conts s);
     returned := returned s;
     attempt_result := <[c := Resolved pipe]> (attempt_result s);
     onModelError_calls := onModelError_calls s; dispose_calls := dispose_calls s |}.
Proof.
  intros Hk Hp. destruct s. cbv [conts promises] in Hk, Hp.
  unfold resume_pipeline. cbv [conts promises]. rewrite Hk, Hp. mc_cells. reflexivity.
Qed.

(** An attempt whose factory promise rejected runs its [catch] block. *)
Lemma resume_pipeline_rejected (c : nat) (modelId task : string) (remain : Z)
    (p : positive) (err : Error) (s : State) :
  conts s !! c = Some (AwaitPipeline modelId task remain p) ->
  promises s !! p = Some (Done (Rejected err)) ->
  resume_pipeline has_onModelError c s = attempt_catch has_onModelError c modelId task remain err s.
Proof. intros Hk Hp. unfold resume_pipeline. rewrite Hk, Hp. reflexivity. Qed.

(** The [catch] block with retries left starts the next attempt. *)
Lemma attempt_catch_retries (c : nat) (modelId task : string) (remain : Z)
    (err : Error) (s : State) :
  0 < remain ->
  attempt_catch has_onModelError c modelId task remain err s =
  set_conts (<[c := AwaitReady modelId task (remain - 1)]> (conts s)) s.
Proof.
  intros Hr. unfold attempt_catch. apply Z.ltb_lt in Hr. rewrite Hr. reflexivity.
Qed.

(** The [catch] block with no retry left gives up. *)
Lemma attempt_catch_gives_up (c : nat) (modelId task : string) (remain : Z)
    (err : Error) (s : State) :
  remain <= 0 ->
  attempt_catch has_onModelError c modelId task remain err s =
  {| models := models s;
     modelStatus := <[modelId := Failed]> (modelStatus s);
     modelErrors := <[modelId := Some err]> (modelErrors s);
     pendingRef := delete modelId (pendingRef s);
     readyPromise := readyPromise s; promises := promises s;
     next_promise := next_promise s; pipeline_calls := pipeline_calls s;
     conts := delete c (conts s);
     returned := returned s;
     attempt_result := <[c := Rejected err]> (attempt_result s);
     onModelError_calls :=
       onModelError_calls s ++ (if has_onModelError then [(modelId, err)] else []);
     dispose_calls := dispose_calls s |}.
Proof.
  intros Hr. unfold attempt_catch. apply Z.ltb_ge in Hr. rewrite Hr.
  destruct s, has_onModelError; mc_cells; rewrite ?app_nil_r; reflexivity.
Qed.

(** One attempt that the factory rejects: resumed, called, rejected, caught. *)
Lemma one_attempt_fails (c : nat) (modelId task : string) (remain : Z)
    (err : Error) (s : State) :
  conts s !! c = Some (AwaitReady modelId task remain) ->
  readyPromise s = Done (Resolved tt) ->
  resume_pipeline has_onModelError c
    (settle (next_promise s) (Rejected err) (resume_ready has_onModelError c s)) =
  attempt_catch has_onModelError c modelId task remain err
    {| models := models s; modelStatus := modelStatus s; modelErrors := modelErrors s;
       pendingRef := <[modelId := next_promise s]> (pendingRef s);
       readyPromise := readyPromise s;
       promises := <[next_promise s := Done (Rejected err)]> (promises s);
       next_promise := Pos.succ (next_promise s);
       pipeline_calls := pipeline_calls s ++ [(task, modelId)];
       conts := <[c := AwaitPipeline modelId task remain (next_promise s)]> (conts s);
       returned := returned s; attempt_result := attempt_result s;
       onModelError_calls := onModelError_calls s; dispose_calls := dispose_calls s |}.
Proof.
  intros Hk Hr. rewrite (resume_ready_calls_factory c modelId task remain s Hk Hr).
  rewrite settle_pending by (cbn; apply lookup_insert_eq).
  cbn [promises set_promises]. rewrite insert_insert_eq.
  erewrite resume_pipeline_rejected;
    [| cbn; apply lookup_insert_eq | cbn; apply lookup_insert_eq].
  destruct s. mc_cells. reflexivity.
Qed.

(** *** A call whose attempts all fail *)

(** A suspended call with [remain] retries left meets [remain + 1]
    rejections: every one calls the factory, the last one gives up. *)
Lemma all_attempts_fail_gives_up (c : nat) (modelId task : string)
    (errs : list Error) (last_err : Error) :
  forall (remain : Z) (s : State),
  conts s !! c = Some (AwaitReady modelId task remain) ->
  readyPromise s = Done (Resolved tt) ->
  length errs = Z.to_nat remain ->
  let s' := all_attempts_fail has_onModelError c (errs ++ [last_err]) s in
  models s' = models s /\
  modelErrors s' = <[modelId := Some last_err]> (modelErrors s) /\
  modelStatus s' = <[modelId := Failed]> (modelStatus s) /\
  pendingRef s' !! modelId = None /\
  onModelError_calls s' =
    onModelError_calls s ++ (if has_onModelError then [(modelId, last_err)] else []) /\
  attempt_result s' !! c = Some (Rejected last_err) /\
  conts s' !! c = None /\
  pipeline_calls s' = pipeline_calls s ++ repeat (task, modelId) (S (length errs)) /\
  returned s' = returned s /\
  dispose_calls s' = dispose_calls s /\
  readyPromise s' = readyPromise s.
Proof.
  induction errs as [| err rest IH]; intros remain s Hk Hr Hlen.
  - cbn [app all_attempts_fail]. rewrite (one_attempt_fails c modelId task remain _ s Hk Hr).
    cbn in Hlen. rewrite attempt_catch_gives_up by lia.
    cbn [models modelErrors modelStatus pendingRef onModelError_calls attempt_result
         conts pipeline_calls returned dispose_calls readyPromise length repeat].
    repeat split; try reflexivity.
    + apply lookup_delete_eq.
    + apply lookup_insert_eq.
    + apply lookup_delete_eq.
  - cbn [app all_attempts_fail]. rewrite (one_attempt_fails c modelId task remain _ s Hk Hr).
    cbn [length] in Hlen. rewrite attempt_catch_retries by lia.
    match goal with |- context [all_attempts_fail _ _ _ ?s0] => set (s1 := s0) end.
    specialize (IH (remain - 1) s1).
    destruct IH as (Hm & He & Hs & Hp & Ho & Ha & Hc & Hpc & Hret & Hd & Hrp).
    + subst s1. cbn. apply lookup_insert_eq.
    + subst s1. cbn. exact Hr.
    + lia.
    + cbv zeta. rewrite Hm, He, Hs, Ho, Hpc, Hret, Hd, Hrp.
      subst s1. cbn [models modelErrors modelStatus pendingRef onModelError_calls
         attempt_result conts pipeline_calls returned dispose_calls readyPromise
         set_conts length].
      repeat split; try reflexivity; try assumption.
      rewrite <- app_assoc. reflexivity.
Qed.

(** C5. A [loadModel] call that starts a load, with the library ready and
    a factory that rejects each of its [retry + 1] attempts: the factory was
    called [retry + 1] times, the last error is in the error table, the
    status is "error", the pending entry is gone, [onModelError] (when
    given) was called with the identifier and that error, the returned
    promise is rejected with it, and the model table is as before, without
    the identifier; a later [loadModel] of the identifier starts a new load
    and calls the factory again. *)
Theorem exhausted_retries_reject (c : nat) (seen : gmap string Handle)
    (modelId task : string) (retry : Z) (errs : list Error) (last_err : Error)
    (s : State) :
  seen !! modelId = None ->
  models s !! modelId = None ->
  pendingRef s !! modelId = None ->
  readyPromise s = Done (Resolved tt) ->
  length errs = Z.to_nat retry ->
  let s' := all_attempts_fail has_onModelError c (errs ++ [last_err])
              (loadModel c seen modelId task retry s) in
  pipeline_calls s' = pipeline_calls s ++ repeat (task, modelId) (S (Z.to_nat retry)) /\
  modelErrors s' !! modelId = Some (Some last_err) /\
  modelStatus s' !! modelId = Some Failed /\
  pendingRef s' !! modelId = None /\
  onModelError_calls s' =
    onModelError_calls s ++ (if has_onModelError then [(modelId, last_err)] else []) /\
  call_outcome c s' = Some (Rejected last_err) /\
  models s' = models s /\
  models s' !! modelId = None /\
  forall (c' : nat) (task' : string) (retry' : Z),
    let s'' := loadModel c' (models s') modelId task' retry' s' in
    conts s'' !! c' = Some (AwaitReady modelId task' retry') /\
    modelStatus s'' !! modelId = Some Loading /\
    modelErrors s'' !! modelId = Some None /\
    pipeline_calls (resume_ready has_onModelError c' s'') =
      pipeline_calls s' ++ [(task', modelId)].
Proof.
  intros Hseen Hmodels Hpending Hready Hlen s'.
  assert (Hload : loadModel c seen modelId task retry s =
    set_conts (<[c := AwaitReady modelId task retry]> (conts s))
      (set_returned (<[c := RetAttempt]> (returned s))
         (set_modelErrors (<[modelId := None]> (modelErrors s))
            (set_modelStatus (<[modelId := Loading]> (modelStatus s)) s)))).
  { unfold loadModel. rewrite Hseen, Hpending. destruct s. mc_cells. reflexivity. }
  destruct (all_attempts_fail_gives_up c modelId task errs last_err retry
              (loadModel c seen modelId task retry s))
    as (Hm & He & Hs & Hp & Ho & Ha & Hc & Hpc & Hret & Hd & Hrp).
  { rewrite Hload. cbn. apply lookup_insert_eq. }
  { rewrite Hload. cbn. exact Hready. }
  { exact Hlen. }
  fold s' in Hm, He, Hs, Hp, Ho, Ha, Hc, Hpc, Hret, Hd, Hrp.
  rewrite Hload in Hm, He, Hs, Ho, Hpc, Hret, Hrp.
  cbn in Hm, He, Hs, Ho, Hpc, Hret, Hrp.
  assert (Hms' : models s' !! modelId = None) by (rewrite Hm; exact Hmodels).
  repeat split.
  - rewrite Hpc, Hlen. reflexivity.
  - rewrite He. apply lookup_insert_eq.
  - rewrite Hs. apply lookup_insert_eq.
  - exact Hp.
  - exact Ho.
  - unfold call_outcome. rewrite Hret, lookup_insert_eq. exact Ha.
  - exact Hm.
  - exact Hms'.
  - unfold loadModel. rewrite Hms', Hp. cbn. apply lookup_insert_eq.
  - unfold loadModel. rewrite Hms', Hp. cbn. apply lookup_insert_eq.
  - unfold loadModel. rewrite Hms', Hp. cbn. apply lookup_insert_eq.
  - erewrite resume_ready_calls_factory.
    + unfold loadModel. rewrite Hms', Hp. reflexivity.
    + unfold loadModel. rewrite Hms', Hp. cbn. apply lookup_insert_eq.
    + unfold loadModel. rewrite Hms', Hp. cbn. rewrite Hrp. exact Hready.
Qed.

(** *** Unloading *)

Lemma unloadModel_eq (modelId : string) (s : State) :
  unloadModel modelId s =
  {| models := delete modelId (models s);
     modelStatus := delete modelId (modelStatus s);
     modelErrors := delete modelId (modelErrors s);
     pendingRef := delete modelId (pendingRef s);
     readyPromise := readyPromise s; promises := promises s;
     next_promise := next_promise s; pipeline_calls := pipeline_calls s;
     conts := conts s; returned := returned s; attempt_result := attempt_result s;
     onModelError_calls := onModelError_calls s;
     dispose_calls :=
       dispose_calls s ++
       match models s !! modelId with
       | Some pipe => match h_dispose pipe with Some _ => [pipe] | None => [] end
       | None => []
       end |}.
Proof.
  destruct s. unfold unloadModel.
  cbv [set_pendingRef models modelStatus modelErrors pendingRef readyPromise promises
       next_promise pipeline_calls conts returned attempt_result onModelError_calls
       dispose_calls].
  destruct (_ !! modelId) as [pipe |]; [destruct (h_dispose pipe) |];
    mc_cells; rewrite ?app_nil_r; reflexivity.
Qed.


(** *** Deduplication *)

(** A call that arrives while a factory promise is registered for the
    identifier (and whose render has no handle for it) returns that
    promise and changes nothing else. *)
Lemma loadModel_shares_pending (c : nat) (seen : gmap string Handle)
    (modelId task : string) (retry : Z) (p : positive) (s : State) :
  seen !! modelId = None ->
  pendingRef s !! modelId = Some p ->
  loadModel c seen modelId task retry s =
  set_returned (<[c := RetPending p]> (returned s)) s.
Proof. intros Hseen Hp. unfold loadModel. rewrite Hseen, Hp. reflexivity. Qed.

(** A call that arrives while the first one still awaits the ready
    promise finds no pending entry and starts an attempt of its own. *)
Lemma loadModel_before_registration (c : nat) (seen : gmap string Handle)
    (modelId task : string) (retry : Z) (s : State) :
  seen !! modelId = None ->
  pendingRef s !! modelId = None ->
  conts (loadModel c seen modelId task retry s) !! c = Some (AwaitReady modelId task retry) /\
  pendingRef (loadModel c seen modelId task retry s) = pendingRef s.
Proof.
  intros Hseen Hp. unfold loadModel. rewrite Hseen, Hp. cbn.
  split; [apply lookup_insert_eq | reflexivity].
Qed.

(** A call that finds the identifier neither in its render's model table
    nor in the pending table marks it loading and suspends a first attempt. *)
Lemma loadModel_starts (c : nat) (seen : gmap string Handle)
    (modelId task : string) (retry : Z) (s : State) :
  seen !! modelId = None ->
  pendingRef s !! modelId = None ->
  loadModel c seen modelId task retry s =
  {| models := models s;
     modelStatus := <[modelId := Loading]> (modelStatus s);
     modelErrors := <[modelId := None]> (modelErrors s);
     pendingRef := pendingRef s;
     readyPromise := readyPromise s; promises := promises s;
     next_promise := next_promise s; pipeline_calls := pipeline_calls s;
     conts := <[c := AwaitReady modelId task retry]> (conts s);
     returned := <[c := RetAttempt]> (returned s);
     attempt_result := attempt_result s;
     onModelError_calls := onModelError_calls s; dispose_calls := dispose_calls s |}.
Proof.
  intros Hseen Hp. unfold loadModel. rewrite Hseen, Hp. destruct s. mc_cells. reflexivity.
Qed.

(** C2, as the code has it. Two [loadModel] calls for one identifier made
    in the same turn, with the library ready and nothing registered for the
    identifier: both pass the pending check, each resumes by calling the
    factory, two factory promises are in flight for the identifier, and
    each caller gets what its own promise resolves to. *)
Theorem concurrent_calls_each_invoke_factory (c1 c2 : nat)
    (seen1 seen2 : gmap string Handle) (modelId task : string) (retry1 retry2 : Z)
    (pipe1 pipe2 : Handle) (s : State) :
  c1 <> c2 ->
  seen1 !! modelId = None -> seen2 !! modelId = None ->
  pendingRef s !! modelId = None ->
  readyPromise s = Done (Resolved tt) ->
  let p1 := next_promise s in
  let p2 := Pos.succ (next_promise s) in
  let called := loadModel c2 seen2 modelId task retry2
                  (loadModel c1 seen1 modelId task retry1 s) in
  let in_flight := resume_ready has_onModelError c2
                     (resume_ready has_onModelError c1 called) in
  let settled := resume_pipeline has_onModelError c2
                   (resume_pipeline has_onModelError c1
                      (settle p2 (Resolved pipe2) (settle p1 (Resolved pipe1) in_flight))) in
  pipeline_calls in_flight = pipeline_calls s ++ [(task, modelId); (task, modelId)] /\
  conts in_flight !! c1 = Some (AwaitPipeline modelId task retry1 p1) /\
  conts in_flight !! c2 = Some (AwaitPipeline modelId task retry2 p2) /\
  promises in_flight !! p1 = Some Pending /\
  promises in_flight !! p2 = Some Pending /\
  call_outcome c1 settled = Some (Resolved pipe1) /\
  call_outcome c2 settled = Some (Resolved pipe2).
Proof.
  intros Hc Hseen1 Hseen2 Hp Hr. cbv zeta.
  set (p1 := next_promise s). set (p2 := Pos.succ p1).
  set (s1 := loadModel c1 seen1 modelId task retry1 s).
  set (called := loadModel c2 seen2 modelId task retry2 s1).
  set (r1 := resume_ready has_onModelError c1 called).
  set (in_flight := resume_ready has_onModelError c2 r1).
  set (t1 := settle p1 (Resolved pipe1) in_flight).
  set (t2 := settle p2 (Resolved pipe2) t1).
  set (u1 := resume_pipeline has_onModelError c1 t2).
  set (settled := resume_pipeline has_onModelError c2 u1).
  assert (Hp12 : p1 <> p2) by (subst p2; lia).
  assert (Hp21 : p2 <> p1) by (subst p2; lia).
  assert (E1 : s1 = _)
    by apply (loadModel_starts c1 seen1 modelId task retry1 s Hseen1 Hp).
  assert (E2 : called = _)
    by (apply (loadModel_starts c2 seen2 modelId task retry2 s1 Hseen2);
        rewrite E1; exact Hp).
  rewrite E1 in E2. mc_fields_in E2.
  assert (E3 : r1 = _)
    by (apply (resume_ready_calls_factory c1 modelId task retry1 called);
        rewrite E2; cbn;
        [rewrite lookup_insert_ne by assumption || congruence; apply lookup_insert_eq | exact Hr]).
  rewrite E2 in E3. mc_fields_in E3.
  assert (E4 : in_flight = _)
    by (apply (resume_ready_calls_factory c2 modelId task retry2 r1);
        rewrite E3; cbn;
        [rewrite lookup_insert_ne by assumption || congruence; apply lookup_insert_eq | exact Hr]).
  rewrite E3 in E4. mc_fields_in E4. fold p1 p2 in E4.
  assert (F1 : t1 = _)
    by (apply settle_pending; rewrite E4; cbn;
        rewrite lookup_insert_ne by assumption || congruence; apply lookup_insert_eq).
  rewrite E4 in F1. unfold set_promises in F1. mc_fields_in F1.
  assert (F2 : t2 = _)
    by (apply settle_pending; rewrite F1; cbn;
        rewrite lookup_insert_ne by assumption || congruence; apply lookup_insert_eq).
  rewrite F1 in F2. unfold set_promises in F2. mc_fields_in F2.
  assert (G1 : u1 = _)
    by (apply (resume_pipeline_resolved c1 modelId task retry1 p1 pipe1);
        rewrite F2; cbn;
        [rewrite lookup_insert_ne by assumption || congruence; apply lookup_insert_eq
        | rewrite lookup_insert_ne by assumption || congruence; apply lookup_insert_eq]).
  rewrite F2 in G1. mc_fields_in G1.
  assert (G2 : settled = _)
    by (apply (resume_pipeline_resolved c2 modelId task retry2 p2 pipe2);
        rewrite G1; cbn;
        [rewrite lookup_delete_ne by assumption || congruence; apply lookup_insert_eq
        | apply lookup_insert_eq]).
  rewrite G1 in G2. mc_fields_in G2.
  rewrite E4, G2. unfold call_outcome.
  cbn [models modelStatus modelErrors pendingRef readyPromise promises next_promise
       pipeline_calls conts returned attempt_result onModelError_calls dispose_calls].
  repeat split.
  - rewrite <- app_assoc. reflexivity.
  - rewrite lookup_insert_ne by assumption || congruence. apply lookup_insert_eq.
  - apply lookup_insert_eq.
  - rewrite lookup_insert_ne by assumption || congruence. apply lookup_insert_eq.
  - apply lookup_insert_eq.
  - rewrite lookup_insert_ne by assumption || congruence. rewrite lookup_insert_eq.
    rewrite lookup_insert_ne by assumption || congruence. apply lookup_insert_eq.
  - rewrite lookup_insert_eq. apply lookup_insert_eq.
Qed.

End Facts.

(** *** Concrete runs *)

(** Two calls in one turn with the library ready, as
    [Promise.all([loadModel("m", "t"), loadModel("m", "t")])] makes them. *)
Example two_calls_in_one_turn :
  let in_flight :=
    run true [LibraryReady; Call 1 ∅ "m" "t" 1; Call 2 ∅ "m" "t" 1;
              ResumeReady 1; ResumeReady 2] initial in
  pipeline_calls in_flight = [("t", "m"); ("t", "m")] /\
  promises in_flight !! 1%positive = Some Pending /\
  promises in_flight !! 2%positive = Some Pending.
Proof. vm_compute. repeat split; reflexivity. Qed.

Lemma concurrent_calls_each_invoke_factory_witness :
  let s := run true [LibraryReady; Call 1 ∅ "m" "t" 1; Call 2 ∅ "m" "t" 1;
                     ResumeReady 1; ResumeReady 2;
                     Settle 1 (Resolved h1); Settle 2 (Resolved h2);
                     ResumePipeline 1; ResumePipeline 2] initial in
  call_outcome 1 s = Some (Resolved h1) /\ call_outcome 2 s = Some (Resolved h2).
Proof.
  cbv zeta.
  destruct (concurrent_calls_each_invoke_factory true 1 2 ∅ ∅ "m" "t" 1 1 h1 h2
              (settle_ready (Resolved tt) initial))
    as (_ & _ & _ & _ & _ & H1 & H2).
  - discriminate.
  - reflexivity.
  - reflexivity.
  - reflexivity.
  - reflexivity.
  - split; [exact H1 | exact H2].
Defined.

(** The same with the calls made before the library is ready. *)
Example concurrent_calls_before_ready :
  pipeline_calls
    (run true [Call 1 ∅ "m" "t" 1; Call 2 ∅ "m" "t" 1; LibraryReady;
               ResumeReady 1; ResumeReady 2] initial) =
  [("t", "m"); ("t", "m")].
Proof. vm_compute. reflexivity. Qed.

(** A call that arrives after the first one has called the factory shares
    its promise: one factory call, one handle. *)
Example late_call_is_deduplicated :
  let s := run true [LibraryReady; Call 1 ∅ "m" "t" 1; ResumeReady 1;
                     Call 2 ∅ "m" "t" 1; Settle 1 (Resolved h1);
                     ResumePipeline 1] initial in
  pipeline_calls s = [("t", "m")] /\
  call_outcome 1 s = Some (Resolved h1) /\
  call_outcome 2 s = Some (Resolved h1).
Proof. vm_compute. repeat split; reflexivity. Qed.



Lemma exhausted_retries_reject_witness :
  let s := settle_ready (Resolved tt) initial in
  let s' := all_attempts_fail true 1 ([Thrown "first"] ++ [Thrown "second"])
              (loadModel 1 ∅ "m" "t" 1 s) in
  pipeline_calls s' = [("t", "m"); ("t", "m")] /\
  modelErrors s' !! "m" = Some (Some (Thrown "second")) /\
  call_outcome 1 s' = Some (Rejected (Thrown "second")).
Proof.
  cbv zeta.
  destruct (exhausted_retries_reject true 1 ∅ "m" "t" 1 [Thrown "first"] (Thrown "second")
              (settle_ready (Resolved tt) initial))
    as (Hpc & He & _ & _ & _ & Ho & _).
  - reflexivity.
  - reflexivity.
  - reflexivity.
  - reflexivity.
  - reflexivity.
  - repeat split; assumption.
Defined.

End ModelCacheFacts.

(** ** The engine session manager and the chat helpers *)

Module WebLLMFacts.
Import WebLLM.

(** *** Queries *)

(** C4 as stated fails: with WebLLM disabled (or the catalog missing)
    [getAvailableWebLLMModels] rejects; it does not resolve to an empty
    list. *)
Lemma getAvailableWebLLMModels_counterexample :
  getAvailableWebLLMModels false None <> Resolved [] /\
  getAvailableWebLLMModels true None <> Resolved [].
Proof. split; discriminate. Qed.

(** C4, as the code has it. [hasModelInCache] fails soft: it resolves to
    [false] when WebLLM is disabled, when [window.webllm] or its
    [hasModelInCache] is missing and when the probe rejects, and never
    rejects. [getAvailableWebLLMModels] rejects with "WebLLM is not enabled"
    when disabled and with "WebLLM library not loaded yet" when
    [window.webllm] or its [prebuiltAppConfig] is missing; it resolves to
    the empty list only when reading [model_list] throws. *)
Theorem queries_without_capability :
  (forall w modelId, hasModelInCache false w modelId = Resolved false) /\
  (forall enabled modelId, hasModelInCache enabled None modelId = Resolved false) /\
  (forall enabled create cfg modelId,
     hasModelInCache enabled
       (Some {| has_CreateMLCEngine := create; prebuiltAppConfig := cfg;
                ns_hasModelInCache := None |}) modelId = Resolved false) /\
  (forall enabled create cfg err modelId,
     hasModelInCache enabled
       (Some {| has_CreateMLCEngine := create; prebuiltAppConfig := cfg;
                ns_hasModelInCache := Some (fun _ => Rejected err) |}) modelId =
     Resolved false) /\
  (forall enabled w modelId, exists b, hasModelInCache enabled w modelId = Resolved b) /\
  (forall w, getAvailableWebLLMModels false w = Rejected WebLLMNotEnabled) /\
  getAvailableWebLLMModels true None = Rejected WebLLMNotLoadedYet /\
  (forall create probe,
     getAvailableWebLLMModels true
       (Some {| has_CreateMLCEngine := create; prebuiltAppConfig := None;
                ns_hasModelInCache := probe |}) = Rejected WebLLMNotLoadedYet) /\
  (forall create probe err,
     getAvailableWebLLMModels true
       (Some {| has_CreateMLCEngine := create;
                prebuiltAppConfig := Some {| model_list := ReadThrows err |};
                ns_hasModelInCache := probe |}) = Resolved []) /\
  (forall create probe l,
     getAvailableWebLLMModels true
       (Some {| has_CreateMLCEngine := create;
                prebuiltAppConfig := Some {| model_list := Got l |};
                ns_hasModelInCache := probe |}) = Resolved l).
Proof.
  repeat split; intros; try reflexivity.
  - destruct enabled; reflexivity.
  - destruct enabled; reflexivity.
  - destruct enabled; reflexivity.
  - unfold hasModelInCache. destruct enabled; cbn; [| eauto].
    destruct (w ≫= ns_hasModelInCache) as [probe |]; [| eauto].
    destruct (probe modelId); eauto.
Qed.

(** *** Chat requests *)

Lemma spread_last_options (fixed options : JSObject) (k : string) (v : JSValue) :
  options !! k = Some v -> spread_last fixed options !! k = Some v.
Proof. intros H. unfold spread_last. apply lookup_union_Some_l, H. Qed.

Lemma spread_last_fixed (fixed options : JSObject) (k : string) :
  options !! k = None -> spread_last fixed options !! k = fixed !! k.
Proof. intros H. unfold spread_last. apply lookup_union_r, H. Qed.

(** Without an override the fixed fields are sent as written. *)
Lemma stream_request_defaults (messages : list ChatMessage) (options : JSObject) :
  options !! "stream" = None -> options !! "messages" = None ->
  stream_request messages options !! "stream" = Some (VBool true) /\
  stream_request messages options !! "messages" = Some (VMessages messages).
Proof.
  intros Hs Hm. unfold stream_request. rewrite !spread_last_fixed by assumption.
  split; [apply lookup_insert_eq |].
  rewrite lookup_insert_ne by discriminate. apply lookup_singleton_eq.
Qed.

Lemma sent_chatCompletion (messages : list ChatMessage) (options : JSObject)
    (engine : Engine) (s : State) :
  webLLMEngineRef s = Some engine ->
  webLLMReadyPromise s = Done (Resolved tt) ->
  sent (chatCompletion messages options s) = [chat_request messages options] /\
  outcome (chatCompletion messages options s) =
    Done (create engine (chat_request messages options)).
Proof. intros He Hr. unfold chatCompletion. rewrite He, Hr. split; reflexivity. Qed.

Lemma sent_streamChatCompletion (messages : list ChatMessage) (options : JSObject)
    (engine : Engine) (s : State) :
  webLLMEngineRef s = Some engine ->
  webLLMReadyPromise s = Done (Resolved tt) ->
  sent (streamChatCompletion messages options s) = [stream_request messages options].
Proof.
  intros He Hr. unfold streamChatCompletion. rewrite He, Hr.
  destruct (create engine _) as [[r | chunks failure] | err]; reflexivity.
Qed.



Example messages_option_replaces_argument :
  stream_request [{| role := "user"; content := "asked" |}]
    {[ "messages" := VMessages [{| role := "user"; content := "from options" |}] ]}
    !! "messages" =
  Some (VMessages [{| role := "user"; content := "from options" |}]).
Proof. vm_compute. reflexivity. Qed.

(** *** Streaming *)

Lemma for_await_delivered (chunks : list Chunk) :
  forall calls, for_await chunks calls = calls ++ delivered chunks.
Proof.
  induction chunks as [| chunk rest IH]; intros calls.
  - cbn. rewrite app_nil_r. reflexivity.
  - cbn [for_await]. rewrite IH. unfold delivered. cbn [map List.filter].
    destruct (String.eqb (chunk_content chunk) ""); cbn [negb].
    + reflexivity.
    + rewrite <- app_assoc. reflexivity.
Qed.

Lemma delivered_app (first rest : list Chunk) :
  delivered (first ++ rest) = delivered first ++ delivered rest.
Proof. unfold delivered. rewrite map_app, List.filter_app. reflexivity. Qed.

(** C7. With a session and the ready promise resolved, when the engine
    answers the streaming request with a finite sequence of chunks that
    ends normally, [onChunk] is called with the content of every chunk
    whose content is not empty, once each and in the order of the chunks,
    chunks without content are skipped, and the promise resolves after the
    last chunk; the calls made while the first [n] chunks were consumed
    are those of these [n] chunks, whatever follows. *)
Theorem stream_delivers_chunks_in_order (messages : list ChatMessage)
    (options : JSObject) (engine : Engine) (chunks : list Chunk) (s : State) :
  webLLMEngineRef s = Some engine ->
  webLLMReadyPromise s = Done (Resolved tt) ->
  create engine (stream_request messages options) = Resolved (Stream chunks None) ->
  let r := streamChatCompletion messages options s in
  onChunk_calls r =
    List.filter (fun text => negb (String.eqb text "")) (map chunk_content chunks) /\
  outcome r = Done (Resolved tt) /\
  Forall (fun text => text <> "") (onChunk_calls r) /\
  forall n : nat,
    for_await (take n chunks) [] = delivered (take n chunks) /\
    onChunk_calls r = for_await (take n chunks) [] ++ delivered (drop n chunks).
Proof.
  intros He Hr Hc r. subst r. unfold streamChatCompletion. rewrite He, Hr, Hc.
  cbn [onChunk_calls outcome]. rewrite for_await_delivered. cbn [app].
  repeat split.
  - apply List.Forall_forall. intros text Hin. apply List.filter_In in Hin as [_ Hne].
    intros ->. discriminate.
  - rewrite for_await_delivered. reflexivity.
  - rewrite for_await_delivered. cbn [app].
    rewrite <- delivered_app, take_drop. reflexivity.
Qed.

(** The three-chunk sequence of the streaming test. *)
Lemma stream_delivers_chunks_in_order_witness :
  let r := streamChatCompletion [{| role := "user"; content := "Hello" |}] ∅
             (session hello_engine "m") in
  onChunk_calls r = ["Hello"; " there"; "!"] /\
  String.concat "" (onChunk_calls r) = "Hello there!" /\
  outcome r = Done (Resolved tt).
Proof.
  cbv zeta.
  destruct (stream_delivers_chunks_in_order
              [{| role := "user"; content := "Hello" |}] ∅ hello_engine hello_chunks
              (session hello_engine "m")) as (Hcalls & Hout & _).
  - reflexivity.
  - reflexivity.
  - vm_compute. reflexivity.
  - rewrite Hcalls.
    split; [vm_compute; reflexivity | split; [vm_compute; reflexivity | exact Hout]].
Defined.

(** *** Loading a model into the session *)

Lemma live_app (tr ops : list RuntimeOp) :
  live (tr ++ ops) = fold_left live_after ops (live tr).
Proof. unfold live. apply fold_left_app. Qed.

(** With a session in place, [loadWebLLMModel] calls its [unload] and
    waits; the factory has not been called. *)
Lemma loadWebLLMModel_unloads_first (c : nat) (w : option Namespace) (modelId : string)
    (old : Engine) (s : State) :
  CreateMLCEngine_present w = true ->
  webLLMEngineRef s = Some old ->
  loadWebLLMModel true c w modelId s =
  {| webLLMEngineRef := Some old; isWebLLMLoaded := isWebLLMLoaded s;
     webLLMStatus := Loading; webLLMError := None;
     currentWebLLMModel := currentWebLLMModel s;
     webLLMReadyPromise := webLLMReadyPromise s;
     loads := <[c := AwaitUnload modelId old]> (loads s);
     load_result := load_result s;
     trace := trace s ++ [UnloadCalled (e_id old)] |}.
Proof.
  intros Hw He. destruct s. cbv [webLLMEngineRef] in He. subst.
  unfold loadWebLLMModel. rewrite Hw. reflexivity.
Qed.

(** Once the [unload] has resolved, the reference is cleared and the
    factory is called. *)
Lemma resume_unload_then_creates (c : nat) (modelId : string) (old : Engine) (s : State) :
  loads s !! c = Some (AwaitUnload modelId old) ->
  resume_unload c (Resolved tt) s =
  {| webLLMEngineRef := None; isWebLLMLoaded := isWebLLMLoaded s;
     webLLMStatus := webLLMStatus s; webLLMError := webLLMError s;
     currentWebLLMModel := currentWebLLMModel s;
     webLLMReadyPromise := webLLMReadyPromise s;
     loads := <[c := AwaitCreate modelId]> (loads s);
     load_result := load_result s;
     trace := (trace s ++ [UnloadDone (e_id old)]) ++ [CreateCalled modelId] |}.
Proof.
  intros Hk. destruct s. cbv [loads] in Hk.
  unfold resume_unload. cbv [loads]. rewrite Hk. reflexivity.
Qed.

(** When the [unload] rejects, the factory is not called and the call
    rejects. *)
Lemma resume_unload_rejected (c : nat) (modelId : string) (old : Engine)
    (err : Error) (s : State) :
  loads s !! c = Some (AwaitUnload modelId old) ->
  trace (resume_unload c (Rejected err) s) = trace s /\
  webLLMEngineRef (resume_unload c (Rejected err) s) = webLLMEngineRef s /\
  load_result (resume_unload c (Rejected err) s) !! c = Some (Rejected err).
Proof.
  intros Hk. destruct s. cbv [loads] in Hk.
  unfold resume_unload. cbv [loads]. rewrite Hk. cbn.
  repeat split. apply lookup_insert_eq.
Qed.

Lemma resume_create_stores (c : nat) (modelId : string) (engine : Engine) (s : State) :
  loads s !! c = Some (AwaitCreate modelId) ->
  resume_create c (Resolved engine) s =
  {| webLLMEngineRef := Some engine; isWebLLMLoaded := true;
     webLLMStatus := Ready; webLLMError := webLLMError s;
     currentWebLLMModel := Some modelId;
     webLLMReadyPromise := webLLMReadyPromise s;
     loads := delete c (loads s);
     load_result := <[c := Resolved tt]> (load_result s);
     trace := trace s ++ [CreateDone modelId (e_id engine)] |}.
Proof.
  intros Hk. destruct s. cbv [loads] in Hk.
  unfold resume_create. cbv [loads]. rewrite Hk. reflexivity.
Qed.

(** The four things the runtime sees when a model is loaded over a session. *)
Lemma load_over_session_trace (c : nat) (w : option Namespace) (modelId : string)
    (old fresh : Engine) (s : State) :
  CreateMLCEngine_present w = true ->
  webLLMEngineRef s = Some old ->
  let s1 := loadWebLLMModel true c w modelId s in
  let s2 := resume_unload c (Resolved tt) s1 in
  let s3 := resume_create c (Resolved fresh) s2 in
  trace s1 = trace s ++ [UnloadCalled (e_id old)] /\
  loads s1 !! c = Some (AwaitUnload modelId old) /\
  load_result s1 = load_result s /\
  webLLMStatus s1 = Loading /\
  trace s2 = trace s ++ [UnloadCalled (e_id old); UnloadDone (e_id old); CreateCalled modelId] /\
  webLLMEngineRef s2 = None /\
  loads s2 !! c = Some (AwaitCreate modelId) /\
  trace s3 =
    trace s ++ [UnloadCalled (e_id old); UnloadDone (e_id old); CreateCalled modelId;
                CreateDone modelId (e_id fresh)] /\
  webLLMEngineRef s3 = Some fresh /\
  currentWebLLMModel s3 = Some modelId /\
  webLLMStatus s3 = Ready /\
  load_result s3 !! c = Some (Resolved tt).
Proof.
  intros Hw He s1 s2 s3.
  assert (H1 : s1 = _) by apply (loadWebLLMModel_unloads_first c w modelId old s Hw He).
  assert (H2 : s2 = _) by
    (apply (resume_unload_then_creates c modelId old s1);
     rewrite H1; cbn; apply lookup_insert_eq).
  assert (H3 : s3 = _) by
    (apply (resume_create_stores c modelId fresh s2);
     rewrite H2; cbn; apply lookup_insert_eq).
  rewrite H3, H2, H1. cbn [trace loads load_result webLLMStatus webLLMEngineRef
    currentWebLLMModel].
  rewrite <- !app_assoc. cbn [app].
  repeat split; apply lookup_insert_eq.
Qed.



(** C10. [loadWebLLMModel] does not look at the current model: called
    with the identifier of the model the session already holds, it does
    not settle at once but calls the session's [unload], waits for it,
    calls the factory for the same identifier and stores the engine the
    factory resolves to. *)
Theorem reload_same_model_recreates_engine (c : nat) (w : option Namespace)
    (modelId : string) (old fresh : Engine) (s : State) :
  CreateMLCEngine_present w = true ->
  webLLMEngineRef s = Some old ->
  currentWebLLMModel s = Some modelId ->
  load_result s !! c = None ->
  let s1 := loadWebLLMModel true c w modelId s in
  let s2 := resume_unload c (Resolved tt) s1 in
  let s3 := resume_create c (Resolved fresh) s2 in
  load_result s1 !! c = None /\
  loads s1 !! c = Some (AwaitUnload modelId old) /\
  webLLMStatus s1 = Loading /\
  trace s1 = trace s ++ [UnloadCalled (e_id old)] /\
  webLLMEngineRef s2 = None /\
  loads s2 !! c = Some (AwaitCreate modelId) /\
  trace s2 = trace s ++ [UnloadCalled (e_id old); UnloadDone (e_id old); CreateCalled modelId] /\
  trace s3 =
    trace s ++ [UnloadCalled (e_id old); UnloadDone (e_id old); CreateCalled modelId;
                CreateDone modelId (e_id fresh)] /\
  webLLMEngineRef s3 = Some fresh /\
  currentWebLLMModel s3 = Some modelId /\
  load_result s3 !! c = Some (Resolved tt).
Proof.
  intros Hw He _ Hnew s1 s2 s3.
  destruct (load_over_session_trace c w modelId old fresh s Hw He)
    as (Ht1 & Hk1 & Hl1 & Hs1 & Ht2 & Hr2 & Hk2 & Ht3 & Hr3 & Hc3 & _ & Hl3).
  fold s1 in Ht1, Hk1, Hl1, Hs1, Ht2, Hr2, Hk2, Ht3, Hr3, Hc3, Hl3.
  fold s2 in Ht2, Hr2, Hk2, Ht3, Hr3, Hc3, Hl3. fold s3 in Ht3, Hr3, Hc3, Hl3.
  repeat split; try assumption.
  rewrite Hl1. exact Hnew.
Qed.

Lemma reload_same_model_recreates_engine_witness :
  let s3 := resume_create 1 (Resolved {| e_id := 8; create := create hello_engine |})
              (resume_unload 1 (Resolved tt)
                 (loadWebLLMModel true 1 (Some loaded_namespace) "m"
                    (session hello_engine "m"))) in
  trace s3 =
    [CreateCalled "m"; CreateDone "m" 7; UnloadCalled 7; UnloadDone 7;
     CreateCalled "m"; CreateDone "m" 8] /\
  (e_id <$> webLLMEngineRef s3) = Some 8%nat.
Proof.
  cbv zeta.
  destruct (reload_same_model_recreates_engine 1 (Some loaded_namespace) "m"
              hello_engine {| e_id := 8; create := create hello_engine |}
              (session hello_engine "m"))
    as (_ & _ & _ & _ & _ & _ & _ & Ht & Hr & _).
  - reflexivity.
  - reflexivity.
  - reflexivity.
  - reflexivity.
  - split; [exact Ht |]. rewrite Hr. reflexivity.
Defined.

End WebLLMFacts.

(** ** More on the library load state machine *)

Module LibraryLoadMore.
Import Backoff LibraryLoad LibraryLoadStates LibraryLoadFacts.

Ltac lib_state s :=
  destruct s as [ld st er sr pt ip at_ rp hd tm nx cs];
  cbn [isLibraryLoaded libraryStatus libraryError scriptRef pollTimerRef isPollingRef
       libraryAttemptRef readyPromise head timers next_id onLibraryError_calls] in *;
  subst.

(** One call-by-value pass over an event applied to an explicit state. *)
Ltac lib_run :=
  cbv [step render fire_timer run_callback tryLoadLibrary ensurePolling tick
       script_onerror handleLibraryFailure
       injectScriptTag removeScriptTag clearPolling clearTimeout
       setTimeout settle_ready log_onLibraryError set_isLibraryLoaded setLibraryStatus
       setLibraryError set_scriptRef set_pollTimerRef set_isPollingRef
       set_libraryAttemptRef set_readyPromise set_head set_timers set_next_id
       isLibraryLoaded libraryStatus libraryError scriptRef pollTimerRef isPollingRef
       libraryAttemptRef readyPromise head timers next_id onLibraryError_calls
       cl_isLibraryLoaded cl_libraryStatus
       t_id t_cb t_delay el_id el_onerror
       List.filter find app negb snd fst orb andb ModelStatus_eqb].

Section Facts.
Variable P : Props.

(** The shape of a reachable state, read off its phase. *)
Theorem one_load_at_a_time (evs : list (Event * Env)) :
  let s := run P evs initial in
  (length (timers s) <= 1)%nat /\
  (length (head s) <= 1)%nat /\
  map el_id (head s) = option_list (scriptRef s) /\
  (isPollingRef s = true <-> head s <> []) /\
  (isPollingRef s = true ->
     exists cl deadline tid,
       timers s = [{| t_id := tid; t_delay := 500; t_cb := CbTick cl deadline |}] /\
       pollTimerRef s = Some tid) /\
  (timers s <> [] -> libraryStatus s = Loading).
Proof.
  intros s. destruct (phase_reachable P evs)
    as [Htm Hhd Hsr Hpt Hip
       | cl deadline tid el Htm Hpt Hhd Hsr Hip Hst Hcl Htid Hel
       | cl tid delay Htm Hhd Hsr Hpt Hip Hst Hcl Htid];
    fold s in Htm, Hhd, Hsr, Hpt, Hip; rewrite Htm, Hhd, Hsr, Hip; cbn;
    repeat split; try lia; try congruence;
    try (intros H; destruct H; reflexivity);
    try (intros _; eauto).
Qed.

Ltac split_ifs :=
  repeat match goal with
  | |- context [if ?b then _ else _] => destruct b eqn:?
  | |- context [match ?r with Pending => _ | Done _ => _ end] => destruct r
  end.

Ltac close_ready :=
  cbv [at_rest_ready isLibraryLoaded libraryStatus timers head scriptRef isPollingRef];
  try (intros; discriminate);
  try (intros _; repeat split; reflexivity).

(** Once loaded, nothing of the load is left; every event keeps it so. *)
Lemma loaded_step (ev : Event) (env : Env) (s : State) :
  Phase P s ->
  (isLibraryLoaded s = true -> at_rest_ready s) ->
  isLibraryLoaded (step P ev env s) = true -> at_rest_ready (step P ev env s).
Proof.
  intros [Htm Hhd Hsr Hpt Hip
         | cl deadline tid el Htm Hpt Hhd Hsr Hip Hst Hcl Htid Hel
         | cl tid delay Htm Hhd Hsr Hpt Hip Hst Hcl Htid] Hinv.
  - lib_state s. destruct ev as [| id | el']; [| exact Hinv | exact Hinv].
    destruct ld.
    + specialize (Hinv eq_refl). lib_run. split_ifs; intros _; exact Hinv.
    + clear Hinv. lib_run. rewrite ?Pos.eqb_refl. split_ifs; close_ready.
  - lib_state s. destruct ld.
    { destruct (Hinv eq_refl) as (_ & Ht & _). discriminate. }
    clear Hinv. destruct ev as [| id | el']; lib_run.
    + split_ifs; close_ready.
    + destruct (Pos.eqb_spec tid id); [| close_ready].
      rewrite ?Pos.eqb_refl. split_ifs; close_ready.
    + destruct (Pos.eqb_spec el el'); [| close_ready].
      rewrite ?Pos.eqb_refl. split_ifs; close_ready.
  - lib_state s. destruct ld.
    { destruct (Hinv eq_refl) as (_ & Ht & _). discriminate. }
    clear Hinv. destruct (may_start_guard P cl Hcl) as [Hb Hg].
    destruct cl as [[|] cls]; [discriminate |]. cbn in Hg.
    destruct ev as [| id | el']; lib_run.
    + split_ifs; close_ready.
    + destruct (Pos.eqb_spec tid id); [| close_ready].
      rewrite Hb, ?Pos.eqb_refl. destruct cls; try discriminate; split_ifs; close_ready.
    + close_ready.
Qed.

Lemma loaded_run (evs : list (Event * Env)) :
  forall s, Phase P s ->
  (isLibraryLoaded s = true -> at_rest_ready s) ->
  isLibraryLoaded (run P evs s) = true -> at_rest_ready (run P evs s).
Proof.
  induction evs as [| [ev env] rest IH]; intros s Hph Hinv; cbn [run].
  - exact Hinv.
  - apply IH; [apply phase_step, Hph | apply loaded_step; assumption].
Qed.

Lemma loaded_reachable (evs : list (Event * Env)) :
  isLibraryLoaded (run P evs initial) = true -> at_rest_ready (run P evs initial).
Proof. apply loaded_run; [apply phase_initial | discriminate]. Qed.

(** Once the library is loaded, no event changes anything: "ready" is
    final, and the effect's later runs of [tryLoadLibrary] do nothing. *)
Theorem ready_is_final (evs : list (Event * Env)) (ev : Event) (env : Env) :
  isLibraryLoaded (run P evs initial) = true ->
  libraryStatus (run P evs initial) = Ready /\
  step P ev env (run P evs initial) = run P evs initial.
Proof.
  intros Hld. destruct (loaded_reachable evs Hld) as (Hst & Htm & Hhd & _).
  split; [exact Hst |]. revert Hld Htm Hhd. generalize (run P evs initial). intros s Hld Htm Hhd.
  destruct ev as [| id | el]; cbn [step].
  - unfold tryLoadLibrary, render. cbn [cl_isLibraryLoaded]. rewrite Hld.
    destruct (negb (isBrowser P)); reflexivity.
  - unfold fire_timer. rewrite Htm. reflexivity.
  - rewrite Hhd. reflexivity.
Qed.

(** A settled ready promise is never settled again. *)
Lemma ready_promise_step (ev : Event) (env : Env) (s : State) (r : Settled unit) :
  Phase P s ->
  readyPromise s = Done r -> readyPromise (step P ev env s) = Done r.
Proof.
  intros [Htm Hhd Hsr Hpt Hip
         | cl deadline tid el Htm Hpt Hhd Hsr Hip Hst Hcl Htid Hel
         | cl tid delay Htm Hhd Hsr Hpt Hip Hst Hcl Htid] Hr;
    lib_state s; destruct ev as [| id | el']; lib_run;
    try reflexivity; split_ifs; reflexivity.
Qed.

(** The ready promise settles at most once over a run: whatever it was
    resolved or rejected with, every later state shows the same. *)
Theorem ready_promise_settles_once (evs more : list (Event * Env)) (r : Settled unit) :
  readyPromise (run P evs initial) = Done r ->
  readyPromise (run P (evs ++ more) initial) = Done r.
Proof.
  intros Hr.
  assert (Hrun : forall l s, run P (l ++ more) s = run P more (run P l s)).
  { induction l as [| [ev env] l IH]; intros s; cbn; [reflexivity | apply IH]. }
  rewrite Hrun. clear Hrun. pose proof (phase_reachable P evs) as Hph.
  revert Hr Hph. generalize (run P evs initial).
  induction more as [| [ev env] rest IH]; intros s Hr Hph; cbn [run].
  - exact Hr.
  - apply IH; [apply ready_promise_step; assumption | apply phase_step, Hph].
Qed.

(** A queued [tick] belongs to the poll loop under way. *)
Lemma tick_timer_shape (s : State) (id : positive) (cl : Closure) (deadline : Z) :
  Phase P s -> is_tick_timer s id cl deadline ->
  exists el,
    timers s = [{| t_id := id; t_delay := 500; t_cb := CbTick cl deadline |}] /\
    pollTimerRef s = Some id /\
    head s = [{| el_id := el; el_onerror := cl |}] /\ scriptRef s = Some el /\
    isPollingRef s = true /\ libraryStatus s = Loading /\ may_start P cl = true.
Proof.
  intros [Htm Hhd Hsr Hpt Hip
         | cl0 deadline0 tid el Htm Hpt Hhd Hsr Hip Hst Hcl Htid Hel
         | cl0 tid delay Htm Hhd Hsr Hpt Hip Hst Hcl Htid] (t & Hfind & Hcb);
    rewrite Htm in Hfind; cbn in Hfind.
  - discriminate.
  - destruct (Pos.eqb_spec tid id) as [Heq | Hne]; [subst id | discriminate].
    injection Hfind as <-. cbn in Hcb. injection Hcb as <- <-.
    exists el. repeat split; assumption.
  - destruct (tid =? id)%positive; [| discriminate].
    injection Hfind as <-. discriminate.
Qed.

(** The poll loop finds the entry point: the library is ready, the script
    is out of the document, nothing is queued and the ready promise is
    resolved (unless it was settled before). *)
Theorem poll_finds_entry_point (evs : list (Event * Env)) (id : positive)
    (cl : Closure) (deadline : Z) (env : Env) :
  is_tick_timer (run P evs initial) id cl deadline ->
  pipeline_present env = true ->
  let s := run P evs initial in
  let s' := step P (EvTimer id) env s in
  isLibraryLoaded s' = true /\ libraryStatus s' = Ready /\
  timers s' = [] /\ head s' = [] /\ scriptRef s' = None /\
  isPollingRef s' = false /\ pollTimerRef s' = None /\
  readyPromise s' =
    match readyPromise s with
    | Pending => Done (Resolved tt)
    | Done r => Done r
    end /\
  libraryAttemptRef s' = libraryAttemptRef s /\
  libraryError s' = libraryError s /\
  onLibraryError_calls s' = onLibraryError_calls s.
Proof.
  intros Htick Hpp s s'. subst s'.
  destruct (tick_timer_shape s id cl deadline (phase_reachable P evs) Htick)
    as (el & Htm & Hpt & Hhd & Hsr & Hip & Hst & Hcl).
  clearbody s. lib_state s. lib_run. rewrite !Pos.eqb_refl, Hpp.
  destruct rp; lib_run; rewrite ?Pos.eqb_refl; repeat split; reflexivity.
Qed.

(** A [tick] before the deadline with the entry point missing queues the
    next [tick] 500 ms later with the same deadline and touches nothing
    else. *)
Theorem poll_waits_500ms (evs : list (Event * Env)) (id : positive)
    (cl : Closure) (deadline : Z) (env : Env) :
  is_tick_timer (run P evs initial) id cl deadline ->
  pipeline_present env = false ->
  clock env < deadline ->
  let s := run P evs initial in
  step P (EvTimer id) env s =
  set_next_id (Pos.succ (next_id s))
    (set_pollTimerRef (Some (next_id s))
       (set_timers [{| t_id := next_id s; t_delay := 500; t_cb := CbTick cl deadline |}] s)).
Proof.
  intros Htick Hpp Hdl s.
  destruct (tick_timer_shape s id cl deadline (phase_reachable P evs) Htick)
    as (el & Htm & Hpt & Hhd & Hsr & Hip & Hst & Hcl).
  apply Z.leb_gt in Hdl.
  clearbody s. lib_state s. lib_run. rewrite !Pos.eqb_refl, Hpp, Hdl. reflexivity.
Qed.

(** A failure event runs [handleLibraryFailure] of the loop's render with
    the error of the event, on the stopped state. *)
Lemma failure_runs_handler (ev : Event) (env : Env) (s : State) :
  Phase P s ->
  is_load_failure ev env s ->
  exists cl,
    libraryStatus s = Loading /\
    step P ev env s = handleLibraryFailure P cl (failure_error P ev) env (stopped s).
Proof.
  intros Hph Hfail.
  destruct Hph as [Htm Hhd Hsr Hpt Hip
         | cl deadline tid el Htm Hpt Hhd Hsr Hip Hst Hcl Htid Hel
         | cl tid delay Htm Hhd Hsr Hpt Hip Hst Hcl Htid].
  - destruct ev as [| id | el']; cbn in Hfail.
    + contradiction.
    + destruct Hfail as (t & cl & d & Hfind & _). rewrite Htm in Hfind. discriminate.
    + destruct Hfail as (sc & Hfind). rewrite Hhd in Hfind. discriminate.
  - exists cl. split; [exact Hst |].
    destruct ev as [| id | el']; cbn in Hfail.
    + contradiction.
    + destruct Hfail as (t & cl0 & d & Hfind & Hcb & Hnp & Hd).
      rewrite Htm in Hfind. cbn in Hfind.
      destruct (Pos.eqb_spec tid id) as [Heq | Hne]; [subst id | discriminate].
      injection Hfind as <-. cbn in Hcb. injection Hcb as <- <-.
      apply Z.leb_le in Hd. unfold stopped, failure_error.
      lib_state s. lib_run. rewrite !Pos.eqb_refl, Hnp, Hd. reflexivity.
    + destruct Hfail as (sc & Hfind). rewrite Hhd in Hfind. cbn in Hfind.
      destruct (Pos.eqb_spec el el') as [Heq | Hne]; [subst el' | discriminate].
      unfold stopped, failure_error.
      lib_state s. lib_run. rewrite !Pos.eqb_refl. reflexivity.
  - destruct ev as [| id | el']; cbn in Hfail.
    + contradiction.
    + destruct Hfail as (t & cl0 & d & Hfind & Hcb & _).
      rewrite Htm in Hfind. cbn in Hfind.
      destruct (tid =? id)%positive in Hfind; [| discriminate].
      injection Hfind as <-. discriminate.
    + destruct Hfail as (sc & Hfind). rewrite Hhd in Hfind. discriminate.
Qed.

(** The failure that brings the attempt counter to [maxRetries] is
    permanent: the error of that failure is recorded, the status is
    "error", the ready promise is rejected with it (unless settled before),
    [onLibraryError] (when given) is called once with it, and nothing is
    left queued or in the document. *)
Theorem last_failure_is_permanent (evs : list (Event * Env)) (ev : Event) (env : Env) :
  is_load_failure ev env (run P evs initial) ->
  maxRetries P <= libraryAttemptRef (run P evs initial) + 1 ->
  let s := run P evs initial in
  let s' := step P ev env s in
  let err := failure_error P ev in
  libraryStatus s' = Failed /\
  libraryError s' = Some err /\
  readyPromise s' =
    match readyPromise s with
    | Pending => Done (Rejected err)
    | Done r => Done r
    end /\
  onLibraryError_calls s' =
    onLibraryError_calls s ++ (if has_onLibraryError P then [err] else []) /\
  libraryAttemptRef s' = libraryAttemptRef s + 1 /\
  isLibraryLoaded s' = isLibraryLoaded s /\
  timers s' = [] /\ head s' = [] /\ scriptRef s' = None /\ isPollingRef s' = false.
Proof.
  intros Hfail Hmax s s' err. subst s'.
  destruct (failure_runs_handler ev env s (phase_reachable P evs) Hfail) as (cl & _ & Hstep).
  rewrite Hstep. fold err. apply Z.ltb_ge in Hmax. fold s in Hmax.
  clear Hstep Hfail. clearbody s err. unfold stopped.
  destruct (has_onLibraryError P) eqn:Hcb; rewrite ?app_nil_r;
    lib_state s; lib_run; rewrite Hmax, Hcb;
    destruct rp; repeat split; reflexivity.
Qed.

(** "error" is not final. When the effect runs [tryLoadLibrary] of a
    render whose status is "error" (entry point still missing), a new load
    starts: status "loading", error cleared, a new script, a new poll loop
    with its own deadline. The attempt counter is not reset and the
    rejected ready promise stays rejected. *)
Theorem effect_restarts_after_error (evs : list (Event * Env)) (env : Env) :
  libraryStatus (run P evs initial) = Failed ->
  isBrowser P = true ->
  0 < loadTimeout P ->
  pipeline_present env = false ->
  let s := run P evs initial in
  let s' := step P EvEffect env s in
  libraryStatus s' = Loading /\
  libraryError s' = None /\
  scriptRef s' = Some (next_id s) /\
  head s' = [{| el_id := next_id s; el_onerror := render s |}] /\
  isPollingRef s' = true /\
  timers s' =
    [{| t_id := Pos.succ (next_id s); t_delay := 500;
        t_cb := CbTick (render s) (clock env + loadTimeout P) |}] /\
  libraryAttemptRef s' = libraryAttemptRef s /\
  readyPromise s' = readyPromise s.
Proof.
  intros Hst Hb Hto Hpp s s'. subst s'. fold s in Hst.
  assert (Hld : isLibraryLoaded s = false).
  { destruct (isLibraryLoaded s) eqn:Hld; [| reflexivity].
    destruct (loaded_reachable evs Hld) as (Hready & _). fold s in Hready. congruence. }
  assert (Hdl : (clock env + loadTimeout P <=? clock env) = false) by (apply Z.leb_gt; lia).
  destruct (phase_reachable P evs)
    as [Htm Hhd Hsr Hpt Hip
       | cl deadline tid el Htm Hpt Hhd Hsr Hip Hst' Hcl Htid Hel
       | cl tid delay Htm Hhd Hsr Hpt Hip Hst' Hcl Htid];
    fold s in Htm, Hhd, Hsr, Hpt, Hip; try (fold s in Hst'; congruence).
  clearbody s. lib_state s. lib_run. rewrite Hb, Hpp, Hdl. lib_run.
  rewrite ?Pos.eqb_refl. repeat split; reflexivity.
Qed.

End Facts.

(** *** Concrete runs of the default configuration *)

(** The entry point is there at mount: ready at once, and final. *)
Lemma ready_is_final_witness :
  let env := {| clock := 0; pipeline_present := true; random := 0 |} in
  libraryStatus (run default_props [(EvEffect, env)] initial) = Ready /\
  step default_props EvEffect env (run default_props [(EvEffect, env)] initial) =
  run default_props [(EvEffect, env)] initial.
Proof.
  cbv zeta.
  apply (ready_is_final default_props
           [(EvEffect, {| clock := 0; pipeline_present := true; random := 0 |})]
           EvEffect {| clock := 0; pipeline_present := true; random := 0 |}).
  reflexivity.
Defined.

Lemma ready_promise_settles_once_witness :
  let env := {| clock := 0; pipeline_present := true; random := 0 |} in
  readyPromise (run default_props ([(EvEffect, env)] ++ [(EvEffect, env); (EvTimer 2, env)])
                  initial) = Done (Resolved tt).
Proof.
  cbv zeta.
  apply (ready_promise_settles_once default_props
           [(EvEffect, {| clock := 0; pipeline_present := true; random := 0 |})]).
  reflexivity.
Defined.

Lemma poll_finds_entry_point_witness :
  let absent := {| clock := 0; pipeline_present := false; random := 0 |} in
  let present := {| clock := 500; pipeline_present := true; random := 0 |} in
  let s' := step default_props (EvTimer 2) present
              (run default_props [(EvEffect, absent)] initial) in
  libraryStatus s' = Ready /\ head s' = [] /\ readyPromise s' = Done (Resolved tt).
Proof.
  cbv zeta.
  destruct (poll_finds_entry_point default_props
              [(EvEffect, {| clock := 0; pipeline_present := false; random := 0 |})]
              2 {| cl_isLibraryLoaded := false; cl_libraryStatus := Idle |} 60000
              {| clock := 500; pipeline_present := true; random := 0 |})
    as (_ & Hst & _ & Hhd & _ & _ & _ & Hrp & _).
  - eexists. split; reflexivity.
  - reflexivity.
  - repeat split; assumption.
Defined.

Lemma poll_waits_500ms_witness :
  let absent := {| clock := 0; pipeline_present := false; random := 0 |} in
  let later := {| clock := 500; pipeline_present := false; random := 0 |} in
  timers (step default_props (EvTimer 2) later
            (run default_props [(EvEffect, absent)] initial)) =
  [{| t_id := 3; t_delay := 500;
      t_cb := CbTick {| cl_isLibraryLoaded := false; cl_libraryStatus := Idle |} 60000 |}].
Proof.
  cbv zeta.
  rewrite (poll_waits_500ms default_props
             [(EvEffect, {| clock := 0; pipeline_present := false; random := 0 |})]
             2 {| cl_isLibraryLoaded := false; cl_libraryStatus := Idle |} 60000
             {| clock := 500; pipeline_present := false; random := 0 |}).
  - reflexivity.
  - eexists. split; reflexivity.
  - reflexivity.
  - reflexivity.
Defined.

(** With [maxRetries = 1] the first timeout is permanent. *)
Lemma last_failure_is_permanent_witness :
  let absent := {| clock := 0; pipeline_present := false; random := 0 |} in
  let late := {| clock := 1000; pipeline_present := false; random := 0 |} in
  let s' := step one_try (EvTimer 2) late (run one_try [(EvEffect, absent)] initial) in
  libraryStatus s' = Failed /\
  readyPromise s' = Done (Rejected (NotReadyWithin 1000)) /\
  onLibraryError_calls s' = [NotReadyWithin 1000].
Proof.
  cbv zeta.
  destruct (last_failure_is_permanent one_try
              [(EvEffect, {| clock := 0; pipeline_present := false; random := 0 |})]
              (EvTimer 2) {| clock := 1000; pipeline_present := false; random := 0 |})
    as (Hst & _ & Hrp & Hcalls & _).
  - exists {| t_id := 2; t_delay := 500;
              t_cb := CbTick {| cl_isLibraryLoaded := false; cl_libraryStatus := Idle |} 1000 |},
      {| cl_isLibraryLoaded := false; cl_libraryStatus := Idle |}, 1000.
    vm_compute. repeat split; congruence.
  - vm_compute. congruence.
  - repeat split; assumption.
Defined.

Lemma effect_restarts_after_error_witness :
  let absent := {| clock := 0; pipeline_present := false; random := 0 |} in
  let late := {| clock := 1000; pipeline_present := false; random := 0 |} in
  let again := {| clock := 1001; pipeline_present := false; random := 0 |} in
  let s' := step one_try EvEffect again
              (run one_try [(EvEffect, absent); (EvTimer 2, late)] initial) in
  libraryStatus s' = Loading /\ libraryAttemptRef s' = 1 /\
  readyPromise s' = Done (Rejected (NotReadyWithin 1000)).
Proof.
  cbv zeta.
  destruct (effect_restarts_after_error one_try
              [(EvEffect, {| clock := 0; pipeline_present := false; random := 0 |});
               (EvTimer 2, {| clock := 1000; pipeline_present := false; random := 0 |})]
              {| clock := 1001; pipeline_present := false; random := 0 |})
    as (Hst & _ & _ & _ & _ & _ & Hat & Hrp).
  - reflexivity.
  - reflexivity.
  - reflexivity.
  - reflexivity.
  - split; [exact Hst |]. split; [rewrite Hat | rewrite Hrp]; reflexivity.
Defined.

(** After a permanent failure the effect starts over; a load that then
    succeeds leaves the status "ready" with the ready promise rejected. *)
Example ready_with_rejected_promise :
  let absent := {| clock := 0; pipeline_present := false; random := 0 |} in
  let late := {| clock := 1000; pipeline_present := false; random := 0 |} in
  let again := {| clock := 1001; pipeline_present := true; random := 0 |} in
  let s := run one_try [(EvEffect, absent); (EvTimer 2, late); (EvEffect, again)] initial in
  libraryStatus s = Ready /\ isLibraryLoaded s = true /\
  readyPromise s = Done (Rejected (NotReadyWithin 1000)).
Proof. vm_compute. repeat split; reflexivity. Qed.

End LibraryLoadMore.

(** ** More on the model cache *)

Module ModelCacheMore.
Import ModelCache ModelCacheRuns ModelCacheFacts.

Ltac mc_fields :=
  cbn [models modelStatus modelErrors pendingRef readyPromise promises next_promise
       pipeline_calls conts returned attempt_result onModelError_calls dispose_calls].

Section Facts.
Variable has_onModelError : bool.

(** *** Loading *)

(** One attempt that the factory resolves. *)
Lemma attempt_succeeds_eq (c : nat) (modelId task : string) (remain : Z)
    (pipe : Handle) (s : State) :
  conts s !! c = Some (AwaitReady modelId task remain) ->
  readyPromise s = Done (Resolved tt) ->
  attempt_succeeds has_onModelError c pipe s =
  {| models := <[modelId := pipe]> (models s);
     modelStatus := <[modelId := Ready]> (modelStatus s);
     modelErrors := modelErrors s;
     pendingRef := delete modelId (pendingRef s);
     readyPromise := readyPromise s;
     promises := <[next_promise s := Done (Resolved pipe)]> (promises s);
     next_promise := Pos.succ (next_promise s);
     pipeline_calls := pipeline_calls s ++ [(task, modelId)];
     conts := delete c (conts s);
     returned := returned s;
     attempt_result := <[c := Resolved pipe]> (attempt_result s);
     onModelError_calls := onModelError_calls s; dispose_calls := dispose_calls s |}.
Proof.
  intros Hk Hr. unfold attempt_succeeds.
  rewrite (resume_ready_calls_factory has_onModelError c modelId task remain s Hk Hr).
  rewrite settle_pending by (cbn; apply lookup_insert_eq).
  unfold set_promises. mc_fields. rewrite insert_insert_eq.
  erewrite resume_pipeline_resolved;
    [| cbn; apply lookup_insert_eq | cbn; apply lookup_insert_eq].
  mc_fields. rewrite !delete_insert_eq. reflexivity.
Qed.

(** Rejections within the retry budget leave the call suspended before
    its next attempt, with the budget reduced and the tables as they were. *)
Lemma attempts_fail_keep_retrying (c : nat) (modelId task : string) (errs : list Error) :
  forall (remain : Z) (s : State),
  conts s !! c = Some (AwaitReady modelId task remain) ->
  readyPromise s = Done (Resolved tt) ->
  (length errs <= Z.to_nat remain)%nat ->
  let s' := all_attempts_fail has_onModelError c errs s in
  conts s' !! c = Some (AwaitReady modelId task (remain - Z.of_nat (length errs))) /\
  readyPromise s' = readyPromise s /\
  models s' = models s /\
  modelStatus s' = modelStatus s /\
  modelErrors s' = modelErrors s /\
  pipeline_calls s' = pipeline_calls s ++ repeat (task, modelId) (length errs) /\
  onModelError_calls s' = onModelError_calls s /\
  returned s' = returned s /\
  attempt_result s' = attempt_result s /\
  dispose_calls s' = dispose_calls s.
Proof.
  induction errs as [| err rest IH]; intros remain s Hk Hr Hlen.
  - cbn [all_attempts_fail length repeat]. rewrite app_nil_r.
    replace (remain - Z.of_nat 0) with remain by lia.
    repeat split; try reflexivity. exact Hk.
  - cbn [length] in Hlen. cbn [all_attempts_fail].
    rewrite (one_attempt_fails has_onModelError c modelId task remain err s Hk Hr).
    rewrite attempt_catch_retries by lia.
    match goal with |- context [all_attempts_fail _ _ _ ?s0] => set (s1 := s0) end.
    specialize (IH (remain - 1) s1).
    destruct IH as (Hk' & Hr' & Hm & Hst & He & Hpc & Ho & Hret & Ha & Hd).
    + subst s1. cbn. apply lookup_insert_eq.
    + subst s1. cbn. exact Hr.
    + lia.
    + cbv zeta. rewrite Hk', Hr', Hm, Hst, He, Hpc, Ho, Hret, Ha, Hd.
      subst s1. unfold set_conts. mc_fields. cbn [length repeat].
      repeat split; try reflexivity.
      * do 2 f_equal. lia.
      * rewrite <- app_assoc. reflexivity.
Qed.

(** A call whose factory rejects [k] times within the retry budget and
    then resolves: the factory was called [k + 1] times, the handle is in
    the model table with the status "ready", the error entry is still
    null, the pending entry is gone, [onModelError] was not called and the
    caller gets the handle. A later call through a render that sees the
    table gets the same handle and calls nothing. *)
Theorem retry_then_success (c : nat) (seen : gmap string Handle)
    (modelId task : string) (retry : Z) (errs : list Error) (pipe : Handle) (s : State) :
  seen !! modelId = None ->
  pendingRef s !! modelId = None ->
  readyPromise s = Done (Resolved tt) ->
  (length errs <= Z.to_nat retry)%nat ->
  let s' := attempt_succeeds has_onModelError c pipe
              (all_attempts_fail has_onModelError c errs
                 (loadModel c seen modelId task retry s)) in
  pipeline_calls s' = pipeline_calls s ++ repeat (task, modelId) (S (length errs)) /\
  entry modelId s' = (Some pipe, Some Ready, Some None, None) /\
  onModelError_calls s' = onModelError_calls s /\
  call_outcome c s' = Some (Resolved pipe) /\
  forall (c' : nat) (task' : string) (retry' : Z),
    let s'' := loadModel c' (models s') modelId task' retry' s' in
    call_outcome c' s'' = Some (Resolved pipe) /\
    pipeline_calls s'' = pipeline_calls s' /\
    entry modelId s'' = entry modelId s' /\
    conts s'' = conts s'.
Proof.
  intros Hseen Hp Hr Hlen s'.
  pose proof (loadModel_starts c seen modelId task retry s Hseen Hp) as E0.
  set (s0 := loadModel c seen modelId task retry s) in *.
  destruct (attempts_fail_keep_retrying c modelId task errs retry s0)
    as (Hk1 & Hr1 & Hm1 & Hst1 & He1 & Hpc1 & Ho1 & Hret1 & Ha1 & Hd1).
  { rewrite E0. cbn. apply lookup_insert_eq. }
  { rewrite E0. exact Hr. }
  { exact Hlen. }
  set (s1 := all_attempts_fail has_onModelError c errs s0) in *.
  assert (E2 : s' = _)
    by (apply (attempt_succeeds_eq c modelId task _ pipe s1 Hk1); rewrite Hr1, E0; exact Hr).
  rewrite Hm1, Hst1, He1, Hpc1, Ho1, Hret1, Ha1, Hd1, Hr1 in E2.
  rewrite E0 in E2. mc_fields_in E2.
  assert (Hms : models s' !! modelId = Some pipe)
    by (rewrite E2; cbn; apply lookup_insert_eq).
  split; [| split; [| split; [| split]]].
  - rewrite E2. mc_fields. rewrite <- app_assoc. f_equal.
    symmetry. apply (repeat_cons (length errs) (task, modelId)).
  - rewrite E2. unfold entry. mc_fields.
    rewrite !lookup_insert_eq, lookup_delete_eq. reflexivity.
  - rewrite E2. reflexivity.
  - rewrite E2. unfold call_outcome. mc_fields. rewrite !lookup_insert_eq. reflexivity.
  - intros c' task' retry' s''. subst s''. unfold loadModel. rewrite Hms.
    unfold call_outcome, entry, set_returned. mc_fields. rewrite lookup_insert_eq.
    repeat split; reflexivity.
Qed.

(** A call made through a [loadModel] whose render predates the load does
    not see the stored handle: with no pending entry it sets the status
    back to "loading", calls the factory again and replaces the handle. *)
Theorem stale_render_misses_cache (c : nat) (seen : gmap string Handle)
    (modelId task : string) (retry : Z) (old pipe : Handle) (s : State) :
  models s !! modelId = Some old ->
  seen !! modelId = None ->
  pendingRef s !! modelId = None ->
  readyPromise s = Done (Resolved tt) ->
  let s1 := loadModel c seen modelId task retry s in
  let s2 := attempt_succeeds has_onModelError c pipe s1 in
  entry modelId s1 = (Some old, Some Loading, Some None, None) /\
  pipeline_calls s2 = pipeline_calls s ++ [(task, modelId)] /\
  entry modelId s2 = (Some pipe, Some Ready, Some None, None) /\
  call_outcome c s2 = Some (Resolved pipe) /\
  dispose_calls s2 = dispose_calls s.
Proof.
  intros Hm Hseen Hp Hr s1 s2.
  pose proof (loadModel_starts c seen modelId task retry s Hseen Hp) as E1.
  fold s1 in E1.
  assert (E2 : s2 = _)
    by (apply (attempt_succeeds_eq c modelId task retry pipe s1);
        rewrite E1; cbn; [apply lookup_insert_eq | exact Hr]).
  rewrite E1 in E2. mc_fields_in E2.
  rewrite E2, E1. unfold entry, call_outcome. mc_fields.
  rewrite !lookup_insert_eq, lookup_delete_eq, Hm, Hp.
  repeat split; reflexivity.
Qed.

(** *** Unloading *)

(** [unloadModel] of a loaded model: the identifier leaves the four
    tables, the handle's [dispose] is called once if it has one (a throwing
    [dispose] changes nothing else), no factory call is made and the other
    identifiers keep their entries. *)
Theorem unload_clears_and_disposes (modelId : string) (pipe : Handle) (s : State) :
  models s !! modelId = Some pipe ->
  let s' := unloadModel modelId s in
  entry modelId s' = (None, None, None, None) /\
  dispose_calls s' =
    dispose_calls s ++ match h_dispose pipe with Some _ => [pipe] | None => [] end /\
  pipeline_calls s' = pipeline_calls s /\
  conts s' = conts s /\
  forall other, other <> modelId -> entry other s' = entry other s.
Proof.
  intros Hm s'. subst s'. rewrite unloadModel_eq, Hm. unfold entry. mc_fields.
  rewrite !lookup_delete_eq. repeat split.
  intros other Hne. rewrite !lookup_delete_ne by congruence. reflexivity.
Qed.

(** [unloadModel] of an identifier that was never loaded does nothing. *)
Theorem unload_unknown_is_noop (modelId : string) (s : State) :
  entry modelId s = (None, None, None, None) ->
  unloadModel modelId s = s.
Proof.
  unfold entry. intros H. injection H as Hm Hst He Hp.
  rewrite unloadModel_eq, Hm, app_nil_r.
  rewrite !delete_id by assumption. destruct s. reflexivity.
Qed.

(** *** Independent identifiers *)

(** No event changes the entries of an identifier it is not about. *)
Theorem other_identifiers_untouched (ev : Event) (other : string) (s : State) :
  event_id ev s <> Some other ->
  entry other (step has_onModelError ev s) = entry other s.
Proof.
  intros Hid. destruct ev as [c seen modelId task retry | | err | c | p r | c | modelId];
    cbn [step event_id] in *.
  - assert (Hne : modelId <> other) by congruence.
    unfold loadModel. destruct (seen !! modelId); [reflexivity |].
    destruct (pendingRef s !! modelId); [reflexivity |].
    unfold entry, attempt, set_conts, set_returned, set_modelErrors, set_modelStatus.
    mc_fields. rewrite !lookup_insert_ne by exact Hne. reflexivity.
  - unfold settle_ready. destruct (readyPromise s); reflexivity.
  - unfold settle_ready. destruct (readyPromise s); reflexivity.
  - unfold resume_ready. destruct (conts s !! c) as [[modelId task remain | ? ? ? ?] |];
      [| reflexivity | reflexivity].
    cbn in Hid. assert (Hne : modelId <> other) by congruence.
    destruct (readyPromise s) as [| [[] | err]]; [reflexivity | |].
    + destruct s. unfold entry. mc_cells. rewrite lookup_insert_ne by exact Hne. reflexivity.
    + unfold attempt_catch. destruct (0 <? remain); [reflexivity |].
      destruct s, has_onModelError; unfold entry; mc_cells;
        rewrite !lookup_insert_ne, lookup_delete_ne by exact Hne; reflexivity.
  - unfold settle. destruct (promises s !! p) as [[|] |]; reflexivity.
  - unfold resume_pipeline. destruct (conts s !! c) as [[? ? ? | modelId task remain p] |];
      [reflexivity | | reflexivity].
    cbn in Hid. assert (Hne : modelId <> other) by congruence.
    destruct (promises s !! p) as [[| [pipe | err]] |]; try reflexivity.
    + destruct s. unfold entry. mc_cells.
      rewrite !lookup_insert_ne, lookup_delete_ne by exact Hne. reflexivity.
    + unfold attempt_catch. destruct (0 <? remain); [reflexivity |].
      destruct s, has_onModelError; unfold entry; mc_cells;
        rewrite !lookup_insert_ne, lookup_delete_ne by exact Hne; reflexivity.
  - assert (Hne : modelId <> other) by congruence.
    rewrite unloadModel_eq. unfold entry. mc_fields.
    rewrite !lookup_delete_ne by exact Hne. reflexivity.
Qed.

(** *** When the library has failed *)

Lemma resume_ready_rejected (c : nat) (modelId task : string) (remain : Z)
    (err : Error) (s : State) :
  conts s !! c = Some (AwaitReady modelId task remain) ->
  readyPromise s = Done (Rejected err) ->
  resume_ready has_onModelError c s =
  attempt_catch has_onModelError c modelId task remain err s.
Proof. intros Hk Hr. unfold resume_ready. rewrite Hk, Hr. reflexivity. Qed.

Lemma rejected_ready_exhausts (c : nat) (modelId task : string) (err : Error) (n : nat) :
  forall (remain : Z) (s : State),
  conts s !! c = Some (AwaitReady modelId task remain) ->
  readyPromise s = Done (Rejected err) ->
  n = Z.to_nat remain ->
  let s' := Nat.iter (S n) (resume_ready has_onModelError c) s in
  models s' = models s /\
  modelErrors s' = <[modelId := Some err]> (modelErrors s) /\
  modelStatus s' = <[modelId := Failed]> (modelStatus s) /\
  pendingRef s' = delete modelId (pendingRef s) /\
  onModelError_calls s' =
    onModelError_calls s ++ (if has_onModelError then [(modelId, err)] else []) /\
  attempt_result s' = <[c := Rejected err]> (attempt_result s) /\
  pipeline_calls s' = pipeline_calls s /\
  returned s' = returned s.
Proof.
  induction n as [| n IH]; intros remain s Hk Hr Hn.
  - cbv zeta. unfold Nat.iter. cbn [nat_rect].
    rewrite (resume_ready_rejected c modelId task remain err s Hk Hr).
    rewrite attempt_catch_gives_up by lia. mc_fields. repeat split; reflexivity.
  - cbv zeta. rewrite Nat.iter_succ_r.
    rewrite (resume_ready_rejected c modelId task remain err s Hk Hr).
    rewrite attempt_catch_retries by lia.
    match goal with |- context [Nat.iter _ _ ?s0] => set (s1 := s0) end.
    destruct (IH (remain - 1) s1) as (Hm & He & Hst & Hp & Ho & Ha & Hpc & Hret).
    + subst s1. cbn. apply lookup_insert_eq.
    + subst s1. exact Hr.
    + lia.
    + rewrite Hm, He, Hst, Hp, Ho, Ha, Hpc, Hret. subst s1. repeat split; reflexivity.
Qed.

(** With the ready promise rejected (the library failed for good), a
    [loadModel] call does not hang: each of its [retry + 1] attempts fails
    at the ready promise without calling the factory, and the call rejects
    with the library's error, recorded as the model's error. *)
Theorem library_failure_rejects_loads (c : nat) (seen : gmap string Handle)
    (modelId task : string) (retry : Z) (err : Error) (s : State) :
  seen !! modelId = None ->
  pendingRef s !! modelId = None ->
  readyPromise s = Done (Rejected err) ->
  let s' := Nat.iter (S (Z.to_nat retry)) (resume_ready has_onModelError c)
              (loadModel c seen modelId task retry s) in
  pipeline_calls s' = pipeline_calls s /\
  call_outcome c s' = Some (Rejected err) /\
  modelStatus s' !! modelId = Some Failed /\
  modelErrors s' !! modelId = Some (Some err) /\
  pendingRef s' !! modelId = None /\
  models s' = models s /\
  onModelError_calls s' =
    onModelError_calls s ++ (if has_onModelError then [(modelId, err)] else []).
Proof.
  intros Hseen Hp Hr s'.
  pose proof (loadModel_starts c seen modelId task retry s Hseen Hp) as E0.
  destruct (rejected_ready_exhausts c modelId task err (Z.to_nat retry) retry
              (loadModel c seen modelId task retry s))
    as (Hm & He & Hst & Hpd & Ho & Ha & Hpc & Hret).
  { rewrite E0. cbn. apply lookup_insert_eq. }
  { rewrite E0. exact Hr. }
  { reflexivity. }
  fold s' in Hm, He, Hst, Hpd, Ho, Ha, Hpc, Hret.
  rewrite E0 in Hm, He, Hst, Hpd, Ho, Ha, Hpc, Hret.
  mc_fields_in Hm. mc_fields_in He. mc_fields_in Hst. mc_fields_in Hpd.
  mc_fields_in Ho. mc_fields_in Ha. mc_fields_in Hpc. mc_fields_in Hret.
  unfold call_outcome. rewrite Hm, He, Hst, Hpd, Ho, Ha, Hpc, Hret.
  rewrite !lookup_insert_eq, lookup_delete_eq. repeat split; reflexivity.
Qed.

(** *** A call that arrives between a rejection and the retry *)

(** After an attempt was rejected with retries left, the pending table
    still holds the rejected promise until the retry calls the factory. A
    call for the identifier that arrives then is bound to that promise: it
    rejects with the first error, also when the retry resolves and the
    first caller gets its handle. *)
Theorem late_caller_gets_stale_rejection (c1 c2 : nat) (seen2 : gmap string Handle)
    (modelId task task2 : string) (remain retry2 : Z) (err : Error) (pipe : Handle)
    (s : State) :
  c1 <> c2 ->
  conts s !! c1 = Some (AwaitReady modelId task remain) ->
  returned s !! c1 = Some RetAttempt ->
  readyPromise s = Done (Resolved tt) ->
  0 < remain ->
  seen2 !! modelId = None ->
  let rejected := all_attempts_fail has_onModelError c1 [err] s in
  let joined := loadModel c2 seen2 modelId task2 retry2 rejected in
  let done := attempt_succeeds has_onModelError c1 pipe joined in
  pendingRef rejected !! modelId = Some (next_promise s) /\
  promises rejected !! next_promise s = Some (Done (Rejected err)) /\
  returned joined !! c2 = Some (RetPending (next_promise s)) /\
  pipeline_calls joined = pipeline_calls rejected /\
  call_outcome c2 joined = Some (Rejected err) /\
  call_outcome c2 done = Some (Rejected err) /\
  call_outcome c1 done = Some (Resolved pipe) /\
  models done !! modelId = Some pipe /\
  pipeline_calls done = pipeline_calls s ++ [(task, modelId); (task, modelId)].
Proof.
  intros Hc Hk Hret Hr Hrem Hseen2 rejected joined done.
  assert (E0 : rejected = _)
    by (subst rejected; cbn [all_attempts_fail];
        rewrite (one_attempt_fails has_onModelError c1 modelId task remain err s Hk Hr);
        rewrite attempt_catch_retries by exact Hrem;
        unfold set_conts; mc_fields; reflexivity).
  assert (Hpd : pendingRef rejected !! modelId = Some (next_promise s))
    by (rewrite E0; apply lookup_insert_eq).
  assert (E1 : joined = _)
    by apply (loadModel_shares_pending c2 seen2 modelId task2 retry2 (next_promise s)
                rejected Hseen2 Hpd).
  unfold set_returned in E1. rewrite E0 in E1. mc_fields_in E1.
  assert (E2 : done = _)
    by (apply (attempt_succeeds_eq c1 modelId task (remain - 1) pipe joined);
        rewrite E1; cbn; [apply lookup_insert_eq | exact Hr]).
  rewrite E1 in E2. mc_fields_in E2.
  assert (Hne : next_promise s <> Pos.succ (next_promise s)) by lia.
  rewrite E2, E1, E0. unfold call_outcome. mc_fields.
  rewrite !lookup_insert_eq.
  rewrite (lookup_insert_ne _ c2 c1) by congruence.
  rewrite Hret. cbv beta iota.
  rewrite (lookup_insert_ne _ (Pos.succ (next_promise s)) (next_promise s)) by lia.
  rewrite ?lookup_insert_eq, <- app_assoc.
  repeat split; reflexivity.
Qed.

End Facts.

(** *** Concrete runs *)

(** The factory rejects once and then resolves, with the default budget
    of one retry. *)
Lemma retry_then_success_witness :
  let s' := attempt_succeeds true 1 h1
              (all_attempts_fail true 1 [Thrown "Network error"]
                 (loadModel 1 ∅ "m" "t" 1 (settle_ready (Resolved tt) initial))) in
  pipeline_calls s' = [("t", "m"); ("t", "m")] /\
  call_outcome 1 s' = Some (Resolved h1) /\
  onModelError_calls s' = [].
Proof.
  cbv zeta.
  destruct (retry_then_success true 1 ∅ "m" "t" 1 [Thrown "Network error"] h1
              (settle_ready (Resolved tt) initial)) as (Hpc & _ & Ho & Hc & _).
  - reflexivity.
  - reflexivity.
  - reflexivity.
  - vm_compute. lia.
  - repeat split; assumption.
Defined.

Lemma stale_render_misses_cache_witness :
  let s := loaded_m in
  let s2 := attempt_succeeds true 2 h2 (loadModel 2 ∅ "m" "t" 1 s) in
  pipeline_calls s2 = [("t", "m"); ("t", "m")] /\
  entry "m" s2 = (Some h2, Some Ready, Some None, None).
Proof.
  cbv zeta.
  destruct (stale_render_misses_cache true 2 ∅ "m" "t" 1 h1 h2 loaded_m)
    as (_ & Hpc & He & _).
  - vm_compute. reflexivity.
  - reflexivity.
  - vm_compute. reflexivity.
  - reflexivity.
  - split; [rewrite Hpc; vm_compute; reflexivity | exact He].
Defined.

Lemma unload_clears_and_disposes_witness :
  entry "m" (unloadModel "m" loaded_m) = (None, None, None, None) /\
  dispose_calls (unloadModel "m" loaded_m) = [h1].
Proof.
  destruct (unload_clears_and_disposes "m" h1 loaded_m) as (He & Hd & _).
  - vm_compute. reflexivity.
  - split; [exact He | exact Hd].
Defined.

Lemma unload_unknown_is_noop_witness : unloadModel "other" loaded_m = loaded_m.
Proof. apply unload_unknown_is_noop. vm_compute. reflexivity. Defined.

Lemma other_identifiers_untouched_witness :
  entry "m" (step true (Unload "other") loaded_m) = entry "m" loaded_m /\
  entry "m" (step true (Call 2 ∅ "other" "t" 1) loaded_m) = entry "m" loaded_m.
Proof.
  split; apply other_identifiers_untouched; cbn; discriminate.
Defined.

Lemma library_failure_rejects_loads_witness :
  let failed := settle_ready (Rejected (NotReadyWithin 60000)) initial in
  let s' := Nat.iter 2 (resume_ready true 1) (loadModel 1 ∅ "m" "t" 1 failed) in
  pipeline_calls s' = [] /\
  call_outcome 1 s' = Some (Rejected (NotReadyWithin 60000)).
Proof.
  cbv zeta.
  destruct (library_failure_rejects_loads true 1 ∅ "m" "t" 1 (NotReadyWithin 60000)
              (settle_ready (Rejected (NotReadyWithin 60000)) initial))
    as (Hpc & Hc & _).
  - reflexivity.
  - reflexivity.
  - reflexivity.
  - split; [exact Hpc | exact Hc].
Defined.

Lemma late_caller_gets_stale_rejection_witness :
  let s := run true [LibraryReady; Call 1 ∅ "m" "t" 1] initial in
  let done := attempt_succeeds true 1 h1
                (loadModel 2 ∅ "m" "t" 1
                   (all_attempts_fail true 1 [Thrown "Network error"] s)) in
  call_outcome 1 done = Some (Resolved h1) /\
  call_outcome 2 done = Some (Rejected (Thrown "Network error")).
Proof.
  cbv zeta.
  destruct (late_caller_gets_stale_rejection true 1 2 ∅ "m" "t" "t" 1 1
              (Thrown "Network error") h1
              (run true [LibraryReady; Call 1 ∅ "m" "t" 1] initial))
    as (_ & _ & _ & _ & _ & H2 & H1 & _).
  - discriminate.
  - vm_compute. reflexivity.
  - vm_compute. reflexivity.
  - reflexivity.
  - lia.
  - reflexivity.
  - split; [exact H1 | exact H2].
Defined.

End ModelCacheMore.

(** ** More on the engine session manager and the chat helpers *)

Module WebLLMMore.
Import WebLLM WebLLMRuns WebLLMFacts.

Ltac llm_fields :=
  cbn [webLLMEngineRef isWebLLMLoaded webLLMStatus webLLMError currentWebLLMModel
       webLLMReadyPromise loads load_result trace].

Ltac llm_fields_in H :=
  cbn [webLLMEngineRef isWebLLMLoaded webLLMStatus webLLMError currentWebLLMModel
       webLLMReadyPromise loads load_result trace] in H.

(** *** The guards of [loadWebLLMModel] *)

(** [loadWebLLMModel] with WebLLM disabled, or with the factory missing
    from [window.webllm], rejects at once with the error of the first guard
    that fails and touches neither the status, the error, the session nor
    the runtime. *)
Theorem load_guards_reject_untouched (enabled : bool) (c : nat) (w : option Namespace)
    (modelId : string) (s : State) :
  enabled && CreateMLCEngine_present w = false ->
  let s' := loadWebLLMModel enabled c w modelId s in
  load_result s' !! c =
    Some (Rejected (if enabled then WebLLMNotLoadedYet else WebLLMNotEnabledLong)) /\
  loads s' !! c = None /\
  trace s' = trace s /\
  webLLMStatus s' = webLLMStatus s /\
  webLLMError s' = webLLMError s /\
  webLLMEngineRef s' = webLLMEngineRef s /\
  currentWebLLMModel s' = currentWebLLMModel s.
Proof.
  intros Hg s'. subst s'. unfold loadWebLLMModel.
  destruct enabled; cbn in Hg |- *; [rewrite Hg; cbn |];
    (repeat split; [apply lookup_insert_eq | apply lookup_delete_eq]).
Qed.

(** *** Loading with no session *)

Lemma loadWebLLMModel_creates_at_once (c : nat) (w : option Namespace) (modelId : string)
    (s : State) :
  CreateMLCEngine_present w = true ->
  webLLMEngineRef s = None ->
  loadWebLLMModel true c w modelId s =
  {| webLLMEngineRef := None; isWebLLMLoaded := isWebLLMLoaded s;
     webLLMStatus := Loading; webLLMError := None;
     currentWebLLMModel := currentWebLLMModel s;
     webLLMReadyPromise := webLLMReadyPromise s;
     loads := <[c := AwaitCreate modelId]> (loads s);
     load_result := load_result s;
     trace := trace s ++ [CreateCalled modelId] |}.
Proof.
  intros Hw He. destruct s. cbv [webLLMEngineRef] in He. subst.
  unfold loadWebLLMModel. rewrite Hw. reflexivity.
Qed.

Lemma resume_create_rejected (c : nat) (modelId : string) (err : Error) (s : State) :
  loads s !! c = Some (AwaitCreate modelId) ->
  resume_create c (Rejected err) s =
  {| webLLMEngineRef := webLLMEngineRef s; isWebLLMLoaded := isWebLLMLoaded s;
     webLLMStatus := Failed; webLLMError := Some err;
     currentWebLLMModel := currentWebLLMModel s;
     webLLMReadyPromise := webLLMReadyPromise s;
     loads := delete c (loads s);
     load_result := <[c := Rejected err]> (load_result s);
     trace := trace s |}.
Proof.
  intros Hk. destruct s. cbv [loads] in Hk.
  unfold resume_create. cbv [loads]. rewrite Hk. reflexivity.
Qed.

(** [loadWebLLMModel] never settles the ready promise. A model loaded
    with no session in place makes the status "ready", but the chat helpers
    still wait for the ready promise of the automatic first load: while it
    is pending they stay pending, and once it is rejected they reject with
    its error, in both cases without asking the engine. *)
Theorem chat_waits_for_the_first_load (c : nat) (w : option Namespace)
    (modelId : string) (engine : Engine) (messages : list ChatMessage)
    (options : JSObject) (s : State) :
  CreateMLCEngine_present w = true ->
  webLLMEngineRef s = None ->
  let s' := resume_create c (Resolved engine) (loadWebLLMModel true c w modelId s) in
  trace s' = trace s ++ [CreateCalled modelId; CreateDone modelId (e_id engine)] /\
  webLLMStatus s' = Ready /\
  webLLMEngineRef s' = Some engine /\
  currentWebLLMModel s' = Some modelId /\
  webLLMReadyPromise s' = webLLMReadyPromise s /\
  (webLLMReadyPromise s = Pending ->
     chatCompletion messages options s' =
       {| sent := []; onChunk_calls := []; outcome := Pending |} /\
     streamChatCompletion messages options s' =
       {| sent := []; onChunk_calls := []; outcome := Pending |}) /\
  (forall err, webLLMReadyPromise s = Done (Rejected err) ->
     chatCompletion messages options s' =
       {| sent := []; onChunk_calls := []; outcome := Done (Rejected err) |} /\
     streamChatCompletion messages options s' =
       {| sent := []; onChunk_calls := []; outcome := Done (Rejected err) |}).
Proof.
  intros Hw He s'.
  pose proof (loadWebLLMModel_creates_at_once c w modelId s Hw He) as E1.
  assert (E2 : s' = _)
    by (apply (resume_create_stores c modelId engine); rewrite E1; cbn;
        apply lookup_insert_eq).
  rewrite E1 in E2. llm_fields_in E2.
  rewrite E2. llm_fields. rewrite <- app_assoc. cbn [app].
  repeat (split; [reflexivity |]).
  unfold chatCompletion, streamChatCompletion. llm_fields.
  split.
  - intros ->. split; reflexivity.
  - intros err ->. split; reflexivity.
Qed.

(** *** A switch that fails *)

(** When the factory rejects after the previous session was unloaded,
    there is no session left: the reference is null, the status is "error"
    with the factory's error, the call rejects with it, and the chat helpers
    reject as not initialized. [currentWebLLMModel] and [isWebLLMLoaded]
    still show the unloaded model. *)
Theorem failed_switch_leaves_no_session (c : nat) (w : option Namespace)
    (modelId : string) (old : Engine) (err : Error) (messages : list ChatMessage)
    (options : JSObject) (s : State) :
  CreateMLCEngine_present w = true ->
  webLLMEngineRef s = Some old ->
  live (trace s) = [e_id old] ->
  let s' := resume_create c (Rejected err)
              (resume_unload c (Resolved tt) (loadWebLLMModel true c w modelId s)) in
  webLLMEngineRef s' = None /\
  live (trace s') = [] /\
  webLLMStatus s' = Failed /\
  webLLMError s' = Some err /\
  load_result s' !! c = Some (Rejected err) /\
  currentWebLLMModel s' = currentWebLLMModel s /\
  isWebLLMLoaded s' = isWebLLMLoaded s /\
  outcome (chatCompletion messages options s') = Done (Rejected EngineNotInitialized) /\
  outcome (streamChatCompletion messages options s') = Done (Rejected EngineNotInitialized) /\
  sent (chatCompletion messages options s') = [] /\
  sent (streamChatCompletion messages options s') = [].
Proof.
  intros Hw He Hlive s'.
  set (a1 := loadWebLLMModel true c w modelId s) in *.
  assert (E1 : a1 = _) by apply (loadWebLLMModel_unloads_first c w modelId old s Hw He).
  set (u1 := resume_unload c (Resolved tt) a1) in *.
  assert (E2 : u1 = _)
    by (apply (resume_unload_then_creates c modelId old); rewrite E1; cbn;
        apply lookup_insert_eq).
  rewrite E1 in E2. llm_fields_in E2.
  assert (E3 : s' = _)
    by (apply (resume_create_rejected c modelId err); rewrite E2; cbn;
        apply lookup_insert_eq).
  rewrite E2 in E3. llm_fields_in E3.
  rewrite E3. unfold chatCompletion, streamChatCompletion. llm_fields.
  rewrite <- !app_assoc, live_app, Hlive. cbn. rewrite Nat.eqb_refl. cbn.
  repeat split. apply lookup_insert_eq.
Qed.

(** *** Two loads at once *)

(** Two [loadWebLLMModel] calls that both start before the old session's
    [unload] has resolved: the old session's [unload] is called twice, the
    factory is called for both models, and once both have resolved two
    sessions are alive; the reference holds the one that resolved last and
    the other can no longer be reached. *)
Theorem overlapping_loads_leave_two_sessions (c1 c2 : nat) (w : option Namespace)
    (B C : string) (old e1 e2 : Engine) (s : State) :
  c1 <> c2 ->
  CreateMLCEngine_present w = true ->
  webLLMEngineRef s = Some old ->
  live (trace s) = [e_id old] ->
  let called := loadWebLLMModel true c2 w C (loadWebLLMModel true c1 w B s) in
  let unloaded := resume_unload c2 (Resolved tt) (resume_unload c1 (Resolved tt) called) in
  let s' := resume_create c2 (Resolved e2) (resume_create c1 (Resolved e1) unloaded) in
  trace s' =
    trace s ++ [UnloadCalled (e_id old); UnloadCalled (e_id old);
                UnloadDone (e_id old); CreateCalled B;
                UnloadDone (e_id old); CreateCalled C;
                CreateDone B (e_id e1); CreateDone C (e_id e2)] /\
  live (trace s') = [e_id e1; e_id e2] /\
  webLLMEngineRef s' = Some e2 /\
  currentWebLLMModel s' = Some C /\
  load_result s' !! c1 = Some (Resolved tt) /\
  load_result s' !! c2 = Some (Resolved tt).
Proof.
  intros Hc Hw He Hlive called unloaded s'.
  set (a1 := loadWebLLMModel true c1 w B s).
  assert (E1 : a1 = _) by apply (loadWebLLMModel_unloads_first c1 w B old s Hw He).
  assert (E2 : called = _)
    by (apply (loadWebLLMModel_unloads_first c2 w C old a1 Hw); rewrite E1; reflexivity).
  rewrite E1 in E2. llm_fields_in E2.
  set (u1 := resume_unload c1 (Resolved tt) called).
  assert (E3 : u1 = _)
    by (apply (resume_unload_then_creates c1 B old); rewrite E2; cbn;
        rewrite lookup_insert_ne by congruence; apply lookup_insert_eq).
  rewrite E2 in E3. llm_fields_in E3.
  assert (E4 : unloaded = _)
    by (apply (resume_unload_then_creates c2 C old u1); rewrite E3; cbn;
        rewrite lookup_insert_ne by congruence; apply lookup_insert_eq).
  rewrite E3 in E4. llm_fields_in E4.
  set (r1 := resume_create c1 (Resolved e1) unloaded).
  assert (E5 : r1 = _)
    by (apply (resume_create_stores c1 B e1 unloaded); rewrite E4; cbn;
        rewrite lookup_insert_ne by congruence; apply lookup_insert_eq).
  rewrite E4 in E5. llm_fields_in E5.
  assert (E6 : s' = _)
    by (apply (resume_create_stores c2 C e2 r1); rewrite E5; cbn;
        rewrite lookup_delete_ne by congruence; apply lookup_insert_eq).
  rewrite E5 in E6. llm_fields_in E6.
  rewrite E6. llm_fields. rewrite <- !app_assoc. cbn [app].
  split; [reflexivity |]. split.
  - rewrite live_app, Hlive. cbn. rewrite Nat.eqb_refl. reflexivity.
  - repeat split; [| apply lookup_insert_eq].
    rewrite lookup_insert_ne by congruence. apply lookup_insert_eq.
Qed.

(** *** A stream that does not end well *)

(** Whatever the engine answers, the request is sent once. When the
    stream throws after some chunks, [onChunk] has been called for the
    chunks before the failure and the promise rejects with the stream's
    error; a completion in place of a stream, or a rejected request, calls
    [onChunk] never. *)
Theorem stream_failure_keeps_delivered (messages : list ChatMessage)
    (options : JSObject) (engine : Engine) (s : State) :
  webLLMEngineRef s = Some engine ->
  webLLMReadyPromise s = Done (Resolved tt) ->
  let r := streamChatCompletion messages options s in
  sent r = [stream_request messages options] /\
  (forall chunks err,
     create engine (stream_request messages options) = Resolved (Stream chunks (Some err)) ->
     onChunk_calls r = delivered chunks /\ outcome r = Done (Rejected err)) /\
  (forall result,
     create engine (stream_request messages options) = Resolved (Completion result) ->
     onChunk_calls r = [] /\ outcome r = Done (Rejected NotIterable)) /\
  (forall err,
     create engine (stream_request messages options) = Rejected err ->
     onChunk_calls r = [] /\ outcome r = Done (Rejected err)).
Proof.
  intros He Hr r. subst r. unfold streamChatCompletion. rewrite He, Hr.
  split; [destruct (create engine _) as [[? | ? ?] | ?]; reflexivity |].
  split; [| split].
  - intros chunks err ->. cbn. rewrite for_await_delivered. split; reflexivity.
  - intros result ->. split; reflexivity.
  - intros err ->. split; reflexivity.
Qed.

(** *** Concrete runs *)

Lemma load_guards_reject_untouched_witness :
  load_result (loadWebLLMModel false 1 (Some loaded_namespace) "m" (session hello_engine "A"))
    !! 1%nat = Some (Rejected WebLLMNotEnabledLong) /\
  load_result (loadWebLLMModel true 1 None "m" (session hello_engine "A"))
    !! 1%nat = Some (Rejected WebLLMNotLoadedYet).
Proof.
  split.
  - apply (load_guards_reject_untouched false 1 (Some loaded_namespace) "m"
             (session hello_engine "A")). reflexivity.
  - apply (load_guards_reject_untouched true 1 None "m" (session hello_engine "A")).
    reflexivity.
Defined.

(** The automatic first load failed; a model is then loaded by hand. *)
Lemma chat_waits_for_the_first_load_witness :
  let s' := resume_create 1 (Resolved hello_engine)
              (loadWebLLMModel true 1 (Some loaded_namespace) "m"
                 (no_session (Done (Rejected (Thrown "no WebGPU"))) Failed)) in
  webLLMStatus s' = Ready /\
  chatCompletion [{| role := "user"; content := "Hello" |}] ∅ s' =
    {| sent := []; onChunk_calls := []; outcome := Done (Rejected (Thrown "no WebGPU")) |}.
Proof.
  cbv zeta.
  destruct (chat_waits_for_the_first_load 1 (Some loaded_namespace) "m" hello_engine
              [{| role := "user"; content := "Hello" |}] ∅
              (no_session (Done (Rejected (Thrown "no WebGPU"))) Failed))
    as (_ & Hst & _ & _ & _ & _ & Hrej).
  - reflexivity.
  - reflexivity.
  - split; [exact Hst |]. apply (Hrej (Thrown "no WebGPU")). reflexivity.
Defined.

Lemma failed_switch_leaves_no_session_witness :
  let s' := resume_create 1 (Rejected (Thrown "out of memory"))
              (resume_unload 1 (Resolved tt)
                 (loadWebLLMModel true 1 (Some loaded_namespace) "B"
                    (session hello_engine "A"))) in
  webLLMEngineRef s' = None /\
  currentWebLLMModel s' = Some "A" /\
  isWebLLMLoaded s' = true /\
  outcome (chatCompletion [] ∅ s') = Done (Rejected EngineNotInitialized).
Proof.
  cbv zeta.
  destruct (failed_switch_leaves_no_session 1 (Some loaded_namespace) "B" hello_engine
              (Thrown "out of memory") [] ∅ (session hello_engine "A"))
    as (Hr & _ & _ & _ & _ & Hc & Hl & Ho & _).
  - reflexivity.
  - reflexivity.
  - reflexivity.
  - repeat split; assumption.
Defined.

Lemma overlapping_loads_leave_two_sessions_witness :
  let w := Some loaded_namespace in
  let called := loadWebLLMModel true 2 w "C"
                  (loadWebLLMModel true 1 w "B" (session hello_engine "A")) in
  let unloaded := resume_unload 2 (Resolved tt) (resume_unload 1 (Resolved tt) called) in
  let s' := resume_create 2 (Resolved broken_stream_engine)
              (resume_create 1 (Resolved engine8) unloaded) in
  live (trace s') = [8%nat; 9%nat] /\ currentWebLLMModel s' = Some "C".
Proof.
  cbv zeta.
  destruct (overlapping_loads_leave_two_sessions 1 2 (Some loaded_namespace) "B" "C"
              hello_engine engine8 broken_stream_engine (session hello_engine "A"))
    as (_ & Hl & _ & Hc & _).
  - discriminate.
  - reflexivity.
  - reflexivity.
  - reflexivity.
  - split; assumption.
Defined.

Lemma stream_failure_keeps_delivered_witness :
  let r := streamChatCompletion [] ∅ (session broken_stream_engine "m") in
  onChunk_calls r = ["Hel"; "lo"] /\ outcome r = Done (Rejected (Thrown "connection lost")).
Proof.
  cbv zeta.
  destruct (stream_failure_keeps_delivered [] ∅ broken_stream_engine
              (session broken_stream_engine "m")) as (_ & Hfail & _).
  - reflexivity.
  - reflexivity.
  - apply (Hfail [text_chunk "Hel"; text_chunk "lo"] (Thrown "connection lost")).
    reflexivity.
Defined.

End WebLLMMore.

(** ** Booting WebLLM and unloading the engine *)

Module WebLLMBootFacts.
Import Backoff WebLLMLoad WebLLMBoot.
Import WebLLM(CreateCalled, CreateDone, UnloadCalled, UnloadDone, e_id).

Ltac boot_fields :=
  cbv [step init_effect tryLoadWebLLM ensureWebLLMPolling tick injectWebLLMScriptTag
       removeWebLLMScriptTag call_CreateMLCEngine resume_create script_onerror
       fire_timer run_callback unloadWebLLMModel resume_unload has_engine render
       not_ready_error script_load_error
       on_loader set_webLLMScriptRef set_head set_webLLMEngineRef setIsWebLLMLoaded
       setCurrentWebLLMModel set_creating set_unloading log
       setWebLLMStatus setWebLLMError set_webLLMPollTimerRef set_isWebLLMPollingRef
       set_timers set_next_id settle_ready
       handleWebLLMFailure clearWebLLMPolling setTimeout
       loader webLLMScriptRef head webLLMEngineRef isWebLLMLoaded currentWebLLMModel
       creating unloading trace
       webLLMStatus webLLMError webLLMPollTimerRef isWebLLMPollingRef webLLMAttemptRef
       webLLMReadyPromise timers next_id
       isBrowser enableWebLLM loadTimeout maxRetries
       clock CreateMLCEngine_present random
       cl_webLLMStatus t_id t_delay t_cb el_id el_onerror
       List.filter find negb andb orb snd fst ModelStatus_eqb];
  cbn [app].

Lemma step_initial_disabled (P : Props) (ev : Event) (env : Env) :
  isBrowser P && enableWebLLM P = false -> step P ev env initial = initial.
Proof.
  intros H. destruct P as [b e t m]. cbn in H.
  destruct ev; cbv [initial]; boot_fields; cbv [existsb]; try reflexivity.
  - destruct b, e; try discriminate; reflexivity.
Qed.

(** While WebLLM is disabled, or outside a browser, nothing that can
    happen changes the WebLLM state: no script is injected, no timer is
    set and no engine is created. *)
Theorem disabled_webllm_is_inert (P : Props) (evs : list (Event * Env)) :
  isBrowser P && enableWebLLM P = false ->
  run P evs initial = initial.
Proof.
  intros H. induction evs as [| [ev env] rest IH]; [reflexivity |].
  cbn [run]. rewrite (step_initial_disabled P ev env H). exact IH.
Qed.

Lemma disabled_webllm_is_inert_witness :
  let P := {| isBrowser := true; enableWebLLM := false; loadTimeout := 60000;
              maxRetries := 3 |} in
  let env := {| clock := 0; CreateMLCEngine_present := true; random := 0 |} in
  run P [(EvEffect, env); (EvTimer 1, env); (EvUnload, env); (EvEffect, env)] initial
  = initial.
Proof.
  intros P env. apply (disabled_webllm_is_inert P). reflexivity.
Defined.


(** Started by the effect with the library already in the page, the
    boot calls [CreateMLCEngine] for the default model in the same run,
    leaving neither script nor timer; when the engine arrives it becomes
    the session, the status is "ready" and the ready promise is settled. *)
Theorem boot_creates_default_engine (P : Props) (env env' : Env)
    (engine : WebLLM.Engine) (s : State) :
  isBrowser P = true -> enableWebLLM P = true ->
  CreateMLCEngine_present env = true ->
  webLLMEngineRef s = None ->
  webLLMStatus (loader s) = Idle ->
  isWebLLMPollingRef (loader s) = false ->
  let s1 := step P EvEffect env s in
  let s2 := step P (EvCreated (Resolved engine)) env' s1 in
  (trace s1 = trace s ++ [CreateCalled default_model] /\
   webLLMStatus (loader s1) = Loading /\
   webLLMScriptRef s1 = None /\
   webLLMPollTimerRef (loader s1) = None /\
   webLLMEngineRef s1 = None) /\
  (webLLMEngineRef s2 = Some engine /\
   webLLMStatus (loader s2) = Ready /\
   isWebLLMLoaded s2 = true /\
   currentWebLLMModel s2 = Some default_model /\
   webLLMReadyPromise (loader s2) <> Pending /\
   (webLLMReadyPromise (loader s) = Pending ->
    webLLMReadyPromise (loader s2) = Done (Resolved tt)) /\
   trace s2 =
     trace s ++ [CreateCalled default_model; CreateDone default_model (e_id engine)]).
Proof.
  intros Hb He Hp Hn Hi Hpoll s1 s2.
  destruct P as [b e t m]. destruct env as [clk present rnd].
  destruct s as [[st er pt po at_ rp tm nx] sr hd en ld cm cr un tr].
  cbn in Hb, He, Hp, Hn, Hi, Hpoll. subst.
  subst s2 s1. boot_fields.
  destruct sr as [el |]; boot_fields; rewrite <- ?app_assoc; cbn [app];
    (split; [repeat split |]);
    (repeat split; try discriminate; try (destruct rp; discriminate);
     try (intros ->; reflexivity)).
Qed.

Lemma boot_creates_default_engine_witness :
  let s2 := step enabled_props (EvCreated (Resolved WebLLM.hello_engine))
              {| clock := 5; CreateMLCEngine_present := true; random := 0 |}
              (step enabled_props EvEffect
                 {| clock := 0; CreateMLCEngine_present := true; random := 0 |} initial) in
  currentWebLLMModel s2 = Some default_model /\
  webLLMReadyPromise (loader s2) = Done (Resolved tt) /\
  trace s2 = [CreateCalled default_model; CreateDone default_model 7].
Proof.
  destruct (boot_creates_default_engine enabled_props
              {| clock := 0; CreateMLCEngine_present := true; random := 0 |}
              {| clock := 5; CreateMLCEngine_present := true; random := 0 |}
              WebLLM.hello_engine initial)
    as [_ (_ & _ & _ & Hc & _ & Hr & Ht)]; try reflexivity.
  split; [exact Hc | split; [apply Hr; reflexivity | exact Ht]].
Defined.


(** Started by the effect before the library is in the page, the boot
    sets the status to "loading", appends one script to the document and
    leaves one timer that runs [tick] again after 500 ms, with the
    deadline [loadTimeout] after the start. *)
Theorem effect_starts_webllm_polling (P : Props) (env : Env) (s : State) :
  isBrowser P = true -> enableWebLLM P = true ->
  CreateMLCEngine_present env = false ->
  0 < loadTimeout P ->
  webLLMEngineRef s = None ->
  webLLMStatus (loader s) = Idle ->
  isWebLLMPollingRef (loader s) = false ->
  webLLMScriptRef s = None ->
  let el := next_id (loader s) in
  let tid := Pos.succ el in
  let s1 := step P EvEffect env s in
  webLLMStatus (loader s1) = Loading /\
  webLLMError (loader s1) = None /\
  head s1 = head s ++ [{| el_id := el; el_onerror := render s |}] /\
  webLLMScriptRef s1 = Some el /\
  timers (loader s1) =
    timers (loader s) ++
    [{| t_id := tid; t_delay := 500;
        t_cb := CbTick (render s) (clock env + loadTimeout P) |}] /\
  webLLMPollTimerRef (loader s1) = Some tid /\
  isWebLLMPollingRef (loader s1) = true /\
  trace s1 = trace s /\ creating s1 = creating s.
Proof.
  intros Hb He Hp Ht Hn Hi Hpoll Hs el tid s1.
  destruct P as [b e t m]. destruct env as [clk present rnd].
  destruct s as [[st er pt po at_ rp tm nx] sr hd en ld cm cr un tr].
  cbn in Hb, He, Hp, Ht, Hn, Hi, Hpoll, Hs. subst.
  subst s1 tid el. boot_fields.
  assert (Hd : (clk + t <=? clk) = false) by (apply Z.leb_gt; lia).
  rewrite Hd. cbn [loader webLLMStatus webLLMError head webLLMScriptRef timers
    webLLMPollTimerRef isWebLLMPollingRef trace creating].
  repeat split.
Qed.

Lemma effect_starts_webllm_polling_witness :
  let s1 := step enabled_props EvEffect
              {| clock := 100; CreateMLCEngine_present := false; random := 0 |} initial in
  head s1 = [{| el_id := 1; el_onerror := {| cl_webLLMStatus := Idle |} |}] /\
  timers (loader s1) =
    [{| t_id := 2; t_delay := 500;
        t_cb := CbTick {| cl_webLLMStatus := Idle |} 60100 |}].
Proof.
  destruct (effect_starts_webllm_polling enabled_props
              {| clock := 100; CreateMLCEngine_present := false; random := 0 |} initial)
    as (_ & _ & Hh & _ & Ht & _); try reflexivity.
  split; [exact Hh | exact Ht].
Defined.

(** When the timer of the poll loop expires and the library is in the
    page, [tick] takes the script out of the document, leaves no timer
    and calls [CreateMLCEngine] for the default model. *)
Theorem webllm_poll_creates_engine (P : Props) (env : Env) (s : State)
    (cl : Closure) (deadline : Z) (tid el : positive) :
  timers (loader s) = [{| t_id := tid; t_delay := 500; t_cb := CbTick cl deadline |}] ->
  webLLMPollTimerRef (loader s) = Some tid ->
  head s = [{| el_id := el; el_onerror := cl |}] ->
  webLLMScriptRef s = Some el ->
  CreateMLCEngine_present env = true ->
  let s1 := step P (EvTimer tid) env s in
  trace s1 = trace s ++ [CreateCalled default_model] /\
  creating s1 = S (creating s) /\
  timers (loader s1) = [] /\ head s1 = [] /\
  webLLMScriptRef s1 = None /\
  webLLMPollTimerRef (loader s1) = None /\
  isWebLLMPollingRef (loader s1) = false /\
  webLLMStatus (loader s1) = webLLMStatus (loader s).
Proof.
  intros Htm Hpt Hh Hs Hp s1.
  destruct P as [b e t m]. destruct env as [clk present rnd].
  destruct s as [[st er pt po at_ rp tm nx] sr hd en ld cm cr un tr].
  cbn in Htm, Hpt, Hh, Hs, Hp. subst.
  subst s1. boot_fields. rewrite !Pos.eqb_refl. boot_fields.
  rewrite ?Pos.eqb_refl. boot_fields. repeat split.
Qed.


Lemma webllm_poll_creates_engine_witness :
  let s1 := step enabled_props (EvTimer 2)
              {| clock := 600; CreateMLCEngine_present := true; random := 0 |}
              (step enabled_props EvEffect
                 {| clock := 100; CreateMLCEngine_present := false; random := 0 |} initial) in
  trace s1 = [CreateCalled default_model] /\ head s1 = [] /\ timers (loader s1) = [].
Proof.
  destruct (webllm_poll_creates_engine enabled_props
              {| clock := 600; CreateMLCEngine_present := true; random := 0 |}
              (step enabled_props EvEffect
                 {| clock := 100; CreateMLCEngine_present := false; random := 0 |} initial)
              {| cl_webLLMStatus := Idle |} 60100 2 1)
    as (Ht & _ & Hq & Hh & _); try reflexivity.
  split; [exact Ht | split; [exact Hh | exact Hq]].
Defined.

(** When the poll loop reaches its deadline and attempts are left, the
    script is removed and [tryLoadWebLLM] of the render that started the
    load is scheduled after the backoff delay, the status staying as it
    is; when that timer expires the load starts again with a new script
    and a new poll loop, because that render's status was not "loading". *)
Theorem webllm_timeout_retries_load (P : Props) (env env' : Env) (s : State)
    (cl : Closure) (deadline : Z) (tid el : positive) :
  timers (loader s) = [{| t_id := tid; t_delay := 500; t_cb := CbTick cl deadline |}] ->
  webLLMPollTimerRef (loader s) = Some tid ->
  head s = [{| el_id := el; el_onerror := cl |}] ->
  webLLMScriptRef s = Some el ->
  isBrowser P = true -> enableWebLLM P = true ->
  CreateMLCEngine_present env = false -> deadline <= clock env ->
  webLLMAttemptRef (loader s) + 1 < maxRetries P ->
  webLLMEngineRef s = None ->
  cl_webLLMStatus cl <> Loading ->
  CreateMLCEngine_present env' = false -> 0 < loadTimeout P ->
  let attempt := webLLMAttemptRef (loader s) + 1 in
  let rid := next_id (loader s) in
  let s1 := step P (EvTimer tid) env s in
  let s2 := step P (EvTimer rid) env' s1 in
  (timers (loader s1) =
     [{| t_id := rid; t_delay := backoff_delay attempt (random env);
         t_cb := CbTryLoadWebLLM cl |}] /\
   head s1 = [] /\
   webLLMAttemptRef (loader s1) = attempt /\
   webLLMStatus (loader s1) = webLLMStatus (loader s) /\
   webLLMReadyPromise (loader s1) = webLLMReadyPromise (loader s)) /\
  (webLLMStatus (loader s2) = Loading /\
   head s2 = [{| el_id := Pos.succ rid; el_onerror := cl |}] /\
   timers (loader s2) =
     [{| t_id := Pos.succ (Pos.succ rid); t_delay := 500;
         t_cb := CbTick cl (clock env' + loadTimeout P) |}] /\
   webLLMAttemptRef (loader s2) = attempt).
Proof.
  intros Htm Hpt Hh Hs Hb He Hp Hd Ha Hn Hc Hp' Ht attempt rid s1 s2.
  destruct P as [b e t m]. destruct env as [clk present rnd].
  destruct env' as [clk' present' rnd'].
  destruct s as [[st er pt po at_ rp tm nx] sr hd en ld cm cr un tr].
  cbn in Htm, Hpt, Hh, Hs, Hb, He, Hp, Hd, Ha, Hn, Hp', Ht. subst.
  assert (E1 : s1 =
    {| loader :=
         {| webLLMStatus := st; webLLMError := er; webLLMPollTimerRef := None;
            isWebLLMPollingRef := false; webLLMAttemptRef := at_ + 1;
            webLLMReadyPromise := rp;
            timers := [{| t_id := nx; t_delay := backoff_delay (at_ + 1) rnd;
                          t_cb := CbTryLoadWebLLM cl |}];
            next_id := Pos.succ nx |};
       webLLMScriptRef := None; head := []; webLLMEngineRef := None;
       isWebLLMLoaded := ld; currentWebLLMModel := cm; creating := cr;
       unloading := un; trace := tr |}).
  { subst s1. boot_fields. rewrite !Pos.eqb_refl. boot_fields.
    assert (E : (deadline <=? clk) = true) by (apply Z.leb_le; exact Hd).
    rewrite E. rewrite ?Pos.eqb_refl. boot_fields.
    assert (E' : (at_ + 1 <? m) = true) by (apply Z.ltb_lt; exact Ha).
    rewrite E'. reflexivity. }
  subst s2 rid attempt. cbn [loader next_id webLLMAttemptRef].
  rewrite E1. clear E1 s1.
  split; [repeat split |].
  destruct cl as [c]. cbn in Hc.
  boot_fields. rewrite !Pos.eqb_refl. boot_fields.
  assert (E : (clk' + t <=? clk') = false) by (apply Z.leb_gt; lia).
  destruct c; try contradiction; boot_fields; rewrite E; repeat split.
Qed.

Lemma webllm_timeout_retries_load_witness :
  let s2 := step enabled_props (EvTimer 3)
              {| clock := 62000; CreateMLCEngine_present := false; random := 0 |}
              (step enabled_props (EvTimer 2)
                 {| clock := 60100; CreateMLCEngine_present := false; random := 0 |}
                 (step enabled_props EvEffect
                    {| clock := 100; CreateMLCEngine_present := false; random := 0 |}
                    initial)) in
  webLLMStatus (loader s2) = Loading /\
  head s2 = [{| el_id := 4; el_onerror := {| cl_webLLMStatus := Idle |} |}] /\
  webLLMAttemptRef (loader s2) = 1.
Proof.
  destruct (webllm_timeout_retries_load enabled_props
              {| clock := 60100; CreateMLCEngine_present := false; random := 0 |}
              {| clock := 62000; CreateMLCEngine_present := false; random := 0 |}
              (step enabled_props EvEffect
                 {| clock := 100; CreateMLCEngine_present := false; random := 0 |} initial)
              {| cl_webLLMStatus := Idle |} 60100 2 1)
    as [_ (Hs & Hh & _ & Ha)];
    try reflexivity; try discriminate; try (vm_compute; congruence).
  split; [exact Hs | split; [exact Hh | exact Ha]].
Defined.

(** A script that fails to load with no attempt left ends the load:
    the poll timer is cancelled, the script is out of the document, the
    status is "error" with the script error, a pending ready promise is
    rejected, and the effect does not start the load again. *)
Theorem webllm_script_error_is_final (P : Props) (env env' : Env) (s : State)
    (cl : Closure) (deadline : Z) (tid el : positive) :
  timers (loader s) = [{| t_id := tid; t_delay := 500; t_cb := CbTick cl deadline |}] ->
  webLLMPollTimerRef (loader s) = Some tid ->
  head s = [{| el_id := el; el_onerror := cl |}] ->
  webLLMScriptRef s = Some el ->
  maxRetries P <= webLLMAttemptRef (loader s) + 1 ->
  let s1 := step P (EvScriptError el) env s in
  webLLMStatus (loader s1) = Failed /\
  webLLMError (loader s1) = Some (script_load_error) /\
  timers (loader s1) = [] /\ head s1 = [] /\
  webLLMScriptRef s1 = None /\
  webLLMPollTimerRef (loader s1) = None /\
  isWebLLMPollingRef (loader s1) = false /\
  webLLMReadyPromise (loader s1) <> Pending /\
  (webLLMReadyPromise (loader s) = Pending ->
   webLLMReadyPromise (loader s1) = Done (Rejected script_load_error)) /\
  step P EvEffect env' s1 = s1.
Proof.
  intros Htm Hpt Hh Hs Ha s1.
  destruct P as [b e t m]. destruct env as [clk present rnd].
  destruct env' as [clk' present' rnd'].
  destruct s as [[st er pt po at_ rp tm nx] sr hd en ld cm cr un tr].
  cbn in Htm, Hpt, Hh, Hs, Ha. subst.
  assert (E1 : s1 =
    {| loader :=
         {| webLLMStatus := Failed; webLLMError := Some script_load_error;
            webLLMPollTimerRef := None;
            isWebLLMPollingRef := false; webLLMAttemptRef := at_ + 1;
            webLLMReadyPromise :=
              match rp with
              | Pending => Done (Rejected script_load_error)
              | Done r => Done r
              end;
            timers := []; next_id := nx |};
       webLLMScriptRef := None; head := []; webLLMEngineRef := en;
       isWebLLMLoaded := ld; currentWebLLMModel := cm; creating := cr;
       unloading := un; trace := tr |}).
  { subst s1. boot_fields. rewrite !Pos.eqb_refl. boot_fields.
    rewrite ?Pos.eqb_refl. boot_fields.
    assert (E' : (at_ + 1 <? m) = false) by (apply Z.ltb_ge; exact Ha).
    rewrite E'. reflexivity. }
  rewrite E1. clear E1 s1. boot_fields.
  repeat split; try (destruct rp; discriminate); try (intros ->; reflexivity).
  destruct e, en; reflexivity.
Qed.


Lemma webllm_script_error_is_final_witness :
  let P := {| isBrowser := true; enableWebLLM := true; loadTimeout := 60000;
              maxRetries := 1 |} in
  let env := {| clock := 100; CreateMLCEngine_present := false; random := 0 |} in
  let s1 := step P (EvScriptError 1) env (step P EvEffect env initial) in
  webLLMStatus (loader s1) = Failed /\
  webLLMReadyPromise (loader s1) = Done (Rejected (Thrown "WebLLM script load error")) /\
  step P EvEffect env s1 = s1.
Proof.
  intros P env.
  destruct (webllm_script_error_is_final P env env (step P EvEffect env initial)
              {| cl_webLLMStatus := Idle |} 60100 2 1)
    as (Hs & _ & _ & _ & _ & _ & _ & _ & Hr & He);
    try reflexivity; try (vm_compute; congruence).
  split; [exact Hs | split; [apply Hr; reflexivity | exact He]].
Defined.

(** When the creation of the default engine fails, the status is
    "error" with that error and a pending ready promise is rejected, but
    no retry is scheduled and the attempt counter is not touched; the
    effect does not start the load again. *)
Theorem engine_init_failure_is_final (P : Props) (env env' : Env) (err : Error)
    (s : State) :
  (0 < creating s)%nat ->
  let s1 := step P (EvCreated (Rejected err)) env s in
  webLLMStatus (loader s1) = Failed /\
  webLLMError (loader s1) = Some err /\
  webLLMReadyPromise (loader s1) <> Pending /\
  (webLLMReadyPromise (loader s) = Pending ->
   webLLMReadyPromise (loader s1) = Done (Rejected err)) /\
  timers (loader s1) = timers (loader s) /\
  webLLMAttemptRef (loader s1) = webLLMAttemptRef (loader s) /\
  webLLMEngineRef s1 = webLLMEngineRef s /\
  step P EvEffect env' s1 = s1.
Proof.
  intros Hc s1.
  destruct P as [b e t m]. destruct env' as [clk' present' rnd'].
  destruct s as [[st er pt po at_ rp tm nx] sr hd en ld cm cr un tr].
  cbn in Hc. destruct cr as [| n]; [lia |].
  subst s1. boot_fields.
  repeat split; try (destruct rp; discriminate); try (intros ->; reflexivity).
  destruct e, en; reflexivity.
Qed.

Lemma engine_init_failure_is_final_witness :
  let env := {| clock := 0; CreateMLCEngine_present := true; random := 0 |} in
  let s1 := step enabled_props (EvCreated (Rejected (Thrown "out of memory"))) env
              (step enabled_props EvEffect env initial) in
  webLLMStatus (loader s1) = Failed /\
  timers (loader s1) = [] /\
  webLLMAttemptRef (loader s1) = 0 /\
  step enabled_props EvEffect env s1 = s1.
Proof.
  intros env.
  destruct (engine_init_failure_is_final enabled_props env env (Thrown "out of memory")
              (step enabled_props EvEffect env initial))
    as (Hs & _ & _ & _ & Ht & Ha & _ & He); [vm_compute; lia |].
  split; [exact Hs | split; [exact Ht | split; [exact Ha | exact He]]].
Defined.

Lemma unload_resolved_eq (P : Props) (env env' : Env) (engine : WebLLM.Engine)
    (s : State) :
  webLLMEngineRef s = Some engine ->
  step P (EvUnloaded (e_id engine) (Resolved tt)) env' (step P EvUnload env s) =
  {| loader := setWebLLMStatus Idle (loader s);
     webLLMScriptRef := webLLMScriptRef s; head := head s;
     webLLMEngineRef := None; isWebLLMLoaded := false; currentWebLLMModel := None;
     creating := creating s;
     unloading := remove_first (e_id engine) (unloading s ++ [e_id engine]);
     trace := trace s ++ [UnloadCalled (e_id engine); UnloadDone (e_id engine)] |}.
Proof.
  intros Hn.
  destruct s as [[st er pt po at_ rp tm nx] sr hd en ld cm cr un tr].
  cbn in Hn. subst.
  assert (E : existsb (Nat.eqb (e_id engine)) (un ++ [e_id engine]) = true).
  { rewrite existsb_app. cbn [existsb]. rewrite Nat.eqb_refl.
    rewrite Bool.orb_true_r. reflexivity. }
  boot_fields. rewrite E. rewrite <- app_assoc. reflexivity.
Qed.

(** Unloading the engine does not last: the unload sets the status to
    "idle" and clears the session, which makes the effect run, and the
    effect starts the boot again, calling [CreateMLCEngine] for the
    default model. *)
Theorem unload_restarts_default_engine (P : Props) (env0 env1 env : Env)
    (engine : WebLLM.Engine) (s : State) :
  isBrowser P = true -> enableWebLLM P = true ->
  CreateMLCEngine_present env = true ->
  webLLMEngineRef s = Some engine ->
  isWebLLMPollingRef (loader s) = false ->
  let s2 := step P (EvUnloaded (e_id engine) (Resolved tt)) env1 (step P EvUnload env0 s) in
  let s3 := step P EvEffect env s2 in
  (webLLMStatus (loader s2) = Idle /\
   webLLMEngineRef s2 = None /\
   isWebLLMLoaded s2 = false /\
   currentWebLLMModel s2 = None) /\
  (webLLMStatus (loader s3) = Loading /\
   creating s3 = S (creating s) /\
   trace s3 =
     trace s ++ [UnloadCalled (e_id engine); UnloadDone (e_id engine);
                 CreateCalled default_model]).
Proof.
  intros Hb He Hp Hn Hpoll s2 s3.
  subst s3 s2. rewrite (unload_resolved_eq P env0 env1 engine s Hn).
  split; [repeat split |].
  destruct P as [b e t m]. destruct env as [clk present rnd].
  destruct s as [[st er pt po at_ rp tm nx] sr hd en ld cm cr un tr].
  cbn in Hb, He, Hp, Hpoll. subst.
  boot_fields.
  destruct sr as [el |]; boot_fields; rewrite <- ?app_assoc; repeat split.
Qed.

Lemma unload_restarts_default_engine_witness :
  let env := {| clock := 0; CreateMLCEngine_present := true; random := 0 |} in
  let s3 := step enabled_props EvEffect env
              (step enabled_props (EvUnloaded 7 (Resolved tt)) env
                 (step enabled_props EvUnload env (loaded WebLLM.hello_engine "A"))) in
  webLLMStatus (loader s3) = Loading /\
  trace s3 = [CreateCalled "A"; CreateDone "A" 7; UnloadCalled 7; UnloadDone 7;
              CreateCalled default_model].
Proof.
  intros env.
  destruct (unload_restarts_default_engine enabled_props env env env
              WebLLM.hello_engine (loaded WebLLM.hello_engine "A"))
    as [_ (Hs & _ & Ht)]; try reflexivity.
  split; [exact Hs | exact Ht].
Defined.

(** If the engine's [unload()] rejects, [unloadWebLLMModel] rejects
    with the session as it was: the engine stays in place with its model
    name, status and loaded flag. *)
Theorem unload_rejection_keeps_session (P : Props) (env env' : Env) (err : Error)
    (engine : WebLLM.Engine) (s : State) :
  webLLMEngineRef s = Some engine ->
  let s2 := step P (EvUnloaded (e_id engine) (Rejected err)) env' (step P EvUnload env s) in
  webLLMEngineRef s2 = Some engine /\
  loader s2 = loader s /\
  isWebLLMLoaded s2 = isWebLLMLoaded s /\
  currentWebLLMModel s2 = currentWebLLMModel s /\
  trace s2 = trace s ++ [UnloadCalled (e_id engine)].
Proof.
  intros Hn s2.
  destruct s as [[st er pt po at_ rp tm nx] sr hd en ld cm cr un tr].
  cbn in Hn. subst.
  assert (E : existsb (Nat.eqb (e_id engine)) (un ++ [e_id engine]) = true).
  { rewrite existsb_app. cbn [existsb]. rewrite Nat.eqb_refl.
    rewrite Bool.orb_true_r. reflexivity. }
  subst s2. boot_fields. rewrite E. repeat split.
Qed.

Lemma unload_rejection_keeps_session_witness :
  let env := {| clock := 0; CreateMLCEngine_present := true; random := 0 |} in
  let s2 := step enabled_props (EvUnloaded 7 (Rejected (Thrown "device lost"))) env
              (step enabled_props EvUnload env (loaded WebLLM.hello_engine "A")) in
  webLLMEngineRef s2 = Some WebLLM.hello_engine /\
  currentWebLLMModel s2 = Some "A" /\
  webLLMStatus (loader s2) = Ready.
Proof.
  intros env.
  destruct (unload_rejection_keeps_session enabled_props env env (Thrown "device lost")
              WebLLM.hello_engine (loaded WebLLM.hello_engine "A"))
    as (He & Hl & _ & Hc & _); [reflexivity |].
  split; [exact He | split; [exact Hc |]].
  exact (f_equal webLLMStatus Hl).
Defined.

End WebLLMBootFacts.
